(** * py21cmmc/_21cmfast/_utils.py: struct wrappers and the box cache

    A shallow embedding of [StructWithDefaults] and [OutputStruct], the two
    classes of [_utils.py], together with the properties of their textual
    identity, of [update], of the cache lookup [find_existing] and of
    [read].

    Conventions of the embedding.
    - A Python [dict] is an association list: Python dictionaries keep
      their insertion order and [OutputStruct.__repr__] depends on it.
    - A Python [str] is a Rocq [string] of ASCII characters.
    - A method that can raise returns a [Res]; a method that mutates its
      object returns the object it leaves behind, also when it raises.
    - Names of fields, keyword arguments and stored attributes are taken
      to differ from the names of the members the two classes define
      themselves (methods, properties, [_name], [_strings], the mangled
      [__cstruct] slot). *)

From Stdlib Require Import ZArith List String Ascii Bool Lia.
From Stdlib Require Import DecimalString.
From Stdlib Require Import Sorting.Mergesort Sorting.Sorted Sorting.Permutation.
Import ListNotations.
Open Scope string_scope.
Open Scope Z_scope.

(** ** Exceptions and results *)

Inductive PyExn : Type :=
| AttributeError (msg : string)
| TypeError (msg : string)
| ValueError (msg : string)
| KeyError (key : string)
| IOError (msg : string).

Inductive Res (A : Type) : Type :=
| Ok (a : A)
| Raise (e : PyExn).
Arguments Ok {A} a.
Arguments Raise {A} e.

Definition res_bind {A B} (r : Res A) (k : A -> Res B) : Res B :=
  match r with
  | Ok a => k a
  | Raise e => Raise e
  end.

Notation "x <- c1 ;; c2" := (res_bind c1 (fun x => c2))
  (at level 61, c1 at next level, right associativity).

(** ** Python values held by parameter fields *)

(** A float is carried by the text [str] prints for it. *)
Inductive PyVal : Type :=
| VNone
| VBool (b : bool)
| VInt (z : Z)
| VFloat (text : string)
| VStr (s : string).

Definition str_of_Z (z : Z) : string := NilZero.string_of_int (Z.to_int z).

(** [str(v)] *)
Definition str (v : PyVal) : string :=
  match v with
  | VNone => "None"
  | VBool true => "True"
  | VBool false => "False"
  | VInt z => str_of_Z z
  | VFloat text => text
  | VStr s => s
  end.

(** ** Dictionaries *)

Section Dict.
Context {V : Type}.

Definition dict : Type := list (string * V).

(** [d.get(k)] *)
Fixpoint dict_get (k : string) (d : dict) : option V :=
  match d with
  | [] => None
  | (k', v) :: d' => if String.eqb k k' then Some v else dict_get k d'
  end.

(** [k in d] *)
Definition dict_in (k : string) (d : dict) : bool :=
  match dict_get k d with Some _ => true | None => false end.

(** [d[k] = v]: an existing key keeps its place, a new one goes last. *)
Fixpoint dict_set (k : string) (v : V) (d : dict) : dict :=
  match d with
  | [] => [(k, v)]
  | (k', v') :: d' =>
      if String.eqb k k' then (k', v) :: d' else (k', v') :: dict_set k v d'
  end.

(** [del d[k]] *)
Definition dict_del (k : string) (d : dict) : dict :=
  filter (fun kv => negb (String.eqb k (fst kv))) d.

Definition keys (d : dict) : list string := map fst d.
End Dict.
Arguments dict V : clear implicits.

(** ** Strings *)

(** [sep.join(l)] *)
Fixpoint join (sep : string) (l : list string) : string :=
  match l with
  | [] => ""
  | [s] => s
  | s :: l' => s ++ sep ++ join sep l'
  end.

(** [s.startswith(p)] *)
Definition startswith (p s : string) : bool := String.prefix p s.

(** [s.endswith(p)] *)
Definition endswith (p s : string) : bool :=
  let n := String.length s in
  let m := String.length p in
  (m <=? n)%nat && String.eqb (String.substring (n - m) m s) p.

(** [sorted(l)] on strings: the ascending rearrangement for the order on
    code points. *)
Module StringOrder <: Orders.TotalLeBool.
Definition t := string.
Definition leb := String.leb.
Definition leb_total
  : forall a1 a2, leb a1 a2 = true \/ leb a2 a1 = true := String.leb_total.
End StringOrder.

Module StringSort := Sort StringOrder.

Definition sorted (l : list string) : list string := StringSort.sort l.

(** ** [hashlib.md5]

    RFC 1321 on the bytes of the string; [hexdigest] prints the sixteen
    digest bytes as lowercase hexadecimal. *)
Module MD5.

Definition wrap32 (x : Z) : Z := x mod 4294967296.

Definition rotl32 (x : Z) (n : Z) : Z :=
  wrap32 (Z.lor (Z.shiftl x n) (Z.shiftr x (32 - n))).

Definition not32 (x : Z) : Z := 4294967295 - x.

Definition K : list Z :=
  [3614090360; 3905402710; 606105819; 3250441966; 4118548399; 1200080426;
   2821735955; 4249261313; 1770035416; 2336552879; 4294925233; 2304563134;
   1804603682; 4254626195; 2792965006; 1236535329; 4129170786; 3225465664;
   643717713; 3921069994; 3593408605; 38016083; 3634488961; 3889429448;
   568446438; 3275163606; 4107603335; 1163531501; 2850285829; 4243563512;
   1735328473; 2368359562; 4294588738; 2272392833; 1839030562; 4259657740;
   2763975236; 1272893353; 4139469664; 3200236656; 681279174; 3936430074;
   3572445317; 76029189; 3654602809; 3873151461; 530742520; 3299628645;
   4096336452; 1126891415; 2878612391; 4237533241; 1700485571; 2399980690;
   4293915773; 2240044497; 1873313359; 4264355552; 2734768916; 1309151649;
   4149444226; 3174756917; 718787259; 3951481745].

Definition S : list Z :=
  [7; 12; 17; 22; 7; 12; 17; 22; 7; 12; 17; 22; 7; 12; 17; 22;
   5; 9; 14; 20; 5; 9; 14; 20; 5; 9; 14; 20; 5; 9; 14; 20;
   4; 11; 16; 23; 4; 11; 16; 23; 4; 11; 16; 23; 4; 11; 16; 23;
   6; 10; 15; 21; 6; 10; 15; 21; 6; 10; 15; 21; 6; 10; 15; 21].

Definition bytes_of_string (s : string) : list Z :=
  map (fun c => Z.of_nat (nat_of_ascii c)) (list_ascii_of_string s).

(** The message followed by 0x80, zeros up to 56 modulo 64, and the bit
    length as eight little-endian bytes. *)
Definition le_bytes (n : nat) (x : Z) : list Z :=
  map (fun i => Z.shiftr x (8 * Z.of_nat i) mod 256) (seq 0 n).

Definition pad (msg : list Z) : list Z :=
  let len := Z.of_nat (List.length msg) in
  let zeros := Z.to_nat ((55 - len) mod 64) in
  msg ++ [128] ++ repeat 0 zeros ++ le_bytes 8 ((8 * len) mod 2 ^ 64).

Definition word_le (bs : list Z) : Z :=
  fold_right (fun b acc => b + 256 * acc) 0 bs.

(** The sixteen 32-bit words of a 64-byte block. *)
Definition words (block : list Z) : list Z :=
  map (fun i => word_le (firstn 4 (skipn (4 * i) block))) (seq 0 16).

Fixpoint blocks (fuel : nat) (bs : list Z) : list (list Z) :=
  match fuel, bs with
  | O, _ => []
  | _, [] => []
  | Datatypes.S fuel', _ => firstn 64 bs :: blocks fuel' (skipn 64 bs)
  end.

Definition state : Type := (Z * Z * Z * Z)%type.

Definition round (M : list Z) (st : state) (i : nat) : state :=
  let '(A, B, C, D) := st in
  let iz := Z.of_nat i in
  let '(F, g) :=
    if iz <? 16 then (Z.lor (Z.land B C) (Z.land (not32 B) D), iz)
    else if iz <? 32 then
      (Z.lor (Z.land D B) (Z.land (not32 D) C), (5 * iz + 1) mod 16)
    else if iz <? 48 then (Z.lxor (Z.lxor B C) D, (3 * iz + 5) mod 16)
    else (Z.lxor C (Z.lor B (not32 D)), (7 * iz) mod 16) in
  let F' := wrap32 (F + A + nth i K 0 + nth (Z.to_nat g) M 0) in
  (D, wrap32 (B + rotl32 F' (nth i S 0)), B, C).

Definition compress (st : state) (block : list Z) : state :=
  let '(a0, b0, c0, d0) := st in
  let '(A, B, C, D) := fold_left (round (words block)) (seq 0 64) st in
  (wrap32 (a0 + A), wrap32 (b0 + B), wrap32 (c0 + C), wrap32 (d0 + D)).

Definition init : state := (1732584193, 4023233417, 2562383102, 271733878).

Definition digest (s : string) : list Z :=
  let padded := pad (bytes_of_string s) in
  let '(a, b, c, d) :=
    fold_left compress (blocks (List.length padded) padded) init in
  le_bytes 4 a ++ le_bytes 4 b ++ le_bytes 4 c ++ le_bytes 4 d.

Definition hex_digit (x : Z) : ascii :=
  nth (Z.to_nat x) (list_ascii_of_string "0123456789abcdef") "0"%char.

Definition hex_of_bytes (bs : list Z) : string :=
  string_of_list_ascii
    (flat_map (fun b => [hex_digit (b / 16); hex_digit (b mod 16)]) bs).

Definition hexdigest (s : string) : string := hex_of_bytes (digest s).

End MD5.

Definition md5_hexdigest (s : string) : string := MD5.hexdigest s.

(** ** The built-in [hash]

    What [hash] is applied to in [_utils.py]: a string, or a bound method
    [obj.func], which Python identifies by the identity [id(obj)] of its
    receiver and by the function it wraps. The hash function itself belongs
    to the interpreter and is a parameter of the methods that call it. *)

Inductive Hashable : Type :=
| HStr (s : string)
| HBoundMethod (self_id : Z) (func : string).

(** ** Foreign structures

    A [cffi] structure records the fields that have been assigned; a
    field never assigned reads as zero, a pointer field as [NULL]. *)

Inductive CVal : Type :=
| CPtr (addr : Z)
| CPrim (v : PyVal).

Definition NULL : Z := 0.

Record CData : Type := {
  c_type : string;
  c_values : dict CVal
}.

(** [ffi.new(ctype)] *)
Definition ffi_new (ctype : string) : CData :=
  {| c_type := ctype; c_values := [] |}.

(** ** Warnings *)

Record Warning : Type := {
  w_message : string;
  w_args : dict PyVal
}.

(** ** [StructWithDefaults] *)
Module StructWithDefaults.

(** What a subclass declares: its name, [_name], [_ffi], [_defaults_]
    and the fields it exposes as read-only properties. [_ffi] is [None]
    in [StructWithDefaults] itself; a subclass sets it to the [cffi]
    object of its library, whose [new] builds a structure of a declared
    type and raises for any other. *)
Record class : Type := {
  __name__ : string;
  cls__name : option string;
  cls__ffi : option (string -> Res CData);
  _defaults_ : dict PyVal;
  properties : list string
}.

(** An instance: its class and its [__dict__], split into the
    attributes that hold parameter values and the three book-keeping
    attributes the class manages itself. *)
Record t : Type := {
  __class__ : class;
  attrs : dict PyVal;
  inst__name : option string;
  _strings : option (list string);
  __cstruct : option CData
}.

Definition with_attrs (self : t) (a : dict PyVal) : t :=
  {| __class__ := __class__ self; attrs := a;
     inst__name := inst__name self; _strings := _strings self;
     __cstruct := __cstruct self |}.

Definition with__name (self : t) (n : option string) : t :=
  {| __class__ := __class__ self; attrs := attrs self;
     inst__name := n; _strings := _strings self;
     __cstruct := __cstruct self |}.

Definition with__strings (self : t) (l : option (list string)) : t :=
  {| __class__ := __class__ self; attrs := attrs self;
     inst__name := inst__name self; _strings := l;
     __cstruct := __cstruct self |}.

Definition with__cstruct (self : t) (c : option CData) : t :=
  {| __class__ := __class__ self; attrs := attrs self;
     inst__name := inst__name self; _strings := _strings self;
     __cstruct := c |}.

Definition is_property (k : string) (self : t) : bool :=
  existsb (String.eqb k) (properties (__class__ self)).

(** [setattr(self, k, v)]: a read-only property refuses the
    assignment. *)
Definition setattr (k : string) (v : PyVal) (self : t) : Res t :=
  if is_property k self
  then Raise (AttributeError "can't set attribute")
  else Ok (with_attrs self (dict_set k v (attrs self))).

(** Modelled from the spec: the getters of the properties a subclass
    defines, which are not part of [_utils.py]. A derived field reads
    its settable backing slot, the hidden attribute ["_" + k] that
    [__init__] and [update] fall back to. *)
Definition property_get (k : string) (self : t) : Res PyVal :=
  match dict_get ("_" ++ k) (attrs self) with
  | Some v => Ok v
  | None => Raise (AttributeError ("_" ++ k))
  end.

(** [getattr(self, k)] *)
Definition getattr (k : string) (self : t) : Res PyVal :=
  if is_property k self then property_get k self
  else match dict_get k (attrs self) with
       | Some v => Ok v
       | None => Raise (AttributeError k)
       end.

(** [self._name]: the instance attribute, else the class attribute. *)
Definition _name (self : t) : option string :=
  match inst__name self with
  | Some n => Some n
  | None => cls__name (__class__ self)
  end.

(** The body shared by the loops of [__init__] and [update]:
<<
    try:
        setattr(self, k, v)
    except AttributeError:
        setattr(self, "_" + k, v)
>> *)
Definition store (k : string) (v : PyVal) (self : t) : Res t :=
  match setattr k v self with
  | Raise (AttributeError _) => setattr ("_" ++ k) v self
  | r => r
  end.

Definition _logic (self : t) : Res t := Ok self.

Fixpoint init_loop (items : dict PyVal) (kwargs : dict PyVal) (self : t)
  : Res t :=
  match items with
  | [] => Ok self
  | (k, v) :: items' =>
      let v := match dict_get k kwargs with Some w => w | None => v end in
      self <- store k v self ;;
      init_loop items' kwargs self
  end.

Definition blank (cls : class) : t :=
  {| __class__ := cls; attrs := []; inst__name := None;
     _strings := None; __cstruct := None |}.

Definition __init__ (cls : class) (kwargs : dict PyVal) : Res t :=
  self <- init_loop (_defaults_ cls) kwargs (blank cls) ;;
  self <- _logic self ;;
  let self :=
    match _name self with
    | None => with__name self (Some (__name__ cls))
    | Some _ => self
    end in
  Ok (with__strings self (Some [])).

(** [self._new()], that is [self._ffi.new("struct " + self._name + "*")]:
    the method [new] is looked up first, then the argument is built, then
    the library is called. *)
Definition _new (self : t) : Res CData :=
  match cls__ffi (__class__ self) with
  | None => Raise (AttributeError "'NoneType' object has no attribute 'new'")
  | Some new =>
      match _name self with
      | Some n => new ("struct " ++ n ++ "*")
      | None =>
          Raise (TypeError "can only concatenate str (not NoneType) to str")
      end
  end.

(** The cached property [_cstruct]: the structure and the instance that
    now remembers it. *)
Definition _cstruct (self : t) : Res (CData * t) :=
  match __cstruct self with
  | Some c => Ok (c, self)
  | None => c <- _new self ;; Ok (c, with__cstruct self (Some c))
  end.

Definition update_warning (kwargs : dict PyVal) : Warning :=
  {| w_message :=
       "The following arguments to be updated are not compatible with this class: %s";
     w_args := kwargs |}.

(** The loop of [update]; it returns what is left of [kwargs] and the
    instance as the loop leaves it, also when it raises. *)
Fixpoint update_loop (ks : list string) (kwargs : dict PyVal) (self : t)
  : Res (dict PyVal) * t :=
  match ks with
  | [] => (Ok kwargs, self)
  | k :: ks' =>
      match dict_get k kwargs with
      | Some v =>
          match store k v self with
          | Ok self' => update_loop ks' (dict_del k kwargs) self'
          | Raise e => (Raise e, self)
          end
      | None => update_loop ks' kwargs self
      end
  end.

(** [self.update] with keyword arguments [kwargs]: the outcome, the instance left behind and
    the warnings issued so far. *)
Definition update (kwargs : dict PyVal) (self : t) (log : list Warning)
  : Res unit * t * list Warning :=
  match update_loop (keys (_defaults_ (__class__ self))) kwargs self with
  | (Raise e, self) => (Raise e, self, log)
  | (Ok rest, self) =>
      let log :=
        match rest with
        | [] => log
        | _ :: _ => (log ++ [update_warning rest])%list
        end in
      match _logic self with
      | Raise e => (Raise e, self, log)
      | Ok self =>
          let self := with__strings self (Some []) in
          match __cstruct self with
          | Some _ => (Ok tt, with__cstruct self None, log)
          | None =>
              (Raise (AttributeError "_StructWithDefaults__cstruct"),
               self, log)
          end
      end
  end.

(** [self.__defining_dict] *)
Fixpoint defining_items (ks : list string) (self : t) : Res (dict PyVal) :=
  match ks with
  | [] => Ok []
  | k :: ks' =>
      if startswith "RANDOM_SEED" k then defining_items ks' self
      else
        v <- getattr k self ;;
        d <- defining_items ks' self ;;
        Ok ((k, v) :: d)
  end.

Definition __defining_dict (self : t) : Res (dict PyVal) :=
  defining_items (keys (_defaults_ (__class__ self))) self.

Definition render (kv : string * PyVal) : string :=
  fst kv ++ ":" ++ str (snd kv).

Definition __repr__ (self : t) : Res string :=
  d <- __defining_dict self ;;
  Ok (__name__ (__class__ self) ++ "("
      ++ join ", " (sorted (map render d)) ++ ")").

Definition __eq__ (self other : t) : Res bool :=
  a <- __repr__ self ;;
  b <- __repr__ other ;;
  Ok (String.eqb a b).

(** [hash(self.__repr__)]: the argument is the bound method, not the
    string it would return. *)
Definition __hash__ (hash : Hashable -> Z) (id_self : Z) (self : t) : Z :=
  hash (HBoundMethod id_self "__repr__").

End StructWithDefaults.

(** ** Paths and the seed pattern *)

(** [os.path.join(a, b)] on a POSIX system *)
Definition path_join (a b : string) : string :=
  if startswith "/" b then b
  else if String.eqb a "" || endswith "/" a then a ++ b
  else a ++ "/" ++ b.

Definition is_digit (c : ascii) : bool :=
  let n := nat_of_ascii c in ((48 <=? n) && (n <=? 57))%nat.

(** [re.sub("r\d+\.", "r*.", f)], one pass from left to right. [pending]
    holds the digits read after an [r] that may still start a match; when
    the match fails the [r] and its digits are copied, since no match can
    start on a digit. *)
Fixpoint sub_seed (pending : option string) (f : string) : string :=
  match f with
  | EmptyString =>
      match pending with
      | None => ""
      | Some ds => "r" ++ ds
      end
  | String c f' =>
      match pending with
      | None =>
          if Ascii.eqb c "r" then sub_seed (Some "") f'
          else String c (sub_seed None f')
      | Some ds =>
          if is_digit c then sub_seed (Some (ds ++ String c "")) f'
          else if Ascii.eqb c "." && negb (String.eqb ds "")
          then "r*." ++ sub_seed None f'
          else if Ascii.eqb c "r" then "r" ++ ds ++ sub_seed (Some "") f'
          else "r" ++ ds ++ String c (sub_seed None f')
      end
  end.

Definition re_sub_seed (f : string) : string := sub_seed None f.

(** ** [numpy] arrays and [h5py] containers *)

(** An array: the name of its [dtype], the address of its buffer and its
    contents. *)
Record ndarray : Type := {
  dtype_name : string;
  buffer : Z;
  contents : list PyVal
}.

(** A group of a container: its datasets and its attributes. *)
Record Group : Type := {
  datasets : dict ndarray;
  group_attrs : dict PyVal
}.

Definition Container : Type := dict Group.

(** ** [OutputStruct] *)
Module OutputStruct.

(** [t.type.kind] of a field of the C structure *)
Inductive kind : Type := pointer | primitive | other.

Definition kind_eqb (a b : kind) : bool :=
  match a, b with
  | pointer, pointer | primitive, primitive | other, other => true
  | _, _ => false
  end.

Record cfield : Type := {
  f_name : string;
  f_kind : kind;
  f_ctype : string
}.

(** What a subclass declares, and the fields [cffi] reports for the C
    structure it wraps. *)
Record class : Type := {
  __name__ : string;
  cls__name : option string;
  cls__id : option string;
  cfields : list cfield
}.

(** What an attribute of an instance can hold: a reference to a
    [StructWithDefaults] instance, an array, or a plain value. *)
Inductive value : Type :=
| Params (addr : Z)
| Array (a : ndarray)
| Py (v : PyVal).

Record t : Type := {
  __class__ : class;
  __dict__ : dict value;
  __cstruct : option CData
}.

(** The instance and the parameter records it refers to, which other
    code may hold as well. *)
Record state : Type := {
  self : t;
  heap : Z -> StructWithDefaults.t
}.

Definition M (A : Type) : Type := state -> Res A * state.

Definition ret {A} (a : A) : M A := fun s => (Ok a, s).
Definition raise {A} (e : PyExn) : M A := fun s => (Raise e, s).
Definition bind {A B} (m : M A) (k : A -> M B) : M B :=
  fun s => match m s with
           | (Ok a, s') => k a s'
           | (Raise e, s') => (Raise e, s')
           end.
Definition lift {A} (r : Res A) : M A := fun s => (r, s).
(** A computation that only reads the state. *)
Definition reader {A} (f : state -> Res A) : M A := fun s => (f s, s).

Notation "x <~ c1 ;; c2" := (bind c1 (fun x => c2))
  (at level 61, c1 at next level, right associativity).
Notation "c1 ;;; c2" := (bind c1 (fun _ => c2))
  (at level 61, right associativity).

(** [for x in l: body(x)] *)
Fixpoint for_each {A} (l : list A) (body : A -> M unit) : M unit :=
  match l with
  | [] => ret tt
  | x :: l' => body x ;;; for_each l' body
  end.

(** [try: m except AttributeError: pass] *)
Definition pass_AttributeError (m : M unit) : M unit :=
  fun s => match m s with
           | (Raise (AttributeError _), s') => (Ok tt, s')
           | r => r
           end.

(** What the module takes from outside: the configured cache directory
    (already expanded), the subclass's [_init_arrays], [numpy]'s
    assignment [dst[...] = src] ([None] when the shapes do not fit),
    [cffi]'s conversion of a Python value to a primitive C type ([None]
    when it refuses the value), and the file system with its containers
    ([None] for a path that does not open as a container). *)
Record env : Type := {
  boxdir : string;
  _init_arrays : M unit;
  np_assign : ndarray -> ndarray -> option ndarray;
  c_convert : string -> PyVal -> option PyVal;
  path_exists : string -> bool;
  glob : string -> list string;
  h5py_File : string -> option Container
}.

Definition set_dict (s : state) (d : dict value) : state :=
  {| self := {| __class__ := __class__ (self s); __dict__ := d;
                __cstruct := __cstruct (self s) |};
     heap := heap s |}.

Definition set_cstruct (s : state) (c : option CData) : state :=
  {| self := {| __class__ := __class__ (self s);
                __dict__ := __dict__ (self s); __cstruct := c |};
     heap := heap s |}.

Definition set_heap (s : state) (a : Z) (p : StructWithDefaults.t) : state :=
  {| self := self s;
     heap := fun a' => if a' =? a then p else heap s a' |}.

Definition of_option (o : option string) : value :=
  match o with
  | Some n => Py (VStr n)
  | None => Py VNone
  end.

(** [getattr(self, k)]: the instance dictionary, then the class
    attributes [_name] and [_id]. *)
Definition lookup (k : string) (s : state) : Res value :=
  match dict_get k (__dict__ (self s)) with
  | Some v => Ok v
  | None =>
      if String.eqb k "_name" then Ok (of_option (cls__name (__class__ (self s))))
      else if String.eqb k "_id" then Ok (of_option (cls__id (__class__ (self s))))
      else Raise (AttributeError k)
  end.

Definition getattr (k : string) : M value := reader (lookup k).

Definition hasattr (k : string) : M bool :=
  fun s => match lookup k s with
           | Ok _ => (Ok true, s)
           | Raise _ => (Ok false, s)
           end.

(** The properties [OutputStruct] defines without a setter. *)
Definition read_only_properties : list string :=
  ["_cstruct"; "fields"; "fieldnames"; "_pointer_fields";
   "_primitive_fields"; "arrays_initialized"; "_md5"; "_hashname"].

Definition read_only (k : string) : bool :=
  existsb (String.eqb k) read_only_properties.

(** [setattr(self, k, v)]: a property without a setter refuses the
    assignment, any other name goes to the instance dictionary. *)
Definition setattr (k : string) (v : value) : M unit :=
  fun s => if read_only k
           then (Raise (AttributeError "can't set attribute"), s)
           else (Ok tt, set_dict s (dict_set k v (__dict__ (self s)))).

(** [getattr(self, k)[...] = a]: the array the instance holds under [k]
    takes new contents; no attribute is assigned. *)
Definition assign_array (k : string) (a : ndarray) : M unit :=
  fun s => (Ok tt, set_dict s (dict_set k (Array a) (__dict__ (self s)))).

(** [prefix + self.<attr>] or [self.<attr> + suffix]: the attribute has
    to be a string. *)
Definition str_attr (k : string) (s : state) : Res string :=
  v <- lookup k s ;;
  match v with
  | Py (VStr n) => Ok n
  | _ => Raise (TypeError "can only concatenate str to str")
  end.

(** [self._ffi.new("struct " + self._id + "*")], for an output class
    whose [_ffi] is a library that declares the structure. *)
Definition _new : M CData :=
  reader (fun s => n <- str_attr "_id" s ;;
                   Ok (ffi_new ("struct " ++ n ++ "*"))).

Definition _cstruct : M CData :=
  fun s => match __cstruct (self s) with
           | Some c => (Ok c, s)
           | None =>
               match _new s with
               | (Ok c, s') => (Ok c, set_cstruct s' (Some c))
               | (Raise e, s') => (Raise e, s')
               end
           end.

Definition fields : M (list cfield) :=
  _cstruct ;;; reader (fun s => Ok (cfields (__class__ (self s)))).

Definition fields_of_kind (k : kind) (fs : list cfield) : list cfield :=
  filter (fun f => kind_eqb (f_kind f) k) fs.

Definition _pointer_fields : M (list cfield) :=
  fs <~ fields ;; ret (fields_of_kind pointer fs).

Definition _primitive_fields : M (list cfield) :=
  fs <~ fields ;; ret (fields_of_kind primitive fs).

(** [getattr(cdata, k) == ffi.NULL] *)
Definition c_is_NULL (c : CData) (k : string) : bool :=
  match dict_get k (c_values c) with
  | Some (CPtr a) => a =? NULL
  | Some (CPrim _) => false
  | None => true
  end.

(** [setattr(self._cstruct, k, v)] *)
Definition c_setattr (k : string) (v : CVal) : M unit :=
  c <~ _cstruct ;;
  fun s => (Ok tt,
            set_cstruct s (Some {| c_type := c_type c;
                                   c_values := dict_set k v (c_values c) |})).

Fixpoint arrays_initialized_loop (ks : list cfield) : M bool :=
  match ks with
  | [] => ret true
  | k :: ks' =>
      h <~ hasattr (f_name k) ;;
      if negb h then ret false
      else
        c <~ _cstruct ;;
        if c_is_NULL c (f_name k) then ret false
        else arrays_initialized_loop ks'
  end.

Definition arrays_initialized : M bool :=
  ks <~ _pointer_fields ;; arrays_initialized_loop ks.

Definition _TYPEMAP : dict string :=
  [("float32", "float *"); ("float64", "double *"); ("int32", "int *")].

(** [self._ary2buf(ary)]: the pointer and its C type. *)
Definition _ary2buf (ary : value) : Res (string * Z) :=
  match ary with
  | Array a =>
      match dict_get (dtype_name a) _TYPEMAP with
      | Some ctype => Ok (ctype, buffer a)
      | None => Raise (KeyError (dtype_name a))
      end
  | _ => Raise (ValueError "ary must be a numpy array")
  end.

(** [cffi] stores a pointer in a field of the same pointer type, or in
    a [void *] field. *)
Definition store_pointer (f : cfield) (p : string * Z) : M unit :=
  if String.eqb (f_ctype f) (fst p) || String.eqb (f_ctype f) "void *"
  then c_setattr (f_name f) (CPtr (snd p))
  else raise (TypeError "initializer for ctype must be a pointer to same type").

Section Methods.
Variable E : env.

Definition store_primitive (f : cfield) (v : value) : M unit :=
  match v with
  | Py v =>
      match c_convert E (f_ctype f) v with
      | Some w => c_setattr (f_name f) (CPrim w)
      | None => raise (TypeError "initializer for a primitive ctype")
      end
  | _ => raise (TypeError "initializer for a primitive ctype")
  end.

(** [setattr(self._cstruct, k, self._ary2buf(getattr(self, k)))] *)
Definition bind_array (k : cfield) : M unit :=
  _cstruct ;;;
  v <~ getattr (f_name k) ;;
  p <~ lift (_ary2buf v) ;;
  store_pointer k p.

(** [setattr(self._cstruct, k, getattr(self, k))], skipped on
    [AttributeError] *)
Definition bind_primitive (k : cfield) : M unit :=
  pass_AttributeError (
    _cstruct ;;;
    v <~ getattr (f_name k) ;;
    store_primitive k v).

Definition _init_cstruct : M unit :=
  _init_arrays E ;;;
  ks <~ _pointer_fields ;;
  for_each ks bind_array ;;;
  ks <~ _primitive_fields ;;
  for_each ks bind_primitive ;;;
  ok <~ arrays_initialized ;;
  if negb ok then
    s <~ reader (fun s => Ok s) ;;
    raise (AttributeError
             (__name__ (__class__ (self s))
              ++ " is ill-defined. It has not initialized all necessary arrays."))
  else ret tt.

Definition __call__ : M CData :=
  ok <~ arrays_initialized ;;
  (if negb ok then _init_cstruct else ret tt) ;;;
  _cstruct.

(** The [repr] of every attribute that is a [StructWithDefaults]
    instance, in the order of [__dict__]. *)
Fixpoint repr_params (h : Z -> StructWithDefaults.t) (items : dict value)
  : Res (list string) :=
  match items with
  | [] => Ok []
  | (_, Params a) :: items' =>
      r <- StructWithDefaults.__repr__ (h a) ;;
      rs <- repr_params h items' ;;
      Ok (r :: rs)
  | _ :: items' => repr_params h items'
  end.

Definition __repr__ (s : state) : Res string :=
  n <- str_attr "_name" s ;;
  rs <- repr_params (heap s) (__dict__ (self s)) ;;
  Ok (n ++ "(" ++ join "; " rs ++ ")").

Definition __hash__ (hash : Hashable -> Z) (s : state) : Res Z :=
  r <- __repr__ s ;; Ok (hash (HStr r)).

Definition _md5 (s : state) : Res string :=
  r <- __repr__ s ;; Ok (md5_hexdigest r).

(** [self.cosmo_params.RANDOM_SEED] *)
Definition cosmo_seed (s : state) : Res PyVal :=
  cp <- lookup "cosmo_params" s ;;
  match cp with
  | Params a => StructWithDefaults.getattr "RANDOM_SEED" (heap s a)
  | _ => Raise (AttributeError "RANDOM_SEED")
  end.

Definition _hashname (s : state) : Res string :=
  n <- str_attr "_name" s ;;
  h <- _md5 s ;;
  seed <- cosmo_seed s ;;
  Ok (n ++ "_" ++ h ++ "_r" ++ str seed ++ ".h5").

(** The truth value of an optional string argument: [None] and the
    empty string are false. *)
Definition given (o : option string) : option string :=
  match o with
  | Some x => if String.eqb x "" then None else Some x
  | None => None
  end.

Definition _get_fname (direc fname : option string) (s : state)
  : Res string :=
  fname <- match given direc, given fname with
           | Some _, Some f => Ok f
           | _, _ => _hashname s
           end ;;
  let direc := match given direc with
               | Some d => d
               | None => boxdir E
               end in
  Ok (path_join direc fname).

Definition _find_file_without_seed (f : string) : option string :=
  match glob E (re_sub_seed f) with
  | g :: _ => Some g
  | [] => None
  end.

(** The second half of [find_existing], the search of the default
    directory. *)
Definition find_in_default (s : state) : Res (option string) :=
  f <- _get_fname None None s ;;
  if path_exists E f then Ok (Some f)
  else Ok (given (_find_file_without_seed f)).

(** The first half, entered when [direc is not None]; [None] means
    that it fell through. *)
Definition find_in_direc (direc : string) (fname : option string)
  (match_seed : bool) (s : state) : Res (option string) :=
  hit <- match fname with
         | Some _ =>
             p <- _get_fname (Some direc) fname s ;;
             if path_exists E p
             then q <- _get_fname (Some direc) fname s ;; Ok (Some q)
             else Ok None
         | None => Ok None
         end ;;
  match hit with
  | Some p => Ok (Some p)
  | None =>
      f <- _get_fname (Some direc) None s ;;
      if path_exists E f then Ok (Some f)
      else if negb match_seed
           then Ok (given (_find_file_without_seed f))
           else Ok None
  end.

Definition find_existing (direc fname : option string) (match_seed : bool)
  (s : state) : Res (option string) :=
  hit <- match direc with
         | Some d => find_in_direc d fname match_seed s
         | None => Ok None
         end ;;
  match hit with
  | Some p => Ok (Some p)
  | None => find_in_default s
  end.

Definition exists_ (direc fname : option string) (match_seed : bool)
  (s : state) : Res bool :=
  r <- find_existing direc fname match_seed s ;;
  Ok (match r with Some _ => true | None => false end).

Definition no_boxes : PyExn :=
  IOError "No boxes exist for these cosmo and user parameters.".

(** ["There is no group %s in the file" % self._name] *)
Definition no_group (name : value) : PyExn :=
  IOError ("There is no group "
           ++ match name with
              | Py v => str v
              | Params _ => "<StructWithDefaults>"
              | Array _ => "<ndarray>"
              end
           ++ " in the file").

(** [f[self._name]] under the bare [except] *)
Definition open_boxes (f : Container) (s : state) : Res Group :=
  name <- lookup "_name" s ;;
  match name with
  | Py (VStr n) =>
      match dict_get n f with
      | Some g => Ok g
      | None => Raise (no_group name)
      end
  | _ => Raise (no_group name)
  end.

(** [getattr(self, k)[...] = boxes[k][...]] *)
Definition fill (kv : string * ndarray) : M unit :=
  dst <~ getattr (fst kv) ;;
  match dst with
  | Array a =>
      match np_assign E a (snd kv) with
      | Some a' => assign_array (fst kv) a'
      | None => raise (ValueError "could not broadcast input array")
      end
  | _ => raise (TypeError "object does not support item assignment")
  end.

(** [f['cosmo'].attrs['RANDOM_SEED']] *)
Definition stored_seed (f : Container) : Res PyVal :=
  match dict_get "cosmo" f with
  | Some g =>
      match dict_get "RANDOM_SEED" (group_attrs g) with
      | Some v => Ok v
      | None => Raise (KeyError "RANDOM_SEED")
      end
  | None => Raise (KeyError "cosmo")
  end.

(** [self.cosmo_params._RANDOM_SEED = seed] *)
Definition set_cosmo_seed (seed : PyVal) : M unit :=
  cp <~ getattr "cosmo_params" ;;
  match cp with
  | Params a =>
      fun s =>
        match StructWithDefaults.setattr "_RANDOM_SEED" seed (heap s a) with
        | Ok p => (Ok tt, set_heap s a p)
        | Raise e => (Raise e, s)
        end
  | _ => raise (AttributeError "_RANDOM_SEED")
  end.

Definition read (direc fname : option string) (match_seed : bool)
  : M unit :=
  pth <~ reader (find_existing direc fname match_seed) ;;
  match pth with
  | None => raise no_boxes
  | Some pth =>
      ok <~ arrays_initialized ;;
      (if negb ok then _init_cstruct else ret tt) ;;;
      f <~ lift (match h5py_File E pth with
                 | Some f => Ok f
                 | None => Raise (IOError "Unable to open file")
                 end) ;;
      boxes <~ reader (open_boxes f) ;;
      for_each (datasets boxes) fill ;;;
      for_each (group_attrs boxes)
               (fun kv => setattr (fst kv) (Py (snd kv))) ;;;
      seed <~ lift (stored_seed f) ;;
      set_cosmo_seed seed ;;;
      setattr "filled" (Py (VBool true))
  end.

Definition is_None (v : value) : bool :=
  match v with
  | Py VNone => true
  | _ => false
  end.

Definition blank (cls : class) (h : Z -> StructWithDefaults.t) : state :=
  {| self := {| __class__ := cls; __dict__ := []; __cstruct := None |};
     heap := h |}.

Definition __init__ (user_params cosmo_params : value) (init : bool)
  (kwargs : dict value) : M unit :=
  setattr "user_params" user_params ;;;
  setattr "cosmo_params" cosmo_params ;;;
  for_each kwargs (fun kv => setattr (fst kv) (snd kv)) ;;;
  (if init then _init_cstruct else ret tt) ;;;
  cls <~ reader (fun s => Ok (__name__ (__class__ (self s)))) ;;
  n <~ getattr "_name" ;;
  (if is_None n then setattr "_name" (Py (VStr cls)) else ret tt) ;;;
  i <~ getattr "_id" ;;
  (if is_None i then setattr "_id" (Py (VStr cls)) else ret tt) ;;;
  setattr "filled" (Py (VBool false)).

End Methods.

End OutputStruct.

(** ** A concrete interpreter, file system and record kinds

    Used to evaluate the methods on explicit inputs. *)

(** [_Py_HashPointer] of CPython 3.8 and later on a 64-bit machine: the
    address rotated right by four bits, read as a signed word, with [-1]
    replaced by [-2]. *)
Definition Py_HashPointer (p : Z) : Z :=
  let y := Z.lor (Z.shiftr (p mod 2 ^ 64) 4) (Z.shiftl p 60 mod 2 ^ 64) in
  let x := if y <? 2 ^ 63 then y else y - 2 ^ 64 in
  if x =? -1 then -2 else x.

(** [hash] in CPython 3.8 and later. A bound method hashes to the hash of
    the address of its receiver xor the hash of its function, a function
    to the hash of its address; [func_addr] places the functions. The hash
    of a string is salted per process and left open as [str_hash]. *)
Definition cpython_hash (str_hash : string -> Z) (func_addr : string -> Z)
  (o : Hashable) : Z :=
  match o with
  | HStr s => str_hash s
  | HBoundMethod self_id func =>
      let x := Z.lxor (Py_HashPointer self_id)
                      (Py_HashPointer (func_addr func)) in
      if x =? -1 then -2 else x
  end.

(** [fnmatch] restricted to literal characters and [*]; as in [glob], a
    [*] does not cross a directory separator. *)
Fixpoint glob_match (pat : string) : string -> bool :=
  match pat with
  | EmptyString => fun s => String.eqb s ""
  | String c pat' =>
      if Ascii.eqb c "*" then
        fix star (s : string) : bool :=
          glob_match pat' s
          || match s with
             | EmptyString => false
             | String d s' => negb (Ascii.eqb d "/") && star s'
             end
      else
        fun s =>
          match s with
          | EmptyString => false
          | String d s' => Ascii.eqb c d && glob_match pat' s'
          end
  end.

Definition same_shape_assign (dst src : ndarray) : option ndarray :=
  if (List.length (contents dst) =? List.length (contents src))%nat
  then Some {| dtype_name := dtype_name dst; buffer := buffer dst;
               contents := contents src |}
  else None.

Definition numbers_only (ctype : string) (v : PyVal) : option PyVal :=
  match v with
  | VInt _ | VFloat _ | VBool _ => Some v
  | _ => None
  end.

(** An environment over a directory listing: each path is a container or
    a file that is not one. *)
Definition disk_env (cache : string) (hook : OutputStruct.M unit)
  (files : dict (option Container)) : OutputStruct.env :=
  {| OutputStruct.boxdir := cache;
     OutputStruct._init_arrays := hook;
     OutputStruct.np_assign := same_shape_assign;
     OutputStruct.c_convert := numbers_only;
     OutputStruct.path_exists := fun p => dict_in p files;
     OutputStruct.glob := fun pat => filter (glob_match pat) (keys files);
     OutputStruct.h5py_File :=
       fun p => match dict_get p files with
                | Some (Some c) => Some c
                | _ => None
                end |}.

(** The [new] of a library that declares every structure asked for. *)
Definition lib_new (ctype : string) : Res CData := Ok (ffi_new ctype).

(** A parameter kind whose seed is a property over [_RANDOM_SEED], one
    that stores the seed as a plain attribute, and a kind without seed. *)
Definition CosmoParams : StructWithDefaults.class :=
  {| StructWithDefaults.__name__ := "CosmoParams";
     StructWithDefaults.cls__name := None;
     StructWithDefaults.cls__ffi := Some lib_new;
     StructWithDefaults._defaults_ :=
       [("RANDOM_SEED", VNone); ("SIGMA_8", VFloat "0.8")];
     StructWithDefaults.properties := ["RANDOM_SEED"] |}.

Definition PlainSeedParams : StructWithDefaults.class :=
  {| StructWithDefaults.__name__ := "CosmoParams";
     StructWithDefaults.cls__name := None;
     StructWithDefaults.cls__ffi := Some lib_new;
     StructWithDefaults._defaults_ :=
       [("RANDOM_SEED", VNone); ("SIGMA_8", VFloat "0.8")];
     StructWithDefaults.properties := [] |}.

Definition UserParams : StructWithDefaults.class :=
  {| StructWithDefaults.__name__ := "UserParams";
     StructWithDefaults.cls__name := None;
     StructWithDefaults.cls__ffi := Some lib_new;
     StructWithDefaults._defaults_ := [("HII_DIM", VInt 64)];
     StructWithDefaults.properties := [] |}.

(** The record of the update example: defaults [{a: 1, b: 2}]. *)
Definition AB : StructWithDefaults.class :=
  {| StructWithDefaults.__name__ := "AB";
     StructWithDefaults.cls__name := None;
     StructWithDefaults.cls__ffi := Some lib_new;
     StructWithDefaults._defaults_ := [("a", VInt 1); ("b", VInt 2)];
     StructWithDefaults.properties := [] |}.

(** A kind in which one field name extends another by a digit. *)
Definition A_A1 : StructWithDefaults.class :=
  {| StructWithDefaults.__name__ := "C";
     StructWithDefaults.cls__name := None;
     StructWithDefaults.cls__ffi := Some lib_new;
     StructWithDefaults._defaults_ := [("a", VInt 1); ("a1", VInt 2)];
     StructWithDefaults.properties := [] |}.

(** The instance a successful construction [cls(kwargs)] returns. *)
Definition construct (cls : StructWithDefaults.class) (kwargs : dict PyVal)
  : StructWithDefaults.t :=
  match StructWithDefaults.__init__ cls kwargs with
  | Ok self => self
  | Raise _ => StructWithDefaults.blank cls
  end.

(** An output kind with one array and one scalar. *)
Definition Boxes : OutputStruct.class :=
  {| OutputStruct.__name__ := "Boxes";
     OutputStruct.cls__name := None;
     OutputStruct.cls__id := None;
     OutputStruct.cfields :=
       [ {| OutputStruct.f_name := "field0";
            OutputStruct.f_kind := OutputStruct.pointer;
            OutputStruct.f_ctype := "float *" |};
         {| OutputStruct.f_name := "amplitude";
            OutputStruct.f_kind := OutputStruct.primitive;
            OutputStruct.f_ctype := "float" |} ] |}.

Definition zeros (addr : Z) (n : nat) : ndarray :=
  {| dtype_name := "float32"; buffer := addr;
     contents := repeat (VFloat "0.0") n |}.

(** An [_init_arrays] that allocates [field0] when it is not set. *)
Definition init_field0 : OutputStruct.M unit :=
  OutputStruct.bind (OutputStruct.hasattr "field0") (fun h =>
    if h then OutputStruct.ret tt
    else OutputStruct.setattr "field0" (OutputStruct.Array (zeros 94000 2))).

(** An [_init_arrays] that forgets to allocate. *)
Definition init_nothing : OutputStruct.M unit := OutputStruct.ret tt.

(** Two parameter records on the heap: user parameters at address
    [4096], cosmological parameters of kind [cosmo] with seed [seed] at
    address [8192]. *)
Definition heap_of (cosmo : StructWithDefaults.class) (seed : Z)
  : Z -> StructWithDefaults.t :=
  fun a => if a =? 8192
           then construct cosmo [("RANDOM_SEED", VInt seed)]
           else construct UserParams [].

(** [Boxes(user_params, cosmo_params)] over that heap. *)
Definition boxes_state (E : OutputStruct.env)
  (cosmo : StructWithDefaults.class) (seed : Z) : OutputStruct.state :=
  snd (OutputStruct.__init__ E (OutputStruct.Params 4096)
         (OutputStruct.Params 8192) false []
         (OutputStruct.blank Boxes (heap_of cosmo seed))).

(** The same structure over user parameters built from [user_kwargs]. *)
Definition boxes_state_with (E : OutputStruct.env) (user_kwargs : dict PyVal)
  (cosmo : StructWithDefaults.class) (seed : Z) : OutputStruct.state :=
  snd (OutputStruct.__init__ E (OutputStruct.Params 4096)
         (OutputStruct.Params 8192) false []
         (OutputStruct.blank Boxes
            (fun a => if a =? 8192
                      then construct cosmo [("RANDOM_SEED", VInt seed)]
                      else construct UserParams user_kwargs))).

(** The container [write] leaves for seed [seed]. *)
Definition stored (seed : Z) : Container :=
  [ ("cosmo", {| datasets := [];
                 group_attrs := [("RANDOM_SEED", VInt seed);
                                 ("SIGMA_8", VFloat "0.8")] |});
    ("user_params", {| datasets := [];
                       group_attrs := [("HII_DIM", VInt 64)] |});
    ("Boxes", {| datasets :=
                   [("field0", {| dtype_name := "float32"; buffer := 0;
                                  contents := [VFloat "1.5"; VFloat "2.5"] |})];
                 group_attrs := [("amplitude", VFloat "0.8")] |}) ].

(** ** Notions used in the statements *)

Definition declares_property (cls : StructWithDefaults.class) (k : string)
  : bool :=
  existsb (String.eqb k) (StructWithDefaults.properties cls).

(** The attribute that holds field [k]: the hidden one when [k] is a
    property. *)
Definition slot (cls : StructWithDefaults.class) (k : string) : string :=
  if declares_property cls k then "_" ++ k else k.

(** The fall-back of [__init__] and [update] works for field [k]: when
    [k] is a property, its hidden attribute is neither a property nor a
    field of its own. *)
Definition hidden_ok (cls : StructWithDefaults.class) (k : string) : bool :=
  negb (declares_property cls k)
  || (negb (declares_property cls ("_" ++ k))
      && negb (dict_in ("_" ++ k) (StructWithDefaults._defaults_ cls))).

Definition wf_class (cls : StructWithDefaults.class) : bool :=
  forallb (hidden_ok cls) (keys (StructWithDefaults._defaults_ cls)).

Definition volatile (k : string) : bool := startswith "RANDOM_SEED" k.

(** Two records of one kind that agree on every field that is not a
    seed. *)
Definition same_identity (p q : StructWithDefaults.t) : Prop :=
  StructWithDefaults.__class__ p = StructWithDefaults.__class__ q /\
  forall k,
    In k (keys (StructWithDefaults._defaults_ (StructWithDefaults.__class__ p))) ->
    volatile k = false ->
    StructWithDefaults.getattr k p = StructWithDefaults.getattr k q.

(** The keyword arguments [update] and [__init__] recognise, and the
    others. *)
Definition recognized (cls : StructWithDefaults.class) (kwargs : dict PyVal)
  : dict PyVal :=
  filter (fun kv => dict_in (fst kv) (StructWithDefaults._defaults_ cls)) kwargs.

Definition rejected (cls : StructWithDefaults.class) (kwargs : dict PyVal)
  : dict PyVal :=
  filter (fun kv => negb (dict_in (fst kv) (StructWithDefaults._defaults_ cls)))
         kwargs.

(** The identity string as the specification words it: the fields sorted
    by name, each rendered [name:value], separated by ["; "]. *)
Definition spec_identity_with (sep : string) (self : StructWithDefaults.t)
  : Res string :=
  d <- StructWithDefaults.__defining_dict self ;;
  Ok (StructWithDefaults.__name__ (StructWithDefaults.__class__ self) ++ "("
      ++ join sep
           (map (fun k => k ++ ":"
                          ++ match dict_get k d with
                             | Some v => str v
                             | None => ""
                             end)
                (sorted (keys d)))
      ++ ")").

Definition spec_identity : StructWithDefaults.t -> Res string :=
  spec_identity_with "; ".

(** The parameter records an output structure refers to, in the order of
    its [__dict__]. *)
Fixpoint params_in (h : Z -> StructWithDefaults.t)
  (items : dict OutputStruct.value) : list StructWithDefaults.t :=
  match items with
  | [] => []
  | (_, OutputStruct.Params a) :: items' => h a :: params_in h items'
  | _ :: items' => params_in h items'
  end.

Definition params_of (s : OutputStruct.state) : list StructWithDefaults.t :=
  params_in (OutputStruct.heap s) (OutputStruct.__dict__ (OutputStruct.self s)).

(** The fingerprint as the specification words it: the digest of the
    representations of the parameter records over their full field sets,
    seed included. *)
Fixpoint full_items (ks : list string) (self : StructWithDefaults.t)
  : Res (dict PyVal) :=
  match ks with
  | [] => Ok []
  | k :: ks' =>
      v <- StructWithDefaults.getattr k self ;;
      d <- full_items ks' self ;;
      Ok ((k, v) :: d)
  end.

Definition full_repr (self : StructWithDefaults.t) : Res string :=
  d <- full_items (keys (StructWithDefaults._defaults_
                           (StructWithDefaults.__class__ self))) self ;;
  Ok (StructWithDefaults.__name__ (StructWithDefaults.__class__ self) ++ "("
      ++ join ", " (sorted (map StructWithDefaults.render d)) ++ ")").

Fixpoint full_reprs (ps : list StructWithDefaults.t) : Res (list string) :=
  match ps with
  | [] => Ok []
  | p :: ps' => r <- full_repr p ;; rs <- full_reprs ps' ;; Ok (r :: rs)
  end.

Definition spec_fingerprint (s : OutputStruct.state) : Res string :=
  n <- OutputStruct.str_attr "_name" s ;;
  rs <- full_reprs (params_of s) ;;
  Ok (md5_hexdigest (n ++ "(" ++ join "; " rs ++ ")")).

(** What the instances before and after a loop of stores share. *)
Definition same_frame (p q : StructWithDefaults.t) : Prop :=
  StructWithDefaults.__class__ q = StructWithDefaults.__class__ p /\
  StructWithDefaults.inst__name q = StructWithDefaults.inst__name p /\
  StructWithDefaults._strings q = StructWithDefaults._strings p /\
  StructWithDefaults.__cstruct q = StructWithDefaults.__cstruct p.

Definition without (ks : list string) (kwargs : dict PyVal) : dict PyVal :=
  filter (fun kv => negb (existsb (String.eqb (fst kv)) ks)) kwargs.

Definition warnings_for (rest : dict PyVal) : list Warning :=
  match rest with
  | [] => []
  | _ :: _ => [StructWithDefaults.update_warning rest]
  end.

Definition delattr_outcome (self : StructWithDefaults.t) : Res unit :=
  match StructWithDefaults.__cstruct self with
  | Some _ => Ok tt
  | None => Raise (AttributeError "_StructWithDefaults__cstruct")
  end.

(** The identity strings of a list of parameter records. *)
Fixpoint reprs (ps : list StructWithDefaults.t) : Res (list string) :=
  match ps with
  | [] => Ok []
  | p :: ps' =>
      r <- StructWithDefaults.__repr__ p ;;
      rs <- reprs ps' ;;
      Ok (r :: rs)
  end.

(** Pointer field [f] is an attribute of the instance and the structure
    [c] holds a pointer for it that is not [NULL]. *)
Definition bound (s : OutputStruct.state) (c : CData) (f : OutputStruct.cfield)
  : bool :=
  match OutputStruct.lookup (OutputStruct.f_name f) s with
  | Ok _ => negb (OutputStruct.c_is_NULL c (OutputStruct.f_name f))
  | Raise _ => false
  end.

Definition pointer_fields (s : OutputStruct.state) : list OutputStruct.cfield :=
  OutputStruct.fields_of_kind OutputStruct.pointer
    (OutputStruct.cfields (OutputStruct.__class__ (OutputStruct.self s))).

(** The array [v] can be bound to pointer field [f]: it is an array of a
    mapped [dtype] whose pointer type the field accepts. *)
Definition acceptable (f : OutputStruct.cfield) (v : OutputStruct.value)
  : bool :=
  match OutputStruct._ary2buf v with
  | Ok p => String.eqb (OutputStruct.f_ctype f) (fst p)
            || String.eqb (OutputStruct.f_ctype f) "void *"
  | Raise _ => false
  end.

(** A computation that never raises the error [read] reserves for a
    miss. *)
Definition quiet {A} (m : OutputStruct.M A) : Prop :=
  forall s e s', m s = (Raise e, s') -> e <> OutputStruct.no_boxes.

Definition rquiet {A} (r : Res A) : Prop :=
  forall e, r = Raise e -> e <> OutputStruct.no_boxes.

(** A path that is returned exists, or matches the wildcard pattern of
    some file name. *)
Definition matched (E : OutputStruct.env) (p : string) : Prop :=
  OutputStruct.path_exists E p = true \/
  exists f, In p (OutputStruct.glob E (re_sub_seed f)).

(** A character that ends any attempt of the seed pattern to match: not
    a digit, not [r], not a dot. *)
Definition resets (c : ascii) : bool :=
  negb (is_digit c) && negb (Ascii.eqb c "r") && negb (Ascii.eqb c ".").

Definition all_digits (s : string) : bool :=
  forallb is_digit (list_ascii_of_string s).

Definition no_r (s : string) : bool :=
  forallb (fun c => negb (Ascii.eqb c "r")) (list_ascii_of_string s).

(** A digit or one of the letters [a] to [f]. *)
Definition is_lower_hex (c : ascii) : bool :=
  let n := nat_of_ascii c in
  is_digit c || ((97 <=? n) && (n <=? 102))%nat.

(** The directory [_get_fname] joins the file name to. *)
Definition directory_of (E : OutputStruct.env) (direc : option string)
  : string :=
  match OutputStruct.given direc with
  | Some d => d
  | None => OutputStruct.boxdir E
  end.

(** What [__init__] leaves in [_name] or [_id] when the class attribute
    is [o]: that attribute, else the name of the class. *)
Definition default_name (o : option string) (cls : OutputStruct.class)
  : string :=
  match o with
  | Some n => n
  | None => OutputStruct.__name__ cls
  end.

Definition primitive_fields (s : OutputStruct.state)
  : list OutputStruct.cfield :=
  OutputStruct.fields_of_kind OutputStruct.primitive
    (OutputStruct.cfields (OutputStruct.__class__ (OutputStruct.self s))).

(** The structure [c] after [setattr(c, k, v)]. *)
Definition c_put (c : CData) (k : string) (v : CVal) : CData :=
  {| c_type := c_type c; c_values := dict_set k v (c_values c) |}.

(** The record kind [AB] with its fields declared in the other order. *)
Definition BA : StructWithDefaults.class :=
  {| StructWithDefaults.__name__ := "AB";
     StructWithDefaults.cls__name := None;
     StructWithDefaults.cls__ffi := Some lib_new;
     StructWithDefaults._defaults_ := [("b", VInt 2); ("a", VInt 1)];
     StructWithDefaults.properties := [] |}.

(** A record kind that leaves [_ffi] as the base class has it. *)
Definition Unwrapped : StructWithDefaults.class :=
  {| StructWithDefaults.__name__ := "Unwrapped";
     StructWithDefaults.cls__name := None;
     StructWithDefaults.cls__ffi := None;
     StructWithDefaults._defaults_ := [("a", VInt 1)];
     StructWithDefaults.properties := [] |}.

(** A record kind whose field [X] is a read-only property over [_X],
    itself declared as a read-only property. *)
Definition Blocked : StructWithDefaults.class :=
  {| StructWithDefaults.__name__ := "Blocked";
     StructWithDefaults.cls__name := None;
     StructWithDefaults.cls__ffi := Some lib_new;
     StructWithDefaults._defaults_ := [("X", VInt 1)];
     StructWithDefaults.properties := ["X"; "_X"] |}.

(** Field [k] is a read-only property whose hidden attribute is a
    read-only property as well: neither [setattr] of the fall-back can
    succeed. *)
Definition blocked (cls : StructWithDefaults.class) (k : string) : bool :=
  declares_property cls k && declares_property cls ("_" ++ k).

(** Attribute [k] of the instance is not a parameter record. *)
Definition plain_attribute (s : OutputStruct.state) (k : string) : Prop :=
  forall a, OutputStruct.lookup k s <> Ok (OutputStruct.Params a).

(** What [__repr__] reads is the same in [s'] as in [s], and [s'] has no
    parameter record that [s] has not. *)
Definition same_parameters (s s' : OutputStruct.state) : Prop :=
  OutputStruct.repr_params (OutputStruct.heap s')
    (OutputStruct.__dict__ (OutputStruct.self s'))
  = OutputStruct.repr_params (OutputStruct.heap s)
      (OutputStruct.__dict__ (OutputStruct.self s)) /\
  OutputStruct.lookup "_name" s' = OutputStruct.lookup "_name" s /\
  (forall k a,
      OutputStruct.lookup k s' = Ok (OutputStruct.Params a) ->
      OutputStruct.lookup k s = Ok (OutputStruct.Params a)).

(** * Properties *)

(** ** Dictionaries *)

Section DictFacts.
Context {V : Type}.
Implicit Types (d : dict V) (k : string) (v : V).

Lemma dict_get_set_eq d k v : dict_get k (dict_set k v d) = Some v.
Proof.
  induction d as [|[k' v'] d IH]; simpl.
  - now rewrite String.eqb_refl.
  - destruct (String.eqb k k') eqn:Hk; simpl; rewrite Hk; auto.
Qed.

Lemma dict_get_set_ne d k k' v :
  k' <> k -> dict_get k' (dict_set k v d) = dict_get k' d.
Proof.
  intros Hne. induction d as [|[k0 v0] d IH]; simpl.
  - apply String.eqb_neq in Hne. now rewrite Hne.
  - destruct (String.eqb k k0) eqn:Hk; simpl.
    + apply String.eqb_eq in Hk. subst k0.
      apply String.eqb_neq in Hne. now rewrite Hne.
    + now rewrite IH.
Qed.

Lemma dict_get_del_ne d k k' :
  k' <> k -> dict_get k' (dict_del k d) = dict_get k' d.
Proof.
  intros Hne. unfold dict_del.
  induction d as [|[k0 v0] d IH]; simpl; auto.
  destruct (String.eqb k k0) eqn:Hk; simpl.
  - apply String.eqb_eq in Hk. subst k0.
    apply String.eqb_neq in Hne. now rewrite Hne.
  - now rewrite IH.
Qed.

Lemma dict_get_del_eq d k : dict_get k (dict_del k d) = None.
Proof.
  unfold dict_del.
  induction d as [|[k0 v0] d IH]; simpl; auto.
  destruct (String.eqb k k0) eqn:Hk; simpl; auto.
  now rewrite Hk.
Qed.

Lemma dict_in_keys d k : dict_in k d = true <-> In k (keys d).
Proof.
  unfold dict_in.
  induction d as [|[k0 v0] d IH]; simpl.
  - split; [discriminate | tauto].
  - destruct (String.eqb k k0) eqn:Hk.
    + apply String.eqb_eq in Hk. subst. tauto.
    + apply String.eqb_neq in Hk. rewrite IH. split; [tauto|].
      intros [H|H]; [congruence | assumption].
Qed.

Lemma dict_get_filter (P : string -> bool) d k :
  P k = true -> dict_get k (filter (fun kv => P (fst kv)) d) = dict_get k d.
Proof.
  intros HP. induction d as [|[k0 v0] d IH]; simpl; auto.
  destruct (P k0) eqn:HP0; simpl.
  - now rewrite IH.
  - destruct (String.eqb k k0) eqn:Hk; auto.
    apply String.eqb_eq in Hk. congruence.
Qed.

End DictFacts.

Lemma hidden_inj k1 k2 : "_" ++ k1 = "_" ++ k2 -> k1 = k2.
Proof. simpl. congruence. Qed.

(** ** The identity string of a parameter record *)

Lemma defining_items_keys ks self d :
  StructWithDefaults.defining_items ks self = Ok d ->
  keys d = filter (fun k => negb (volatile k)) ks.
Proof.
  revert d. induction ks as [|k ks IH]; simpl; intros d H.
  - now inversion H.
  - fold (volatile k) in *. destruct (volatile k); simpl; auto.
    destruct (StructWithDefaults.getattr k self); simpl in H; [|discriminate].
    destruct (StructWithDefaults.defining_items ks self);
      simpl in H; [|discriminate].
    inversion H; subst. simpl. now rewrite (IH _ eq_refl).
Qed.

Lemma defining_items_values ks self d :
  StructWithDefaults.defining_items ks self = Ok d ->
  forall k v, In (k, v) d -> StructWithDefaults.getattr k self = Ok v.
Proof.
  revert d. induction ks as [|k0 ks IH]; simpl; intros d H k v Hin.
  - inversion H; subst. destruct Hin.
  - destruct (startswith "RANDOM_SEED" k0); [now apply (IH d)|].
    destruct (StructWithDefaults.getattr k0 self) eqn:Hg;
      simpl in H; [|discriminate].
    destruct (StructWithDefaults.defining_items ks self);
      simpl in H; [|discriminate].
    inversion H; subst. destruct Hin as [Heq|Hin].
    + now inversion Heq; subst.
    + now apply (IH _ eq_refl).
Qed.

Lemma defining_items_total ks self :
  (forall k, In k ks -> volatile k = false ->
             exists v, StructWithDefaults.getattr k self = Ok v) ->
  exists d, StructWithDefaults.defining_items ks self = Ok d.
Proof.
  induction ks as [|k ks IH]; simpl; intros H.
  - now exists [].
  - destruct IH as [d Hd]; [intros; apply H; auto|].
    fold (volatile k). destruct (volatile k) eqn:Hv; [now exists d|].
    destruct (H k (or_introl eq_refl) Hv) as [v Hg].
    rewrite Hg, Hd. simpl. now eexists.
Qed.

Lemma defining_items_ext ks p q :
  (forall k, In k ks -> volatile k = false ->
             StructWithDefaults.getattr k p = StructWithDefaults.getattr k q) ->
  StructWithDefaults.defining_items ks p = StructWithDefaults.defining_items ks q.
Proof.
  induction ks as [|k ks IH]; simpl; intros H; auto.
  rewrite IH by (intros; apply H; auto).
  fold (volatile k). destruct (volatile k) eqn:Hv; auto.
  now rewrite (H k (or_introl eq_refl) Hv).
Qed.

(** Records of one kind that agree outside their seed fields have the
    same identity string. *)
Lemma repr_same_identity p q :
  same_identity p q ->
  StructWithDefaults.__repr__ p = StructWithDefaults.__repr__ q.
Proof.
  intros [Hc H]. unfold StructWithDefaults.__repr__,
    StructWithDefaults.__defining_dict.
  rewrite <- Hc. now rewrite (defining_items_ext _ p q H).
Qed.

Lemma eq_same_identity p q s :
  same_identity p q ->
  StructWithDefaults.__repr__ p = Ok s ->
  StructWithDefaults.__eq__ p q = Ok true.
Proof.
  intros H Hp. unfold StructWithDefaults.__eq__.
  rewrite <- (repr_same_identity p q H), Hp. simpl.
  now rewrite String.eqb_refl.
Qed.

(** Claim C8, as amended. For a parameter record in which every field
    that is not a seed has a value, [__repr__] returns the class name
    followed by a parenthesised list of the fields whose name does not
    start with RANDOM_SEED, each rendered [name:str(value)]; the rendered
    items are in ascending string order and separated by a comma and a
    space. *)
Theorem repr_canonical_form (self : StructWithDefaults.t) :
  (forall k,
      In k (keys (StructWithDefaults._defaults_
                    (StructWithDefaults.__class__ self))) ->
      volatile k = false ->
      exists v, StructWithDefaults.getattr k self = Ok v) ->
  exists d items,
    StructWithDefaults.__defining_dict self = Ok d /\
    keys d = filter (fun k => negb (volatile k))
               (keys (StructWithDefaults._defaults_
                        (StructWithDefaults.__class__ self))) /\
    (forall k v, In (k, v) d -> StructWithDefaults.getattr k self = Ok v) /\
    StructWithDefaults.__repr__ self
    = Ok (StructWithDefaults.__name__ (StructWithDefaults.__class__ self)
          ++ "(" ++ join ", " items ++ ")") /\
    Permutation (map StructWithDefaults.render d) items /\
    Sorted (fun x y => String.leb x y = true) items.
Proof.
  intros H.
  destruct (defining_items_total _ self H) as [d Hd].
  exists d, (sorted (map StructWithDefaults.render d)).
  split; [exact Hd|].
  split; [exact (defining_items_keys _ _ _ Hd)|].
  split; [exact (defining_items_values _ _ _ Hd)|].
  split.
  - unfold StructWithDefaults.__repr__, StructWithDefaults.__defining_dict in *.
    now rewrite Hd.
  - split.
    + apply StringSort.Permuted_sort.
    + apply StringSort.Sorted_sort.
Qed.

Lemma repr_canonical_form_witness :
  exists d items,
    StructWithDefaults.__defining_dict (construct A_A1 []) = Ok d /\
    keys d = ["a"; "a1"] /\
    (forall k v, In (k, v) d ->
                 StructWithDefaults.getattr k (construct A_A1 []) = Ok v) /\
    StructWithDefaults.__repr__ (construct A_A1 [])
    = Ok ("C" ++ "(" ++ join ", " items ++ ")") /\
    Permutation (map StructWithDefaults.render d) items /\
    Sorted (fun x y => String.leb x y = true) items.
Proof.
  apply (repr_canonical_form (construct A_A1 [])).
  intros k Hin _. simpl in Hin.
  destruct Hin as [<-|[<-|[]]]; eexists; reflexivity.
Defined.

(** Claim C8, as stated, fails. With fields [a] and [a1] the code prints
    [a1] first and separates with a comma; the identity string of the
    specification orders by field name and separates with a semicolon,
    and differs from the code's string also when only its separator is
    replaced. *)
Lemma repr_is_not_spec_identity :
  StructWithDefaults.__repr__ (construct A_A1 []) = Ok "C(a1:2, a:1)" /\
  spec_identity (construct A_A1 []) = Ok "C(a:1; a1:2)" /\
  StructWithDefaults.__repr__ (construct A_A1 [])
  <> spec_identity (construct A_A1 []) /\
  StructWithDefaults.__repr__ (construct A_A1 [])
  <> spec_identity_with ", " (construct A_A1 []).
Proof.
  repeat split; try (vm_compute; reflexivity); vm_compute; discriminate.
Qed.

(** Claim C1, at the failing input. Two records of one kind that differ
    in their seed only have the same identity string and are equal, but
    [__hash__] hashes the bound method [self.__repr__], which depends on
    the address of the record and on nothing the record holds: under
    CPython's hash the two records hash differently. *)
Theorem hash_is_of_bound_method :
  forall str_hash : string -> Z,
    let p := construct CosmoParams [("RANDOM_SEED", VInt 1)] in
    let q := construct CosmoParams [("RANDOM_SEED", VInt 2)] in
    let hash := cpython_hash str_hash (fun _ => 140000000000000) in
    StructWithDefaults.getattr "RANDOM_SEED" p = Ok (VInt 1) /\
    StructWithDefaults.getattr "RANDOM_SEED" q = Ok (VInt 2) /\
    same_identity p q /\
    StructWithDefaults.__repr__ p = StructWithDefaults.__repr__ q /\
    StructWithDefaults.__eq__ p q = Ok true /\
    StructWithDefaults.__hash__ hash 140000000004096 p
    <> StructWithDefaults.__hash__ hash 140000000008192 q /\
    (forall h a r1 r2,
        StructWithDefaults.__hash__ h a r1 = StructWithDefaults.__hash__ h a r2).
Proof.
  intros str_hash p q hash.
  assert (Hid : same_identity p q).
  { split; [reflexivity|]. intros k Hin Hv. simpl in Hin.
    destruct Hin as [<-|[<-|[]]]; [discriminate Hv | reflexivity]. }
  split; [reflexivity|]. split; [reflexivity|]. split; [exact Hid|].
  split; [exact (repr_same_identity p q Hid)|].
  split; [apply (eq_same_identity p q _ Hid eq_refl)|].
  split; [vm_compute; discriminate | reflexivity].
Qed.

(** ** Construction and update of a parameter record *)

Lemma in_keys_recognized cls (kwargs : dict PyVal) k :
  In k (keys (StructWithDefaults._defaults_ cls)) ->
  dict_get k (recognized cls kwargs) = dict_get k kwargs.
Proof.
  intros Hin. unfold recognized.
  apply (dict_get_filter
           (fun k => dict_in k (StructWithDefaults._defaults_ cls))).
  now apply dict_in_keys.
Qed.

Lemma init_loop_ext items kw1 kw2 self :
  (forall k, In k (keys items) -> dict_get k kw1 = dict_get k kw2) ->
  StructWithDefaults.init_loop items kw1 self
  = StructWithDefaults.init_loop items kw2 self.
Proof.
  revert self. induction items as [|[k v] items IH]; simpl; intros self H; auto.
  rewrite (H k (or_introl eq_refl)).
  destruct (StructWithDefaults.store k _ self); simpl; auto.
Qed.

Lemma getattr_slot self k :
  StructWithDefaults.getattr k self
  = match dict_get (slot (StructWithDefaults.__class__ self) k)
            (StructWithDefaults.attrs self) with
    | Some v => Ok v
    | None => Raise (AttributeError (slot (StructWithDefaults.__class__ self) k))
    end.
Proof.
  unfold StructWithDefaults.getattr, StructWithDefaults.property_get,
    StructWithDefaults.is_property, slot, declares_property.
  now destruct (existsb _ _).
Qed.

(** Where the fall-back works, storing field [k] writes its slot. *)
Lemma store_slot self k v :
  hidden_ok (StructWithDefaults.__class__ self) k = true ->
  StructWithDefaults.store k v self
  = Ok (StructWithDefaults.with_attrs self
          (dict_set (slot (StructWithDefaults.__class__ self) k) v
                    (StructWithDefaults.attrs self))).
Proof.
  unfold hidden_ok, StructWithDefaults.store, StructWithDefaults.setattr,
    slot.
  change (StructWithDefaults.is_property k self)
    with (declares_property (StructWithDefaults.__class__ self) k).
  change (StructWithDefaults.is_property ("_" ++ k) self)
    with (declares_property (StructWithDefaults.__class__ self) ("_" ++ k)).
  destruct (declares_property _ k); [|reflexivity].
  destruct (declares_property _ ("_" ++ k)); [discriminate|reflexivity].
Qed.

(** Any store, when it succeeds, writes the field's own name or its
    hidden name and nothing else. *)
Lemma store_writes self k v self' :
  StructWithDefaults.store k v self = Ok self' ->
  exists n, (n = k \/ n = "_" ++ k) /\
            self' = StructWithDefaults.with_attrs self
                      (dict_set n v (StructWithDefaults.attrs self)).
Proof.
  unfold StructWithDefaults.store, StructWithDefaults.setattr.
  destruct (StructWithDefaults.is_property k self).
  - destruct (StructWithDefaults.is_property ("_" ++ k) self);
      [discriminate|].
    intros H; inversion H. exists ("_" ++ k). auto.
  - intros H; inversion H. exists k. auto.
Qed.

Lemma slot_distinct cls k1 k2 :
  In k1 (keys (StructWithDefaults._defaults_ cls)) ->
  In k2 (keys (StructWithDefaults._defaults_ cls)) ->
  hidden_ok cls k1 = true -> hidden_ok cls k2 = true ->
  k1 <> k2 -> slot cls k1 <> slot cls k2.
Proof.
  intros H1 H2 Hok1 Hok2 Hne. unfold slot, hidden_ok in *.
  destruct (declares_property cls k1), (declares_property cls k2);
    simpl in *; auto.
  - intros H. now apply hidden_inj in H.
  - apply andb_true_iff in Hok1 as [_ Hok1].
    apply negb_true_iff in Hok1. intros H. rewrite H in Hok1.
    apply dict_in_keys in H2. congruence.
  - apply andb_true_iff in Hok2 as [_ Hok2].
    apply negb_true_iff in Hok2. intros H. rewrite <- H in Hok2.
    apply dict_in_keys in H1. congruence.
Qed.

Lemma wf_class_hidden_ok cls k :
  wf_class cls = true ->
  In k (keys (StructWithDefaults._defaults_ cls)) ->
  hidden_ok cls k = true.
Proof.
  unfold wf_class. rewrite forallb_forall. auto.
Qed.

Lemma without_nil kwargs : without [] kwargs = kwargs.
Proof.
  unfold without. induction kwargs as [|kv kw IH]; simpl;
    [reflexivity | f_equal; exact IH].
Qed.

Lemma without_del k ks kwargs :
  without ks (dict_del k kwargs) = without (k :: ks) kwargs.
Proof.
  unfold without, dict_del.
  induction kwargs as [|[k0 v0] kw IH]; simpl; auto.
  rewrite (String.eqb_sym k0 k).
  destruct (String.eqb k k0); simpl; rewrite IH; auto.
Qed.

Lemma without_absent k ks kwargs :
  dict_get k kwargs = None -> without ks kwargs = without (k :: ks) kwargs.
Proof.
  unfold without.
  induction kwargs as [|[k0 v0] kw IH]; simpl; auto.
  rewrite (String.eqb_sym k0 k).
  destruct (String.eqb k k0); simpl; [discriminate|].
  intros H. rewrite (IH H). reflexivity.
Qed.

(** The loop of [update] on a well-formed class: it never raises, hands
    back the keyword arguments it did not recognise, writes every
    recognised one and leaves the other slots alone. *)
Lemma update_loop_spec cls ks :
  wf_class cls = true ->
  incl ks (keys (StructWithDefaults._defaults_ cls)) ->
  forall kwargs self,
    StructWithDefaults.__class__ self = cls ->
    exists self',
      StructWithDefaults.update_loop ks kwargs self
      = (Ok (without ks kwargs), self') /\
      same_frame self self' /\
      (forall k v, In k ks -> dict_get k kwargs = Some v ->
                   dict_get (slot cls k) (StructWithDefaults.attrs self')
                   = Some v) /\
      (forall n,
          (forall k, In k ks -> dict_get k kwargs <> None -> slot cls k <> n) ->
          dict_get n (StructWithDefaults.attrs self')
          = dict_get n (StructWithDefaults.attrs self)).
Proof.
  intros Hwf. induction ks as [|k ks IH]; intros Hincl kwargs self Hcls.
  - exists self. simpl. rewrite without_nil. repeat split; auto.
    intros k v [].
  - assert (Hk : In k (keys (StructWithDefaults._defaults_ cls)))
      by (apply Hincl; now left).
    assert (Hincl' : incl ks (keys (StructWithDefaults._defaults_ cls)))
      by (intros x Hx; apply Hincl; now right).
    simpl. destruct (dict_get k kwargs) as [v|] eqn:Hget.
    + rewrite store_slot
        by (rewrite Hcls; now apply wf_class_hidden_ok).
      rewrite Hcls.
      set (self1 := StructWithDefaults.with_attrs self
                      (dict_set (slot cls k) v (StructWithDefaults.attrs self))).
      destruct (IH Hincl' (dict_del k kwargs) self1 Hcls)
        as (self' & Hrun & Hframe & Hset & Hkeep).
      assert (Hk_kept :
                dict_get (slot cls k) (StructWithDefaults.attrs self') = Some v).
      { rewrite Hkeep.
        - subst self1. simpl. apply dict_get_set_eq.
        - intros k2 Hin2 Hg2.
          apply slot_distinct; auto using wf_class_hidden_ok.
          intros ->. now rewrite dict_get_del_eq in Hg2. }
      exists self'. split; [|split; [|split]].
      * rewrite Hrun, without_del. reflexivity.
      * destruct Hframe as (A & B & C & D). repeat split; auto.
      * intros k' v' Hin Hg.
        destruct (String.eqb k' k) eqn:He.
        -- apply String.eqb_eq in He. subst k'. congruence.
        -- apply String.eqb_neq in He.
           destruct Hin as [->|Hin]; [congruence|].
           apply Hset; auto. now rewrite dict_get_del_ne.
      * intros n Hn. rewrite Hkeep.
        -- subst self1. simpl. apply dict_get_set_ne.
           intros ->. apply (Hn k); [now left | congruence | reflexivity].
        -- intros k2 Hin2 Hg2. apply Hn; [now right|].
           destruct (String.eqb k2 k) eqn:He.
           ++ apply String.eqb_eq in He. subst.
              now rewrite dict_get_del_eq in Hg2.
           ++ apply String.eqb_neq in He. now rewrite dict_get_del_ne in Hg2.
    + destruct (IH Hincl' kwargs self Hcls)
        as (self' & Hrun & Hframe & Hset & Hkeep).
      exists self'. split; [|split; [|split]].
      * rewrite Hrun, (without_absent k ks kwargs Hget). reflexivity.
      * exact Hframe.
      * intros k' v' [->|Hin] Hg; [congruence | auto].
      * intros n Hn. apply Hkeep. intros k2 Hin2. apply Hn. now right.
Qed.

Lemma existsb_keys {V} (d : dict V) k :
  existsb (String.eqb k) (keys d) = dict_in k d.
Proof.
  unfold dict_in. induction d as [|[k0 v0] d IH]; simpl; auto.
  destruct (String.eqb k k0); simpl; auto.
Qed.

Lemma without_rejected cls kwargs :
  without (keys (StructWithDefaults._defaults_ cls)) kwargs
  = rejected cls kwargs.
Proof.
  unfold without, rejected. apply filter_ext. intros kv.
  now rewrite existsb_keys.
Qed.

Lemma rejected_keys cls kwargs k :
  In k (keys (rejected cls kwargs)) <->
  In k (keys kwargs) /\ ~ In k (keys (StructWithDefaults._defaults_ cls)).
Proof.
  rewrite <- (dict_in_keys (StructWithDefaults._defaults_ cls)).
  unfold rejected, keys. rewrite !in_map_iff. split.
  - intros ([k0 v0] & <- & Hin). apply filter_In in Hin as [Hin Hn].
    cbn [fst] in *. split; [exists (k0, v0); auto|].
    apply negb_true_iff in Hn. congruence.
  - intros (([k0 v0] & <- & Hin) & Hn). exists (k0, v0). split; auto.
    apply filter_In. split; auto. cbn [fst] in *.
    now destruct (dict_in k0 _).
Qed.

Lemma rejected_recognized cls kwargs : rejected cls (recognized cls kwargs) = [].
Proof.
  unfold rejected, recognized.
  induction kwargs as [|[k v] kw IH]; simpl; auto.
  destruct (dict_in k _) eqn:Hk; simpl; auto. now rewrite Hk.
Qed.

(** The loop of [update] looks at the keyword arguments through the
    fields of the class only. *)
Lemma update_loop_ext ks kw1 kw2 self :
  (forall k, In k ks -> dict_get k kw1 = dict_get k kw2) ->
  snd (StructWithDefaults.update_loop ks kw1 self)
  = snd (StructWithDefaults.update_loop ks kw2 self).
Proof.
  revert kw1 kw2 self. induction ks as [|k ks IH]; intros kw1 kw2 self H.
  - reflexivity.
  - simpl. rewrite <- (H k (or_introl eq_refl)).
    destruct (dict_get k kw1) as [v|] eqn:Hg.
    + destruct (StructWithDefaults.store k v self); [|reflexivity].
      apply IH. intros k' Hin.
      destruct (String.eqb k' k) eqn:He.
      * apply String.eqb_eq in He. subst. now rewrite !dict_get_del_eq.
      * apply String.eqb_neq in He. rewrite !dict_get_del_ne by auto.
        apply H. now right.
    + apply IH. intros k' Hin. apply H. now right.
Qed.

(** [update] on a well-formed class: every recognised keyword argument is
    stored, the other fields keep their value, the rest is reported in
    one warning, and the call ends in [delattr], which raises when there
    is no cached structure to delete. *)
Lemma update_spec kwargs self log :
  wf_class (StructWithDefaults.__class__ self) = true ->
  exists self',
    StructWithDefaults.update kwargs self log
    = (delattr_outcome self, self',
       (log ++ warnings_for (rejected (StructWithDefaults.__class__ self) kwargs))%list) /\
    self' = StructWithDefaults.with__cstruct
              (StructWithDefaults.with__strings
                 (snd (StructWithDefaults.update_loop
                         (keys (StructWithDefaults._defaults_
                                  (StructWithDefaults.__class__ self)))
                         kwargs self))
                 (Some []))
              None /\
    (forall k v,
        In k (keys (StructWithDefaults._defaults_
                      (StructWithDefaults.__class__ self))) ->
        dict_get k kwargs = Some v ->
        StructWithDefaults.getattr k self' = Ok v) /\
    (forall k,
        In k (keys (StructWithDefaults._defaults_
                      (StructWithDefaults.__class__ self))) ->
        dict_get k kwargs = None ->
        StructWithDefaults.getattr k self' = StructWithDefaults.getattr k self).
Proof.
  intros Hwf.
  set (cls := StructWithDefaults.__class__ self) in *.
  destruct (update_loop_spec cls (keys (StructWithDefaults._defaults_ cls))
              Hwf (incl_refl _) kwargs self eq_refl)
    as (self1 & Hrun & (Hc & Hn & Hs & Hcs) & Hset & Hkeep).
  rewrite without_rejected in Hrun.
  exists (StructWithDefaults.with__cstruct
            (StructWithDefaults.with__strings
               (snd (StructWithDefaults.update_loop
                       (keys (StructWithDefaults._defaults_ cls)) kwargs self))
               (Some []))
            None).
  split; [|split; [reflexivity|split]].
  - unfold StructWithDefaults.update. fold cls. rewrite Hrun. simpl.
    unfold delattr_outcome, StructWithDefaults.with__cstruct,
      StructWithDefaults.with__strings. simpl. rewrite <- Hcs.
    destruct (rejected cls kwargs) as [|kv rest]; simpl.
    + rewrite app_nil_r.
      destruct (StructWithDefaults.__cstruct self1); reflexivity.
    + destruct (StructWithDefaults.__cstruct self1); reflexivity.
  - intros k v Hin Hg. rewrite getattr_slot. simpl. fold cls.
    rewrite Hrun. simpl. rewrite Hc. fold cls.
    now rewrite (Hset k v Hin Hg).
  - intros k Hin Hg. rewrite !getattr_slot. simpl. fold cls.
    rewrite Hrun. simpl. rewrite Hc. fold cls.
    rewrite Hkeep; [reflexivity|].
    intros k2 Hin2 Hg2. apply slot_distinct; auto using wf_class_hidden_ok.
    intros ->. congruence.
Qed.

Lemma store_cases self k v :
  StructWithDefaults.store k v self
  = if blocked (StructWithDefaults.__class__ self) k
    then Raise (AttributeError "can't set attribute")
    else Ok (StructWithDefaults.with_attrs self
               (dict_set (slot (StructWithDefaults.__class__ self) k) v
                         (StructWithDefaults.attrs self))).
Proof.
  unfold blocked, StructWithDefaults.store, StructWithDefaults.setattr, slot.
  change (StructWithDefaults.is_property k self)
    with (declares_property (StructWithDefaults.__class__ self) k).
  change (StructWithDefaults.is_property ("_" ++ k) self)
    with (declares_property (StructWithDefaults.__class__ self) ("_" ++ k)).
  destruct (declares_property _ k); [|reflexivity].
  destruct (declares_property _ ("_" ++ k)); reflexivity.
Qed.

Lemma rejected_In cls (kwargs : dict PyVal) k v :
  In (k, v) (rejected cls kwargs) <->
  In (k, v) kwargs /\ ~ In k (keys (StructWithDefaults._defaults_ cls)).
Proof.
  unfold rejected. rewrite filter_In. simpl. rewrite negb_true_iff.
  rewrite <- dict_in_keys.
  destruct (dict_in k (StructWithDefaults._defaults_ cls)); intuition congruence.
Qed.

(** On any class the loop of [update] stops early in one way only, at a
    field that is a read-only property whose hidden attribute is one
    too; otherwise it hands back the keyword arguments it did not
    recognise. *)
Lemma update_loop_cases ks :
  forall kwargs self,
    (exists self',
        StructWithDefaults.update_loop ks kwargs self
        = (Ok (without ks kwargs), self')) \/
    (exists self' k,
        In k ks /\ blocked (StructWithDefaults.__class__ self) k = true /\
        StructWithDefaults.update_loop ks kwargs self
        = (Raise (AttributeError "can't set attribute"), self')).
Proof.
  induction ks as [|k ks IH]; intros kwargs self.
  - left. exists self. simpl. now rewrite without_nil.
  - simpl. destruct (dict_get k kwargs) as [v|] eqn:Hget.
    + rewrite store_cases.
      destruct (blocked (StructWithDefaults.__class__ self) k) eqn:Hb.
      * right. exists self, k. auto.
      * destruct (IH (dict_del k kwargs)
                    (StructWithDefaults.with_attrs self
                       (dict_set (slot (StructWithDefaults.__class__ self) k) v
                          (StructWithDefaults.attrs self))))
          as [[self' Hrun]|(self' & k' & Hin & Hb' & Hrun)].
        -- left. exists self'. now rewrite Hrun, without_del.
        -- right. exists self', k'. auto.
    + destruct (IH kwargs self)
        as [[self' Hrun]|(self' & k' & Hin & Hb' & Hrun)].
      * left. exists self'. now rewrite Hrun, (without_absent k ks kwargs Hget).
      * right. exists self', k'. auto.
Qed.

(** Claim C4. When the keyword arguments of [update] hold a key that is
    not a field of the class, exactly one warning is issued: its message
    is the text of the source and its arguments are the keyword arguments
    that are not fields, with their values. On any class the keys that
    are not fields cause no error: the warning is issued unless the loop
    has stopped before at a field that is a read-only property with a
    read-only hidden attribute. On a class whose properties have a free
    hidden attribute every recognised key is stored, the fields not
    mentioned keep their value, and the call ends as the same call
    without the unrecognised keys ends, with the same record. *)
Theorem update_warns_about_unrecognized kwargs self log :
  (exists k, In k (keys kwargs) /\
             ~ In k (keys (StructWithDefaults._defaults_
                             (StructWithDefaults.__class__ self)))) ->
  (forall k v,
      In (k, v) (rejected (StructWithDefaults.__class__ self) kwargs) <->
      In (k, v) kwargs /\
      ~ In k (keys (StructWithDefaults._defaults_
                      (StructWithDefaults.__class__ self)))) /\
  (snd (StructWithDefaults.update kwargs self log)
   = (log ++ [{| w_message :=
                   "The following arguments to be updated are not compatible with this class: %s";
                 w_args := rejected (StructWithDefaults.__class__ self) kwargs |}])%list
   \/
   exists k,
     In k (keys (StructWithDefaults._defaults_ (StructWithDefaults.__class__ self))) /\
     blocked (StructWithDefaults.__class__ self) k = true /\
     fst (fst (StructWithDefaults.update kwargs self log))
     = Raise (AttributeError "can't set attribute")) /\
  (wf_class (StructWithDefaults.__class__ self) = true ->
   exists r self',
     StructWithDefaults.update kwargs self log
     = (r, self',
        (log ++ [{| w_message :=
                      "The following arguments to be updated are not compatible with this class: %s";
                    w_args := rejected (StructWithDefaults.__class__ self) kwargs |}])%list) /\
     (forall k v,
         In k (keys (StructWithDefaults._defaults_
                       (StructWithDefaults.__class__ self))) ->
         dict_get k kwargs = Some v ->
         StructWithDefaults.getattr k self' = Ok v) /\
     (forall k,
         In k (keys (StructWithDefaults._defaults_
                       (StructWithDefaults.__class__ self))) ->
         dict_get k kwargs = None ->
         StructWithDefaults.getattr k self' = StructWithDefaults.getattr k self) /\
     StructWithDefaults.update
       (recognized (StructWithDefaults.__class__ self) kwargs) self log
     = (r, self', log)).
Proof.
  intros (k0 & Hin0 & Hout0).
  assert (Hw : warnings_for (rejected (StructWithDefaults.__class__ self) kwargs)
               = [{| w_message :=
                       "The following arguments to be updated are not compatible with this class: %s";
                     w_args := rejected (StructWithDefaults.__class__ self) kwargs |}]).
  { assert (H : In k0 (keys (rejected (StructWithDefaults.__class__ self)
                                      kwargs)))
      by (apply rejected_keys; auto).
    destruct (rejected _ kwargs); [destruct H | reflexivity]. }
  split; [intros k v; apply rejected_In|]. split.
  - unfold StructWithDefaults.update.
    destruct (update_loop_cases
                (keys (StructWithDefaults._defaults_
                         (StructWithDefaults.__class__ self))) kwargs self)
      as [[self' Hrun]|(self' & k & Hin & Hb & Hrun)]; rewrite Hrun.
    + left. rewrite without_rejected. simpl.
      assert (Hlog : match rejected (StructWithDefaults.__class__ self) kwargs with
                     | [] => log
                     | _ :: _ =>
                         (log ++ [StructWithDefaults.update_warning
                                    (rejected (StructWithDefaults.__class__ self)
                                       kwargs)])%list
                     end
                     = (log ++ warnings_for
                                 (rejected (StructWithDefaults.__class__ self)
                                    kwargs))%list).
      { destruct (rejected _ kwargs); simpl; [now rewrite app_nil_r|reflexivity]. }
      rewrite Hlog, Hw.
      destruct (StructWithDefaults.__cstruct self'); reflexivity.
    + right. exists k. auto.
  - intros Hwf.
    destruct (update_spec kwargs self log Hwf)
      as (self' & Hrun & Hself & Hset & Hkeep).
    exists (delattr_outcome self), self'.
    split; [|split; [|split]]; auto.
    + now rewrite Hrun, Hw.
    + destruct (update_spec (recognized (StructWithDefaults.__class__ self) kwargs)
                  self log Hwf)
        as (self2 & Hrun2 & Hself2 & _ & _).
      rewrite Hrun2, rejected_recognized. simpl. rewrite app_nil_r.
      f_equal. f_equal. rewrite Hself, Hself2. f_equal. f_equal.
      apply update_loop_ext. intros k Hin.
      now apply in_keys_recognized.
Qed.

Lemma update_warns_about_unrecognized_witness :
  exists r self',
    StructWithDefaults.update [("a", VInt 5); ("z", VInt 9)]
      (construct AB []) []
    = (r, self',
       [{| w_message :=
             "The following arguments to be updated are not compatible with this class: %s";
           w_args := [("z", VInt 9)] |}]) /\
    (forall k v,
        In k ["a"; "b"] ->
        dict_get k [("a", VInt 5); ("z", VInt 9)] = Some v ->
        StructWithDefaults.getattr k self' = Ok v) /\
    (forall k,
        In k ["a"; "b"] ->
        dict_get k [("a", VInt 5); ("z", VInt 9)] = None ->
        StructWithDefaults.getattr k self'
        = StructWithDefaults.getattr k (construct AB [])) /\
    StructWithDefaults.update [("a", VInt 5)] (construct AB []) []
    = (r, self', []).
Proof.
  apply (update_warns_about_unrecognized
           [("a", VInt 5); ("z", VInt 9)] (construct AB []) []).
  - exists "z". split; [simpl; auto|].
    simpl. intros [H|[H|[]]]; discriminate H.
  - reflexivity.
Defined.

(** Claim C10. On a record whose cached structure was never created,
    every [update] raises [AttributeError] at its closing [delattr],
    after the recognised keys have been stored, the warning about the
    others has been issued and [_strings] has been reset. *)
Theorem update_without_cstruct_raises kwargs self log :
  wf_class (StructWithDefaults.__class__ self) = true ->
  StructWithDefaults.__cstruct self = None ->
  exists self',
    StructWithDefaults.update kwargs self log
    = (Raise (AttributeError "_StructWithDefaults__cstruct"), self',
       (log ++ warnings_for
                 (rejected (StructWithDefaults.__class__ self) kwargs))%list) /\
    (forall k v,
        In k (keys (StructWithDefaults._defaults_
                      (StructWithDefaults.__class__ self))) ->
        dict_get k kwargs = Some v ->
        StructWithDefaults.getattr k self' = Ok v) /\
    (forall k,
        In k (keys (StructWithDefaults._defaults_
                      (StructWithDefaults.__class__ self))) ->
        dict_get k kwargs = None ->
        StructWithDefaults.getattr k self' = StructWithDefaults.getattr k self) /\
    StructWithDefaults._strings self' = Some [].
Proof.
  intros Hwf Hnone.
  destruct (update_spec kwargs self log Hwf)
    as (self' & Hrun & Hself & Hset & Hkeep).
  exists self'. split; [|split; [|split]]; auto.
  - rewrite Hrun. unfold delattr_outcome. now rewrite Hnone.
  - rewrite Hself. reflexivity.
Qed.

Lemma update_without_cstruct_raises_witness :
  exists self',
    StructWithDefaults.update [("a", VInt 5)] (construct AB []) []
    = (Raise (AttributeError "_StructWithDefaults__cstruct"), self', []) /\
    (forall k v,
        In k ["a"; "b"] ->
        dict_get k [("a", VInt 5)] = Some v ->
        StructWithDefaults.getattr k self' = Ok v) /\
    (forall k,
        In k ["a"; "b"] ->
        dict_get k [("a", VInt 5)] = None ->
        StructWithDefaults.getattr k self'
        = StructWithDefaults.getattr k (construct AB [])) /\
    StructWithDefaults._strings self' = Some [].
Proof.
  apply (update_without_cstruct_raises [("a", VInt 5)] (construct AB []) []);
    reflexivity.
Defined.

Lemma dict_get_set_some {V} (d : dict V) k n v :
  dict_get n (dict_set k v d) <> None -> n = k \/ dict_get n d <> None.
Proof.
  destruct (String.eqb n k) eqn:He.
  - apply String.eqb_eq in He. now left.
  - apply String.eqb_neq in He. rewrite dict_get_set_ne by auto. now right.
Qed.

Lemma init_loop_attrs items kwargs self self' :
  StructWithDefaults.init_loop items kwargs self = Ok self' ->
  forall n,
    dict_get n (StructWithDefaults.attrs self') <> None ->
    dict_get n (StructWithDefaults.attrs self) <> None \/
    exists k0, In k0 (keys items) /\ (n = k0 \/ n = "_" ++ k0).
Proof.
  revert self. induction items as [|[k v] items IH]; simpl; intros self H n Hn.
  - inversion H; subst. now left.
  - destruct (StructWithDefaults.store k _ self) as [self1|] eqn:Hs;
      simpl in H; [|discriminate].
    apply store_writes in Hs as (m & Hm & ->).
    destruct (IH _ H n Hn) as [Hold|(k0 & Hin & Hk0)].
    + simpl in Hold. apply dict_get_set_some in Hold as [->|Hold].
      * right. exists k. split; [now left | exact Hm].
      * now left.
    + right. exists k0. split; [now right | exact Hk0].
Qed.

Lemma init_loop_total cls items kwargs :
  wf_class cls = true ->
  incl (keys items) (keys (StructWithDefaults._defaults_ cls)) ->
  forall self,
    StructWithDefaults.__class__ self = cls ->
    exists self', StructWithDefaults.init_loop items kwargs self = Ok self'.
Proof.
  intros Hwf. induction items as [|[k v] items IH]; simpl; intros Hincl self Hc.
  - now exists self.
  - rewrite store_slot.
    + simpl. apply IH; [|exact Hc].
      intros x Hx. apply Hincl. now right.
    + rewrite Hc. apply wf_class_hidden_ok; [exact Hwf|].
      apply Hincl. now left.
Qed.

(** Claim C9. The constructor looks at its keyword arguments through the
    fields of the class only: it returns what it returns without the
    arguments that are not fields, an error included; on a well-formed
    class it returns a record; and every attribute of that record is a
    field or the hidden attribute of a field. The constructor has no
    statement that issues a warning, which is why its model has no
    warning to return. *)
Theorem init_ignores_unrecognized cls kwargs :
  StructWithDefaults.__init__ cls kwargs
  = StructWithDefaults.__init__ cls (recognized cls kwargs) /\
  (wf_class cls = true ->
   exists self, StructWithDefaults.__init__ cls kwargs = Ok self) /\
  (forall self n,
      StructWithDefaults.__init__ cls kwargs = Ok self ->
      dict_get n (StructWithDefaults.attrs self) <> None ->
      exists k0, In k0 (keys (StructWithDefaults._defaults_ cls)) /\
                 (n = k0 \/ n = "_" ++ k0)).
Proof.
  split; [|split].
  - unfold StructWithDefaults.__init__.
    rewrite (init_loop_ext _ kwargs (recognized cls kwargs)); [reflexivity|].
    intros k Hin. symmetry. now apply in_keys_recognized.
  - intros Hwf. unfold StructWithDefaults.__init__.
    destruct (init_loop_total cls (StructWithDefaults._defaults_ cls) kwargs
                Hwf (incl_refl _) (StructWithDefaults.blank cls) eq_refl)
      as [self' ->].
    simpl. eexists. reflexivity.
  - intros self n. unfold StructWithDefaults.__init__.
    destruct (StructWithDefaults.init_loop _ kwargs _) as [self1|] eqn:Hl;
      simpl; [|discriminate].
    intros H Hn. inversion H; subst self. clear H.
    assert (Hn1 : dict_get n (StructWithDefaults.attrs self1) <> None).
    { destruct (StructWithDefaults._name self1); exact Hn. }
    destruct (init_loop_attrs _ _ _ _ Hl n Hn1) as [Hold|Hnew].
    + now contradiction Hold.
    + exact Hnew.
Qed.

Lemma init_ignores_unrecognized_witness :
  StructWithDefaults.__init__ AB [("a", VInt 5); ("z", VInt 9)]
  = StructWithDefaults.__init__ AB [("a", VInt 5)] /\
  (exists self,
      StructWithDefaults.__init__ AB [("a", VInt 5); ("z", VInt 9)] = Ok self) /\
  dict_get "z" (StructWithDefaults.attrs
                  (construct AB [("a", VInt 5); ("z", VInt 9)])) = None.
Proof.
  destruct (init_ignores_unrecognized AB [("a", VInt 5); ("z", VInt 9)])
    as (H1 & H2 & H3).
  split; [exact H1|]. split; [apply H2; reflexivity|].
  destruct (dict_get "z" _) eqn:Hz; [|reflexivity].
  destruct (H3 (construct AB [("a", VInt 5); ("z", VInt 9)]) "z" eq_refl)
    as (k0 & Hin & Hk0).
  - rewrite Hz. discriminate.
  - simpl in Hin. destruct Hin as [<-|[<-|[]]];
      destruct Hk0 as [Hk0|Hk0]; discriminate Hk0.
Defined.

(** ** The cache lookup *)

(** Claim C2, at the failing input. The cache holds one file, written for
    seed 1; the record asks for seed 3 with [match_seed=True]. The search
    of the default directory replaces the seed by a wildcard all the same
    and returns the file, with and without a [direc] that holds nothing,
    as it does with [match_seed=False]. In the [direc] branch the same situation yields no match, as the
    docstring of [match_seed] promises. The default directory never looks
    at [match_seed]. *)
Theorem find_existing_default_ignores_match_seed :
  let cached := "/cache/Boxes_36777dd3155e0da0fa9e2cd69154d57c_r1.h5" in
  let E := disk_env "/cache" init_field0 [(cached, Some (stored 1))] in
  let E' := disk_env "/cache" init_field0
              [("/data/Boxes_36777dd3155e0da0fa9e2cd69154d57c_r1.h5",
                Some (stored 1))] in
  let s := boxes_state E CosmoParams 3 in
  OutputStruct._hashname s
  = Ok "Boxes_36777dd3155e0da0fa9e2cd69154d57c_r3.h5" /\
  OutputStruct.find_existing E None None false s = Ok (Some cached) /\
  OutputStruct.find_existing E None None true s = Ok (Some cached) /\
  OutputStruct.find_existing E (Some "/data") None true s = Ok (Some cached) /\
  OutputStruct.find_existing E' (Some "/data") None true s = Ok None /\
  (forall E0 s0 fname,
      OutputStruct.find_existing E0 None fname true s0
      = OutputStruct.find_existing E0 None fname false s0).
Proof.
  repeat split; vm_compute; reflexivity.
Qed.

(** ** The fingerprint of an output structure *)

Lemma repr_params_reprs h items :
  OutputStruct.repr_params h items = reprs (params_in h items).
Proof.
  induction items as [|[k v] items IH]; simpl; auto.
  destruct v; simpl; auto. now rewrite IH.
Qed.

Lemma reprs_same_identity ps qs :
  Forall2 same_identity ps qs -> reprs ps = reprs qs.
Proof.
  induction 1 as [|p q ps qs Hpq _ IH]; simpl; auto.
  now rewrite (repr_same_identity p q Hpq), IH.
Qed.

Lemma reprs_Forall2 ps rs :
  Forall2 (fun p r => StructWithDefaults.__repr__ p = Ok r) ps rs ->
  reprs ps = Ok rs.
Proof.
  induction 1 as [|p r ps rs Hp _ IH]; simpl; auto.
  now rewrite Hp, IH.
Qed.

(** Claim C3, as amended. The fingerprint is the MD5 digest of the name
    of the structure followed by the identity strings of its parameter
    records, separated by a semicolon and a space, in parentheses. An
    identity string leaves the seed fields out, so two structures of the
    same name whose parameter records agree on every field that is not a
    seed have the same fingerprint, whatever their seeds. *)
Theorem md5_of_identity_strings (s1 s2 : OutputStruct.state) :
  OutputStruct.lookup "_name" s1 = OutputStruct.lookup "_name" s2 ->
  Forall2 same_identity (params_of s1) (params_of s2) ->
  OutputStruct._md5 s1 = OutputStruct._md5 s2 /\
  (forall n rs,
      OutputStruct.lookup "_name" s1 = Ok (OutputStruct.Py (VStr n)) ->
      Forall2 (fun p r => StructWithDefaults.__repr__ p = Ok r)
              (params_of s1) rs ->
      OutputStruct._md5 s1
      = Ok (md5_hexdigest (n ++ "(" ++ join "; " rs ++ ")"))).
Proof.
  intros Hname Hparams. split.
  - unfold OutputStruct._md5, OutputStruct.__repr__, OutputStruct.str_attr.
    rewrite <- Hname, !repr_params_reprs.
    fold (params_of s1). fold (params_of s2).
    now rewrite (reprs_same_identity _ _ Hparams).
  - intros n rs Hn Hrs.
    unfold OutputStruct._md5, OutputStruct.__repr__, OutputStruct.str_attr.
    rewrite Hn, repr_params_reprs. fold (params_of s1).
    now rewrite (reprs_Forall2 _ _ Hrs).
Qed.

Lemma md5_of_identity_strings_witness :
  let E := disk_env "/cache" init_field0 [] in
  OutputStruct._md5 (boxes_state E CosmoParams 1)
  = OutputStruct._md5 (boxes_state E CosmoParams 2) /\
  OutputStruct._md5 (boxes_state E CosmoParams 1)
  = Ok (md5_hexdigest
          ("Boxes" ++ "("
           ++ join "; " ["UserParams(HII_DIM:64)"; "CosmoParams(SIGMA_8:0.8)"]
           ++ ")")).
Proof.
  intros E.
  destruct (md5_of_identity_strings (boxes_state E CosmoParams 1)
              (boxes_state E CosmoParams 2)) as [H1 H2].
  - reflexivity.
  - repeat constructor; try reflexivity.
    intros k Hin Hv. simpl in Hin.
    destruct Hin as [<-|[<-|[]]]; [discriminate Hv | reflexivity].
  - split; [exact H1|]. apply H2; [reflexivity|].
    repeat constructor.
Defined.

(** Claim C3, as stated, fails. Two structures whose cosmological
    parameters differ in the seed, and in nothing else, have the same
    fingerprint; the digest of the representation over the full field
    sets, which the specification describes, is a different one. A field
    that changes from the number 64 to the string of its digits leaves
    the fingerprint unchanged as well, since both print alike. *)
Lemma md5_same_for_two_seeds :
  let E := disk_env "/cache" init_field0 [] in
  OutputStruct.cosmo_seed (boxes_state E CosmoParams 1) = Ok (VInt 1) /\
  OutputStruct.cosmo_seed (boxes_state E CosmoParams 2) = Ok (VInt 2) /\
  OutputStruct._md5 (boxes_state E CosmoParams 1)
  = Ok "36777dd3155e0da0fa9e2cd69154d57c" /\
  OutputStruct._md5 (boxes_state E CosmoParams 2)
  = Ok "36777dd3155e0da0fa9e2cd69154d57c" /\
  spec_fingerprint (boxes_state E CosmoParams 1)
  <> spec_fingerprint (boxes_state E CosmoParams 2) /\
  OutputStruct._md5 (boxes_state E CosmoParams 1)
  <> spec_fingerprint (boxes_state E CosmoParams 1) /\
  StructWithDefaults.getattr "HII_DIM"
    (OutputStruct.heap (boxes_state_with E [("HII_DIM", VStr "64")]
                          CosmoParams 1) 4096)
  = Ok (VStr "64") /\
  StructWithDefaults.getattr "HII_DIM"
    (OutputStruct.heap (boxes_state E CosmoParams 1) 4096)
  = Ok (VInt 64) /\
  OutputStruct._md5 (boxes_state_with E [("HII_DIM", VStr "64")] CosmoParams 1)
  = Ok "36777dd3155e0da0fa9e2cd69154d57c".
Proof.
  repeat split; try (vm_compute; reflexivity); vm_compute; discriminate.
Qed.

(** ** The state monad of [OutputStruct] *)

Lemma bind_Ok {A B} (m : OutputStruct.M A) (k : A -> OutputStruct.M B) s b s' :
  OutputStruct.bind m k s = (Ok b, s') ->
  exists a s1, m s = (Ok a, s1) /\ k a s1 = (Ok b, s').
Proof.
  unfold OutputStruct.bind. destruct (m s) as [[a|e] s1]; intros H.
  - now exists a, s1.
  - discriminate.
Qed.

Lemma bind_Raise {A B} (m : OutputStruct.M A) (k : A -> OutputStruct.M B)
  s e s' :
  OutputStruct.bind m k s = (Raise e, s') ->
  m s = (Raise e, s') \/
  exists a s1, m s = (Ok a, s1) /\ k a s1 = (Raise e, s').
Proof.
  unfold OutputStruct.bind. destruct (m s) as [[a|e0] s1]; intros H.
  - right. now exists a, s1.
  - left. inversion H; subst. reflexivity.
Qed.

(** ** Arrays and the foreign structure *)

Lemma cstruct_cached s c :
  OutputStruct.__cstruct (OutputStruct.self s) = Some c ->
  OutputStruct._cstruct s = (Ok c, s).
Proof. unfold OutputStruct._cstruct. now intros ->. Qed.

Lemma cstruct_result s c s' :
  OutputStruct._cstruct s = (Ok c, s') ->
  OutputStruct.__cstruct (OutputStruct.self s') = Some c /\
  OutputStruct.__dict__ (OutputStruct.self s')
  = OutputStruct.__dict__ (OutputStruct.self s) /\
  OutputStruct.__class__ (OutputStruct.self s')
  = OutputStruct.__class__ (OutputStruct.self s) /\
  OutputStruct.heap s' = OutputStruct.heap s.
Proof.
  unfold OutputStruct._cstruct.
  destruct (OutputStruct.__cstruct (OutputStruct.self s)) as [c0|] eqn:Hc.
  - intros H; inversion H; subst. auto.
  - unfold OutputStruct._new, OutputStruct.reader.
    destruct (_ <- OutputStruct.str_attr "_id" s ;; _) as [c0|e];
      intros H; inversion H; subst. simpl. auto.
Qed.

Lemma arrays_initialized_loop_cached s c ks :
  OutputStruct.__cstruct (OutputStruct.self s) = Some c ->
  OutputStruct.arrays_initialized_loop ks s = (Ok (forallb (bound s c) ks), s).
Proof.
  intros Hc. induction ks as [|k ks IH]; simpl; auto.
  unfold OutputStruct.bind at 1, OutputStruct.hasattr, bound.
  destruct (OutputStruct.lookup (OutputStruct.f_name k) s); simpl; auto.
  unfold OutputStruct.bind. rewrite (cstruct_cached s c Hc).
  destruct (OutputStruct.c_is_NULL c (OutputStruct.f_name k)); simpl; auto.
Qed.

Lemma pointer_fields_cached s c :
  OutputStruct.__cstruct (OutputStruct.self s) = Some c ->
  OutputStruct._pointer_fields s = (Ok (pointer_fields s), s).
Proof.
  intros Hc. unfold OutputStruct._pointer_fields, OutputStruct.fields,
    OutputStruct.bind. now rewrite (cstruct_cached s c Hc).
Qed.

(** With the structure in place, [arrays_initialized] is a pure test. *)
Lemma arrays_initialized_cached s c :
  OutputStruct.__cstruct (OutputStruct.self s) = Some c ->
  OutputStruct.arrays_initialized s
  = (Ok (forallb (bound s c) (pointer_fields s)), s).
Proof.
  intros Hc. unfold OutputStruct.arrays_initialized.
  unfold OutputStruct.bind at 1. rewrite (pointer_fields_cached s c Hc).
  now apply arrays_initialized_loop_cached.
Qed.

(** Whenever [arrays_initialized] answers, the structure is in place
    afterwards and the answer stands. *)
Lemma arrays_initialized_stable s b s' :
  OutputStruct.arrays_initialized s = (Ok b, s') ->
  exists c,
    OutputStruct.__cstruct (OutputStruct.self s') = Some c /\
    OutputStruct.arrays_initialized s' = (Ok b, s').
Proof.
  unfold OutputStruct.arrays_initialized. intros H.
  apply bind_Ok in H as (ks & s1 & Hks & Hloop).
  unfold OutputStruct._pointer_fields in Hks.
  apply bind_Ok in Hks as (fs & s2 & Hfs & Hret).
  unfold OutputStruct.fields in Hfs.
  apply bind_Ok in Hfs as (c & s3 & Hc & Hrd).
  unfold OutputStruct.reader in Hrd. inversion Hrd; subst. clear Hrd.
  unfold OutputStruct.ret in Hret. inversion Hret; subst. clear Hret.
  apply cstruct_result in Hc as (Hc & Hd & Hcl & Hh).
  rewrite (arrays_initialized_loop_cached s1 c _ Hc) in Hloop.
  inversion Hloop; subst. exists c. split; [exact Hc|].
  fold OutputStruct.arrays_initialized.
  rewrite (arrays_initialized_cached s' c Hc). reflexivity.
Qed.

Lemma lookup_Raise k s e :
  OutputStruct.lookup k s = Raise e -> e = AttributeError k.
Proof.
  unfold OutputStruct.lookup.
  destruct (dict_get k _); [discriminate|].
  destruct (String.eqb k "_name"); [discriminate|].
  destruct (String.eqb k "_id"); [discriminate|].
  intros H; now inversion H.
Qed.

Lemma bind_array_present s c f v :
  OutputStruct.__cstruct (OutputStruct.self s) = Some c ->
  OutputStruct.lookup (OutputStruct.f_name f) s = Ok v ->
  acceptable f v = true ->
  exists c',
    OutputStruct.bind_array f s
    = (Ok tt, OutputStruct.set_cstruct s (Some c')).
Proof.
  intros Hc Hv Hacc. unfold OutputStruct.bind_array, OutputStruct.bind.
  rewrite (cstruct_cached s c Hc).
  unfold OutputStruct.getattr, OutputStruct.reader. rewrite Hv.
  unfold acceptable in Hacc. unfold OutputStruct.lift.
  destruct (OutputStruct._ary2buf v) as [p|]; [|discriminate].
  unfold OutputStruct.store_pointer. rewrite Hacc.
  unfold OutputStruct.c_setattr, OutputStruct.bind.
  rewrite (cstruct_cached s c Hc). eexists. reflexivity.
Qed.

Lemma bind_array_missing s c f e :
  OutputStruct.__cstruct (OutputStruct.self s) = Some c ->
  OutputStruct.lookup (OutputStruct.f_name f) s = Raise e ->
  OutputStruct.bind_array f s
  = (Raise (AttributeError (OutputStruct.f_name f)), s).
Proof.
  intros Hc Hv. unfold OutputStruct.bind_array, OutputStruct.bind.
  rewrite (cstruct_cached s c Hc).
  unfold OutputStruct.getattr, OutputStruct.reader. rewrite Hv.
  now rewrite (lookup_Raise _ _ _ Hv).
Qed.

(** The loop over the pointer fields stops with [AttributeError] at the
    first field that is not an attribute, provided the fields before it
    can be bound. *)
Lemma pointer_loop_missing ks :
  forall s c f,
    OutputStruct.__cstruct (OutputStruct.self s) = Some c ->
    In f ks ->
    (forall v, OutputStruct.lookup (OutputStruct.f_name f) s <> Ok v) ->
    (forall g v, In g ks ->
                 OutputStruct.lookup (OutputStruct.f_name g) s = Ok v ->
                 acceptable g v = true) ->
    exists k s',
      OutputStruct.for_each ks OutputStruct.bind_array s
      = (Raise (AttributeError k), s').
Proof.
  induction ks as [|g ks IH]; intros s c f Hc Hin Hmiss Hacc; [destruct Hin|].
  simpl. unfold OutputStruct.bind at 1.
  destruct (OutputStruct.lookup (OutputStruct.f_name g) s) as [v|e] eqn:Hg.
  - destruct (bind_array_present s c g v Hc Hg
                (Hacc g v (or_introl eq_refl) Hg)) as [c' ->].
    destruct Hin as [->|Hin]; [now contradiction (Hmiss v)|].
    apply (IH _ c' f); auto.
    intros g' v' Hin' Hl. apply (Hacc g' v'); auto. now right.
  - rewrite (bind_array_missing s c g e Hc Hg). eauto.
Qed.

Lemma pointer_fields_run s :
  OutputStruct.__cstruct (OutputStruct.self s) <> None \/
  (exists i, OutputStruct.str_attr "_id" s = Ok i) ->
  exists s2 c,
    OutputStruct._pointer_fields s = (Ok (pointer_fields s), s2) /\
    OutputStruct.__cstruct (OutputStruct.self s2) = Some c /\
    (forall k, OutputStruct.lookup k s2 = OutputStruct.lookup k s) /\
    pointer_fields s2 = pointer_fields s.
Proof.
  intros H.
  destruct (OutputStruct.__cstruct (OutputStruct.self s)) as [c|] eqn:Hc.
  - exists s, c. rewrite (pointer_fields_cached s c Hc). auto.
  - destruct H as [H|[i Hi]]; [now contradiction H|].
    exists (OutputStruct.set_cstruct s (Some (ffi_new ("struct " ++ i ++ "*")))),
      (ffi_new ("struct " ++ i ++ "*")).
    unfold OutputStruct._pointer_fields, OutputStruct.fields,
      OutputStruct.bind, OutputStruct._cstruct, OutputStruct._new,
      OutputStruct.reader.
    rewrite Hc, Hi. simpl. auto.
Qed.

(** Claim C7. [arrays_initialized] answers true exactly when every
    pointer field is an attribute of the instance and holds a pointer that
    is not [NULL] in the foreign structure, and it always answers once the
    structure exists. When [_init_cstruct] returns, that holds, and
    calling the instance then returns the structure without further
    initialisation; [_init_cstruct] cannot return while a pointer field is
    unbound, and raises [AttributeError] when [_init_arrays] left a
    pointer field unset and the ones that are set can be bound. *)
Theorem arrays_initialized_invariant (E : OutputStruct.env)
  (s : OutputStruct.state) :
  (forall b s',
      OutputStruct.arrays_initialized s = (Ok b, s') ->
      exists c,
        OutputStruct.__cstruct (OutputStruct.self s') = Some c /\
        (b = true <->
         forall f, In f (pointer_fields s') ->
                   (exists v, OutputStruct.lookup (OutputStruct.f_name f) s'
                              = Ok v) /\
                   OutputStruct.c_is_NULL c (OutputStruct.f_name f) = false)) /\
  (forall c,
      OutputStruct.__cstruct (OutputStruct.self s) = Some c ->
      exists b, OutputStruct.arrays_initialized s = (Ok b, s)) /\
  (forall s',
      OutputStruct._init_cstruct E s = (Ok tt, s') ->
      OutputStruct.arrays_initialized s' = (Ok true, s') /\
      exists c, OutputStruct.__call__ E s' = (Ok c, s')) /\
  (forall s1 f,
      OutputStruct._init_arrays E s = (Ok tt, s1) ->
      (OutputStruct.__cstruct (OutputStruct.self s1) <> None \/
       exists i, OutputStruct.str_attr "_id" s1 = Ok i) ->
      In f (pointer_fields s1) ->
      (forall v, OutputStruct.lookup (OutputStruct.f_name f) s1 <> Ok v) ->
      (forall g v, In g (pointer_fields s1) ->
                   OutputStruct.lookup (OutputStruct.f_name g) s1 = Ok v ->
                   acceptable g v = true) ->
      exists k s',
        OutputStruct._init_cstruct E s = (Raise (AttributeError k), s')).
Proof.
  split; [|split; [|split]].
  - intros b s' H.
    destruct (arrays_initialized_stable s b s' H) as (c & Hc & Hst).
    exists c. split; [exact Hc|].
    rewrite (arrays_initialized_cached s' c Hc) in Hst.
    inversion Hst as [Hb]. rewrite Hb at 1. rewrite <- Hb.
    rewrite forallb_forall. unfold bound.
    split; intros Hall f Hf; specialize (Hall f Hf).
    + destruct (OutputStruct.lookup _ s') as [v|]; [|discriminate].
      split; [now exists v|]. now apply negb_true_iff.
    + destruct Hall as [[v ->] Hnn]. now rewrite Hnn.
  - intros c Hc. rewrite (arrays_initialized_cached s c Hc). eauto.
  - intros s' H. unfold OutputStruct._init_cstruct in H.
    apply bind_Ok in H as (? & s1 & _ & H).
    apply bind_Ok in H as (? & s2 & _ & H).
    apply bind_Ok in H as (? & s3 & _ & H).
    apply bind_Ok in H as (? & s4 & _ & H).
    apply bind_Ok in H as (? & s5 & _ & H).
    apply bind_Ok in H as (ok & s6 & Hok & H).
    destruct ok; simpl in H.
    + unfold OutputStruct.ret in H. inversion H; subst s6.
      destruct (arrays_initialized_stable _ _ _ Hok) as (c & Hc & Hst).
      split; [exact Hst|]. exists c.
      unfold OutputStruct.__call__, OutputStruct.bind.
      rewrite Hst. simpl. unfold OutputStruct.ret.
      apply (cstruct_cached s' c Hc).
    + unfold OutputStruct.bind, OutputStruct.reader, OutputStruct.raise in H.
      discriminate.
  - intros s1 f Hhook Hid Hin Hmiss Hacc.
    destruct (pointer_fields_run s1 Hid) as (s2 & c & Hpf & Hc & Hlk & Hks).
    assert (Hloop : exists k s',
               OutputStruct.for_each (pointer_fields s1)
                 OutputStruct.bind_array s2 = (Raise (AttributeError k), s')).
    { apply (pointer_loop_missing _ s2 c f Hc Hin).
      - intros v. rewrite Hlk. apply Hmiss.
      - intros g v Hg. rewrite Hlk. now apply Hacc. }
    destruct Hloop as (k & s' & Hloop). exists k, s'.
    unfold OutputStruct._init_cstruct.
    unfold OutputStruct.bind at 1. rewrite Hhook.
    unfold OutputStruct.bind at 1. rewrite Hpf.
    unfold OutputStruct.bind at 1. now rewrite Hloop.
Qed.

Lemma arrays_initialized_invariant_witness :
  let E := disk_env "/cache" init_field0 [] in
  let s := boxes_state E CosmoParams 7 in
  let s' := snd (OutputStruct._init_cstruct E s) in
  let E0 := disk_env "/cache" init_nothing [] in
  (OutputStruct.arrays_initialized s' = (Ok true, s') /\
   exists c, OutputStruct.__call__ E s' = (Ok c, s')) /\
  exists k s'',
    OutputStruct._init_cstruct E0 (boxes_state E0 CosmoParams 7)
    = (Raise (AttributeError k), s'').
Proof.
  intros E s s' E0. split.
  - destruct (arrays_initialized_invariant E s) as (_ & _ & H & _).
    apply H. vm_compute. reflexivity.
  - destruct (arrays_initialized_invariant E0 (boxes_state E0 CosmoParams 7))
      as (_ & _ & _ & H).
    apply (H (boxes_state E0 CosmoParams 7)
             {| OutputStruct.f_name := "field0";
                OutputStruct.f_kind := OutputStruct.pointer;
                OutputStruct.f_ctype := "float *" |}).
    + reflexivity.
    + right. exists "Boxes". reflexivity.
    + simpl. left. reflexivity.
    + intros v. vm_compute. discriminate.
    + intros g v Hin Hl. simpl in Hin. destruct Hin as [<-|[]].
      vm_compute in Hl. discriminate Hl.
Defined.

(** ** Reading a cached structure *)

Lemma reader_Ok {A} (f : OutputStruct.state -> Res A) s a s' :
  OutputStruct.reader f s = (Ok a, s') -> f s = Ok a /\ s' = s.
Proof. unfold OutputStruct.reader. intros H; inversion H; auto. Qed.

Lemma lift_Ok {A} (r : Res A) s a s' :
  OutputStruct.lift r s = (Ok a, s') -> r = Ok a /\ s' = s.
Proof. unfold OutputStruct.lift. intros H; inversion H; auto. Qed.

Lemma stored_seed_Ok f seed :
  OutputStruct.stored_seed f = Ok seed ->
  exists g, dict_get "cosmo" f = Some g /\
            dict_get "RANDOM_SEED" (group_attrs g) = Some seed.
Proof.
  unfold OutputStruct.stored_seed.
  destruct (dict_get "cosmo" f) as [g|]; [|intros H; discriminate H].
  destruct (dict_get "RANDOM_SEED" (group_attrs g)) as [v|] eqn:Hv;
    intros H; inversion H; subst. exists g. split; [reflexivity|exact Hv].
Qed.

(** What [read] does with the seed. When [read] returns, it has found a
    file, read the attribute [RANDOM_SEED] of its [cosmo] group and
    written that value to the hidden attribute [_RANDOM_SEED] of the
    record [cosmo_params] refers to; the seed read through the field
    [RANDOM_SEED] is the stored one when the class defines the field as a
    property over that attribute. The structure is marked as filled. *)
Theorem read_sets_hidden_seed (E : OutputStruct.env)
  (direc fname : option string) (match_seed : bool)
  (s s' : OutputStruct.state) :
  OutputStruct.read E direc fname match_seed s = (Ok tt, s') ->
  exists pth f seed a,
    OutputStruct.find_existing E direc fname match_seed s = Ok (Some pth) /\
    OutputStruct.h5py_File E pth = Some f /\
    (exists g, dict_get "cosmo" f = Some g /\
               dict_get "RANDOM_SEED" (group_attrs g) = Some seed) /\
    OutputStruct.lookup "cosmo_params" s' = Ok (OutputStruct.Params a) /\
    dict_get "_RANDOM_SEED" (StructWithDefaults.attrs (OutputStruct.heap s' a))
    = Some seed /\
    (StructWithDefaults.is_property "RANDOM_SEED" (OutputStruct.heap s' a)
     = true ->
     StructWithDefaults.getattr "RANDOM_SEED" (OutputStruct.heap s' a)
     = Ok seed) /\
    OutputStruct.lookup "filled" s' = Ok (OutputStruct.Py (VBool true)).
Proof.
  intros H. unfold OutputStruct.read in H.
  apply bind_Ok in H as (pth & s0 & Hfind & H).
  apply reader_Ok in Hfind as [Hfind ->].
  destruct pth as [pth|]; [|discriminate H].
  apply bind_Ok in H as (ok & s1 & _ & H).
  apply bind_Ok in H as (? & s2 & _ & H).
  apply bind_Ok in H as (f & s3 & Hf & H).
  apply lift_Ok in Hf as [Hf ->].
  apply bind_Ok in H as (boxes & s4 & _ & H).
  apply bind_Ok in H as (? & s5 & _ & H).
  apply bind_Ok in H as (? & s6 & _ & H).
  apply bind_Ok in H as (seed & s7 & Hseed & H).
  apply lift_Ok in Hseed as [Hseed ->].
  apply bind_Ok in H as (? & s8 & Hset & H).
  unfold OutputStruct.set_cosmo_seed in Hset.
  apply bind_Ok in Hset as (cp & s9 & Hcp & Hset).
  apply reader_Ok in Hcp as [Hcp ->].
  destruct cp as [a| |]; try discriminate Hset.
  unfold StructWithDefaults.setattr in Hset.
  destruct (StructWithDefaults.is_property "_RANDOM_SEED" _);
    [discriminate Hset|].
  inversion Hset; subst s8. clear Hset.
  unfold OutputStruct.setattr in H. inversion H; subst s'. clear H.
  exists pth, f, seed, a.
  split; [exact Hfind|].
  split; [destruct (OutputStruct.h5py_File E pth); now inversion Hf|].
  split; [exact (stored_seed_Ok f seed Hseed)|].
  assert (Hheap :
            OutputStruct.heap
              (OutputStruct.set_dict
                 (OutputStruct.set_heap s6 a
                    (StructWithDefaults.with_attrs (OutputStruct.heap s6 a)
                       (dict_set "_RANDOM_SEED" seed
                          (StructWithDefaults.attrs (OutputStruct.heap s6 a)))))
                 (dict_set "filled" (OutputStruct.Py (VBool true))
                    (OutputStruct.__dict__ (OutputStruct.self s6)))) a
            = StructWithDefaults.with_attrs (OutputStruct.heap s6 a)
                (dict_set "_RANDOM_SEED" seed
                   (StructWithDefaults.attrs (OutputStruct.heap s6 a)))).
  { simpl. now rewrite Z.eqb_refl. }
  split; [|split; [|split]].
  - unfold OutputStruct.lookup in *. simpl.
    rewrite dict_get_set_ne by discriminate.
    destruct (dict_get "cosmo_params" _); [exact Hcp|discriminate Hcp].
  - rewrite Hheap. simpl. apply dict_get_set_eq.
  - rewrite Hheap. intros Hp.
    unfold StructWithDefaults.getattr, StructWithDefaults.property_get.
    unfold StructWithDefaults.is_property in *. simpl in *. rewrite Hp.
    now rewrite dict_get_set_eq.
  - unfold OutputStruct.lookup. simpl. now rewrite dict_get_set_eq.
Qed.

Lemma read_sets_hidden_seed_witness :
  let cached := "/cache/Boxes_36777dd3155e0da0fa9e2cd69154d57c_r1.h5" in
  let E := disk_env "/cache" init_field0 [(cached, Some (stored 1))] in
  let s := boxes_state E CosmoParams 7 in
  let s' := snd (OutputStruct.read E None None false s) in
  OutputStruct.cosmo_seed s = Ok (VInt 7) /\
  exists pth f seed a,
    OutputStruct.find_existing E None None false s = Ok (Some pth) /\
    OutputStruct.h5py_File E pth = Some f /\
    (exists g, dict_get "cosmo" f = Some g /\
               dict_get "RANDOM_SEED" (group_attrs g) = Some seed) /\
    OutputStruct.lookup "cosmo_params" s' = Ok (OutputStruct.Params a) /\
    dict_get "_RANDOM_SEED" (StructWithDefaults.attrs (OutputStruct.heap s' a))
    = Some seed /\
    (StructWithDefaults.is_property "RANDOM_SEED" (OutputStruct.heap s' a)
     = true ->
     StructWithDefaults.getattr "RANDOM_SEED" (OutputStruct.heap s' a)
     = Ok seed) /\
    OutputStruct.lookup "filled" s' = Ok (OutputStruct.Py (VBool true)).
Proof.
  intros cached E s s'. split; [reflexivity|].
  apply (read_sets_hidden_seed E None None false s s').
  vm_compute. reflexivity.
Defined.

(** Claim C6, at the failing input. The comment in [read] says that the
    seed has to be set to the one that is read in, and [read] then
    assigns the hidden attribute [_RANDOM_SEED] of the record, not its
    field [RANDOM_SEED]. For a kind of record that stores [RANDOM_SEED]
    as a plain attribute, the first choice of [__init__] and [update],
    [read] requested with seed 7 finds the file written for seed 1,
    succeeds and marks the structure as filled, but the seed field of the
    record still reads 7: the stored 1 went to a hidden attribute that
    nothing reads. For the kind that defines [RANDOM_SEED] as a property
    over the hidden attribute, the same call leaves the seed field at the
    stored 1. *)
Theorem read_leaves_plain_seed :
  let cached := "/cache/Boxes_36777dd3155e0da0fa9e2cd69154d57c_r1.h5" in
  let E := disk_env "/cache" init_field0 [(cached, Some (stored 1))] in
  let s := boxes_state E PlainSeedParams 7 in
  let s' := snd (OutputStruct.read E None None false s) in
  let p := boxes_state E CosmoParams 7 in
  let p' := snd (OutputStruct.read E None None false p) in
  OutputStruct.cosmo_seed s = Ok (VInt 7) /\
  fst (OutputStruct.read E None None false s) = Ok tt /\
  OutputStruct.find_existing E None None false s = Ok (Some cached) /\
  OutputStruct.h5py_File E cached = Some (stored 1) /\
  (exists g, dict_get "cosmo" (stored 1) = Some g /\
             dict_get "RANDOM_SEED" (group_attrs g) = Some (VInt 1)) /\
  OutputStruct.lookup "cosmo_params" s' = Ok (OutputStruct.Params 8192) /\
  OutputStruct.cosmo_seed s' = Ok (VInt 7) /\
  dict_get "RANDOM_SEED" (StructWithDefaults.attrs (OutputStruct.heap s' 8192))
  = Some (VInt 7) /\
  dict_get "_RANDOM_SEED" (StructWithDefaults.attrs (OutputStruct.heap s' 8192))
  = Some (VInt 1) /\
  OutputStruct.lookup "filled" s' = Ok (OutputStruct.Py (VBool true)) /\
  OutputStruct.cosmo_seed p = Ok (VInt 7) /\
  fst (OutputStruct.read E None None false p) = Ok tt /\
  OutputStruct.cosmo_seed p' = Ok (VInt 1).
Proof.
  intros cached E s s' p p'.
  split; [vm_compute; reflexivity|]. split; [vm_compute; reflexivity|].
  split; [vm_compute; reflexivity|]. split; [vm_compute; reflexivity|].
  split; [eexists; split; reflexivity|].
  repeat split; vm_compute; reflexivity.
Qed.

(** ** Misses of the cache *)

Lemma rquiet_Ok {A} (a : A) : rquiet (Ok a).
Proof. intros e H. discriminate. Qed.

Lemma rquiet_bind {A B} (r : Res A) (k : A -> Res B) :
  rquiet r -> (forall a, rquiet (k a)) -> rquiet (res_bind r k).
Proof.
  intros Hr Hk e. destruct r as [a|e0]; simpl.
  - apply Hk.
  - intros H. inversion H; subst. now apply Hr.
Qed.

Lemma quiet_ret {A} (a : A) : quiet (OutputStruct.ret a).
Proof. intros s e s' H. discriminate. Qed.

Lemma quiet_raise {A} e :
  e <> OutputStruct.no_boxes -> quiet (@OutputStruct.raise A e).
Proof. intros He s e' s' H. inversion H; subst. exact He. Qed.

Lemma quiet_lift {A} (r : Res A) : rquiet r -> quiet (OutputStruct.lift r).
Proof. intros Hr s e s' H. inversion H; subst. now apply Hr. Qed.

Lemma quiet_reader {A} (f : OutputStruct.state -> Res A) :
  (forall s, rquiet (f s)) -> quiet (OutputStruct.reader f).
Proof.
  intros Hf s e s' H. unfold OutputStruct.reader in H.
  injection H as H1 H2. exact (Hf s e H1).
Qed.

Lemma quiet_bind {A B} (m : OutputStruct.M A) (k : A -> OutputStruct.M B) :
  quiet m -> (forall a, quiet (k a)) -> quiet (OutputStruct.bind m k).
Proof.
  intros Hm Hk s e s' H.
  apply bind_Raise in H as [H|(a & s1 & _ & H)].
  - exact (Hm _ _ _ H).
  - exact (Hk a _ _ _ H).
Qed.

Lemma quiet_for_each {A} (l : list A) (body : A -> OutputStruct.M unit) :
  (forall x, quiet (body x)) -> quiet (OutputStruct.for_each l body).
Proof.
  intros Hb. induction l as [|x l IH]; simpl.
  - apply quiet_ret.
  - apply quiet_bind; auto.
Qed.

Lemma quiet_pass (m : OutputStruct.M unit) :
  quiet m -> quiet (OutputStruct.pass_AttributeError m).
Proof.
  intros Hm s e s'. unfold OutputStruct.pass_AttributeError.
  destruct (m s) as [[u|e0] s1] eqn:Hms; [discriminate|].
  destruct e0; try discriminate;
    intros H; inversion H; subst; exact (Hm _ _ _ Hms).
Qed.

Lemma rquiet_lookup k s : rquiet (OutputStruct.lookup k s).
Proof. intros e H. apply lookup_Raise in H. subst. discriminate. Qed.

Lemma rquiet_str_attr k s : rquiet (OutputStruct.str_attr k s).
Proof.
  unfold OutputStruct.str_attr. apply rquiet_bind; [apply rquiet_lookup|].
  intros [a|a|[| | | |n]]; try apply rquiet_Ok; intros e H;
    inversion H; discriminate.
Qed.

Lemma rquiet_swd_getattr k p : rquiet (StructWithDefaults.getattr k p).
Proof.
  unfold StructWithDefaults.getattr, StructWithDefaults.property_get.
  destruct (StructWithDefaults.is_property k p);
    destruct (dict_get _ _); try apply rquiet_Ok;
    intros e H; inversion H; discriminate.
Qed.

Lemma rquiet_defining_items ks p :
  rquiet (StructWithDefaults.defining_items ks p).
Proof.
  induction ks as [|k ks IH]; simpl; [apply rquiet_Ok|].
  destruct (startswith "RANDOM_SEED" k); [exact IH|].
  apply rquiet_bind; [apply rquiet_swd_getattr|]. intros v.
  apply rquiet_bind; [exact IH|]. intros d. apply rquiet_Ok.
Qed.

Lemma rquiet_swd_repr p : rquiet (StructWithDefaults.__repr__ p).
Proof.
  unfold StructWithDefaults.__repr__, StructWithDefaults.__defining_dict.
  apply rquiet_bind; [apply rquiet_defining_items|].
  intros d. apply rquiet_Ok.
Qed.

Lemma rquiet_reprs ps : rquiet (reprs ps).
Proof.
  induction ps as [|p ps IH]; simpl; [apply rquiet_Ok|].
  apply rquiet_bind; [apply rquiet_swd_repr|]. intros r.
  apply rquiet_bind; [exact IH|]. intros rs. apply rquiet_Ok.
Qed.

Lemma rquiet_hashname s : rquiet (OutputStruct._hashname s).
Proof.
  unfold OutputStruct._hashname.
  apply rquiet_bind; [apply rquiet_str_attr|]. intros n.
  apply rquiet_bind.
  - unfold OutputStruct._md5, OutputStruct.__repr__.
    apply rquiet_bind; [|intros; apply rquiet_Ok].
    apply rquiet_bind; [apply rquiet_str_attr|]. intros n'.
    apply rquiet_bind; [|intros; apply rquiet_Ok].
    rewrite repr_params_reprs. apply rquiet_reprs.
  - intros h. apply rquiet_bind; [|intros; apply rquiet_Ok].
    unfold OutputStruct.cosmo_seed.
    apply rquiet_bind; [apply rquiet_lookup|].
    intros [a|a|v]; try apply rquiet_swd_getattr;
      intros e H; inversion H; discriminate.
Qed.

(** [find_existing] raises only what [_hashname] raises, and returns
    whenever [_hashname] does. *)
Lemma get_fname_cases E direc fname s :
  (exists p, OutputStruct._get_fname E direc fname s = Ok p) \/
  (exists e, OutputStruct._get_fname E direc fname s = Raise e /\
             OutputStruct._hashname s = Raise e).
Proof.
  unfold OutputStruct._get_fname.
  destruct (OutputStruct.given direc), (OutputStruct.given fname);
    simpl; eauto;
    destruct (OutputStruct._hashname s); simpl; eauto.
Qed.

Lemma find_in_default_cases E s :
  (exists r, OutputStruct.find_in_default E s = Ok r) \/
  (exists e, OutputStruct.find_in_default E s = Raise e /\
             OutputStruct._hashname s = Raise e).
Proof.
  unfold OutputStruct.find_in_default.
  destruct (get_fname_cases E None None s) as [[p ->]|(e & -> & He)]; simpl.
  - left. destruct (OutputStruct.path_exists E p); eauto.
  - right. eauto.
Qed.

Lemma find_in_direc_cases E d fname ms s :
  (exists r, OutputStruct.find_in_direc E d fname ms s = Ok r) \/
  (exists e, OutputStruct.find_in_direc E d fname ms s = Raise e /\
             OutputStruct._hashname s = Raise e).
Proof.
  unfold OutputStruct.find_in_direc.
  assert (Hhit :
            (exists r,
                match fname with
                | Some _ =>
                    p <- OutputStruct._get_fname E (Some d) fname s ;;
                    (if OutputStruct.path_exists E p
                     then q <- OutputStruct._get_fname E (Some d) fname s ;;
                          Ok (Some q)
                     else Ok None)
                | None => Ok None
                end = Ok r) \/
            (exists e,
                match fname with
                | Some _ =>
                    p <- OutputStruct._get_fname E (Some d) fname s ;;
                    (if OutputStruct.path_exists E p
                     then q <- OutputStruct._get_fname E (Some d) fname s ;;
                          Ok (Some q)
                     else Ok None)
                | None => Ok None
                end = Raise e /\ OutputStruct._hashname s = Raise e)).
  { destruct fname as [f|]; [|eauto]. cbv beta iota.
    destruct (get_fname_cases E (Some d) (Some f) s)
      as [[p Hp]|(e & Hp & He)]; rewrite Hp; simpl; [|eauto].
    destruct (OutputStruct.path_exists E p); simpl; eauto. }
  destruct Hhit as [[r ->]|(e & -> & He)]; simpl; [|eauto].
  destruct r as [p|]; [eauto|].
  destruct (get_fname_cases E (Some d) None s)
    as [[p ->]|(e & -> & He)]; simpl; [|eauto].
  left. destruct (OutputStruct.path_exists E p); [eauto|].
  destruct (negb ms); eauto.
Qed.

Lemma find_existing_cases E direc fname ms s :
  (exists r, OutputStruct.find_existing E direc fname ms s = Ok r) \/
  (exists e, OutputStruct.find_existing E direc fname ms s = Raise e /\
             OutputStruct._hashname s = Raise e).
Proof.
  unfold OutputStruct.find_existing.
  destruct direc as [d|]; simpl.
  - destruct (find_in_direc_cases E d fname ms s)
      as [[r ->]|(e & -> & He)]; simpl; [|eauto].
    destruct r; [eauto|]. apply find_in_default_cases.
  - apply find_in_default_cases.
Qed.

Lemma given_Some o p : OutputStruct.given o = Some p -> o = Some p.
Proof.
  unfold OutputStruct.given. destruct o as [x|]; [|discriminate].
  destruct (String.eqb x ""); [discriminate|auto].
Qed.

Lemma without_seed_matched E f p :
  OutputStruct.given (OutputStruct._find_file_without_seed E f) = Some p ->
  matched E p.
Proof.
  intros H. apply given_Some in H. right. exists f.
  unfold OutputStruct._find_file_without_seed in H.
  destruct (OutputStruct.glob E (re_sub_seed f)) as [|g l]; [discriminate|].
  inversion H; subst. now left.
Qed.

Lemma find_in_default_matched E s p :
  OutputStruct.find_in_default E s = Ok (Some p) -> matched E p.
Proof.
  unfold OutputStruct.find_in_default.
  destruct (OutputStruct._get_fname E None None s) as [f|]; simpl;
    [|discriminate].
  destruct (OutputStruct.path_exists E f) eqn:Hex; intros H; inversion H.
  - subst. now left.
  - eapply without_seed_matched; eauto.
Qed.

Lemma find_in_direc_matched E d fname ms s p :
  OutputStruct.find_in_direc E d fname ms s = Ok (Some p) -> matched E p.
Proof.
  unfold OutputStruct.find_in_direc. intros H.
  destruct fname as [f|].
  - destruct (OutputStruct._get_fname E (Some d) (Some f) s) as [q|] eqn:Hq;
      simpl in H; [|discriminate].
    destruct (OutputStruct.path_exists E q) eqn:Hex; simpl in H.
    + inversion H; subst. now left.
    + destruct (OutputStruct._get_fname E (Some d) None s) as [g|];
        simpl in H; [|discriminate].
      destruct (OutputStruct.path_exists E g) eqn:Hg.
      * inversion H; subst. now left.
      * destruct (negb ms); inversion H.
        eapply without_seed_matched; eauto.
  - simpl in H.
    destruct (OutputStruct._get_fname E (Some d) None s) as [g|];
      simpl in H; [|discriminate].
    destruct (OutputStruct.path_exists E g) eqn:Hg.
    + inversion H; subst. now left.
    + destruct (negb ms); inversion H.
      eapply without_seed_matched; eauto.
Qed.

Lemma find_existing_matched E direc fname ms s p :
  OutputStruct.find_existing E direc fname ms s = Ok (Some p) -> matched E p.
Proof.
  unfold OutputStruct.find_existing. intros H.
  destruct direc as [d|]; simpl in H.
  - destruct (OutputStruct.find_in_direc E d fname ms s) as [[q|]|] eqn:Hd;
      simpl in H; [| |discriminate].
    + inversion H; subst. eapply find_in_direc_matched; eauto.
    + eapply find_in_default_matched; eauto.
  - eapply find_in_default_matched; eauto.
Qed.

Lemma quiet_getattr k : quiet (OutputStruct.getattr k).
Proof. apply quiet_reader. intros s. apply rquiet_lookup. Qed.

Lemma quiet_hasattr k : quiet (OutputStruct.hasattr k).
Proof.
  intros s e s'. unfold OutputStruct.hasattr.
  destruct (OutputStruct.lookup k s); discriminate.
Qed.

Lemma quiet_setattr k v : quiet (OutputStruct.setattr k v).
Proof.
  intros s e s'. unfold OutputStruct.setattr.
  destruct (OutputStruct.read_only k); intros H; inversion H; discriminate.
Qed.

Lemma quiet_assign_array k a : quiet (OutputStruct.assign_array k a).
Proof. intros s e s' H. discriminate. Qed.

Lemma quiet_cstruct : quiet OutputStruct._cstruct.
Proof.
  intros s e s'. unfold OutputStruct._cstruct, OutputStruct._new,
    OutputStruct.reader.
  destruct (OutputStruct.__cstruct (OutputStruct.self s)); [discriminate|].
  destruct (OutputStruct.str_attr "_id" s) as [n|e0] eqn:Hid; simpl;
    [discriminate|].
  intros H. injection H as H1 H2. subst e0.
  now apply (rquiet_str_attr "_id" s).
Qed.

Lemma quiet_fields_of k :
  quiet (OutputStruct.bind OutputStruct.fields
           (fun fs => OutputStruct.ret (OutputStruct.fields_of_kind k fs))).
Proof.
  apply quiet_bind; [|intros; apply quiet_ret].
  unfold OutputStruct.fields. apply quiet_bind; [apply quiet_cstruct|].
  intros _. apply quiet_reader. intros s. apply rquiet_Ok.
Qed.

Lemma quiet_c_setattr k v : quiet (OutputStruct.c_setattr k v).
Proof.
  unfold OutputStruct.c_setattr. apply quiet_bind; [apply quiet_cstruct|].
  intros c s e s' H. discriminate.
Qed.

Lemma quiet_arrays_initialized : quiet OutputStruct.arrays_initialized.
Proof.
  unfold OutputStruct.arrays_initialized.
  apply quiet_bind; [apply (quiet_fields_of OutputStruct.pointer)|].
  intros ks. induction ks as [|k ks IH]; simpl; [apply quiet_ret|].
  apply quiet_bind; [apply quiet_hasattr|]. intros h.
  destruct (negb h); [apply quiet_ret|].
  apply quiet_bind; [apply quiet_cstruct|]. intros c.
  destruct (OutputStruct.c_is_NULL c _); [apply quiet_ret|exact IH].
Qed.

Lemma quiet_bind_array k : quiet (OutputStruct.bind_array k).
Proof.
  unfold OutputStruct.bind_array.
  apply quiet_bind; [apply quiet_cstruct|]. intros _.
  apply quiet_bind; [apply quiet_getattr|]. intros v.
  apply quiet_bind.
  - apply quiet_lift. unfold OutputStruct._ary2buf.
    destruct v as [a|a|v]; try (intros e H; inversion H; discriminate).
    destruct (dict_get _ _); [apply rquiet_Ok|].
    intros e H; inversion H; discriminate.
  - intros p. unfold OutputStruct.store_pointer.
    destruct (_ || _); [apply quiet_c_setattr|].
    apply quiet_raise. discriminate.
Qed.

Lemma quiet_bind_primitive E k : quiet (OutputStruct.bind_primitive E k).
Proof.
  unfold OutputStruct.bind_primitive. apply quiet_pass.
  apply quiet_bind; [apply quiet_cstruct|]. intros _.
  apply quiet_bind; [apply quiet_getattr|]. intros v.
  unfold OutputStruct.store_primitive.
  destruct v as [a|a|v]; try (apply quiet_raise; discriminate).
  destruct (OutputStruct.c_convert E _ v); [apply quiet_c_setattr|].
  apply quiet_raise. discriminate.
Qed.

Lemma quiet_init_cstruct E :
  quiet (OutputStruct._init_arrays E) -> quiet (OutputStruct._init_cstruct E).
Proof.
  intros Hhook. unfold OutputStruct._init_cstruct.
  apply quiet_bind; [exact Hhook|]. intros _.
  apply quiet_bind; [apply (quiet_fields_of OutputStruct.pointer)|]. intros ks.
  apply quiet_bind; [apply quiet_for_each, quiet_bind_array|]. intros _.
  apply quiet_bind; [apply (quiet_fields_of OutputStruct.primitive)|].
  intros ps.
  apply quiet_bind; [apply quiet_for_each, quiet_bind_primitive|]. intros _.
  apply quiet_bind; [apply quiet_arrays_initialized|]. intros ok.
  destruct (negb ok); [|apply quiet_ret].
  apply quiet_bind; [apply quiet_reader; intros s; apply rquiet_Ok|].
  intros s. apply quiet_raise. discriminate.
Qed.

Lemma quiet_fill E kv : quiet (OutputStruct.fill E kv).
Proof.
  unfold OutputStruct.fill.
  apply quiet_bind; [apply quiet_getattr|]. intros dst.
  destruct dst as [a|a|v]; try (apply quiet_raise; discriminate).
  destruct (OutputStruct.np_assign E a _); [apply quiet_assign_array|].
  apply quiet_raise. discriminate.
Qed.

Lemma quiet_set_cosmo_seed seed : quiet (OutputStruct.set_cosmo_seed seed).
Proof.
  unfold OutputStruct.set_cosmo_seed.
  apply quiet_bind; [apply quiet_getattr|]. intros cp.
  destruct cp as [a|a|v]; try (apply quiet_raise; discriminate).
  intros s e s'. unfold StructWithDefaults.setattr.
  destruct (StructWithDefaults.is_property _ _); intros H; inversion H.
  discriminate.
Qed.

(** After a file has been found, [read] does not raise the error of a
    miss, as long as [_init_arrays] does not. *)
Lemma quiet_read_found E pth :
  quiet (OutputStruct._init_arrays E) ->
  quiet (OutputStruct.bind OutputStruct.arrays_initialized (fun ok =>
         OutputStruct.bind
           (if negb ok then OutputStruct._init_cstruct E
            else OutputStruct.ret tt) (fun _ =>
         OutputStruct.bind
           (OutputStruct.lift
              match OutputStruct.h5py_File E pth with
              | Some f => Ok f
              | None => Raise (IOError "Unable to open file")
              end) (fun f =>
         OutputStruct.bind (OutputStruct.reader (OutputStruct.open_boxes f))
           (fun boxes =>
         OutputStruct.bind
           (OutputStruct.for_each (datasets boxes) (OutputStruct.fill E))
           (fun _ =>
         OutputStruct.bind
           (OutputStruct.for_each (group_attrs boxes)
              (fun kv => OutputStruct.setattr (fst kv)
                           (OutputStruct.Py (snd kv)))) (fun _ =>
         OutputStruct.bind (OutputStruct.lift (OutputStruct.stored_seed f))
           (fun seed =>
         OutputStruct.bind (OutputStruct.set_cosmo_seed seed) (fun _ =>
         OutputStruct.setattr "filled" (OutputStruct.Py (VBool true))))))))))).
Proof.
  intros Hhook.
  apply quiet_bind; [apply quiet_arrays_initialized|]. intros ok.
  apply quiet_bind.
  { destruct (negb ok); [now apply quiet_init_cstruct|apply quiet_ret]. }
  intros _. apply quiet_bind.
  { apply quiet_lift. destruct (OutputStruct.h5py_File E pth);
      [apply rquiet_Ok|]. intros e H; inversion H; discriminate. }
  intros f. apply quiet_bind.
  { apply quiet_reader. intros s. unfold OutputStruct.open_boxes.
    apply rquiet_bind; [apply rquiet_lookup|].
    intros name e. unfold OutputStruct.no_group, OutputStruct.no_boxes.
    destruct name as [a|a|[| | | |n]]; try (intros H; inversion H; discriminate).
    destruct (dict_get n f); intros H; inversion H; discriminate. }
  intros boxes. apply quiet_bind; [apply quiet_for_each, quiet_fill|].
  intros _. apply quiet_bind.
  { apply quiet_for_each. intros kv. apply quiet_setattr. }
  intros _. apply quiet_bind.
  { apply quiet_lift. unfold OutputStruct.stored_seed.
    destruct (dict_get "cosmo" f) as [g|];
      [destruct (dict_get "RANDOM_SEED" _); [apply rquiet_Ok|]|];
      intros e H; inversion H; discriminate. }
  intros seed. apply quiet_bind; [apply quiet_set_cosmo_seed|].
  intros _. apply quiet_setattr.
Qed.

(** Claim C5. Whatever the directory, the file name and [match_seed],
    [find_existing] returns a matched path or [None] whenever the record
    can spell its own file name, and raises nothing but what computing
    that name raises: no state of the file system makes it raise. [read]
    raises its error for a miss exactly when [find_existing] returns
    [None], granted that the [_init_arrays] of the subclass does not
    raise that very error. *)
Theorem find_existing_miss_is_None (E : OutputStruct.env)
  (direc fname : option string) (match_seed : bool) (s : OutputStruct.state) :
  quiet (OutputStruct._init_arrays E) ->
  (forall h, OutputStruct._hashname s = Ok h ->
             exists r,
               OutputStruct.find_existing E direc fname match_seed s = Ok r) /\
  (forall e,
      OutputStruct.find_existing E direc fname match_seed s = Raise e ->
      OutputStruct._hashname s = Raise e) /\
  (forall p,
      OutputStruct.find_existing E direc fname match_seed s = Ok (Some p) ->
      matched E p) /\
  (fst (OutputStruct.read E direc fname match_seed s)
   = Raise OutputStruct.no_boxes <->
   OutputStruct.find_existing E direc fname match_seed s = Ok None).
Proof.
  intros Hhook. split; [|split; [|split]].
  - intros h Hh.
    destruct (find_existing_cases E direc fname match_seed s)
      as [Hr|(e & _ & He)]; [exact Hr | congruence].
  - intros e He.
    destruct (find_existing_cases E direc fname match_seed s)
      as [[r Hr]|(e' & He' & Hn)]; congruence.
  - intros p. apply find_existing_matched.
  - unfold OutputStruct.read, OutputStruct.bind at 1, OutputStruct.reader.
    destruct (OutputStruct.find_existing E direc fname match_seed s)
      as [[pth|]|e] eqn:Hfind.
    + split; [|discriminate]. intros H. exfalso.
      destruct (OutputStruct.bind OutputStruct.arrays_initialized _ s)
        as [[u|e] s'] eqn:Hrest; simpl in H; [discriminate|].
      inversion H; subst e.
      now apply (quiet_read_found E pth Hhook _ _ _ Hrest).
    + split; reflexivity.
    + split; [|discriminate]. simpl. intros H. exfalso.
      inversion H; subst e.
      destruct (find_existing_cases E direc fname match_seed s)
        as [[r Hr]|(e' & He' & Hn)]; [congruence|].
      rewrite Hfind in He'. inversion He'; subst e'.
      now apply (rquiet_hashname s _ Hn).
Qed.

Lemma find_existing_miss_is_None_witness :
  let E := disk_env "/cache" init_field0 [] in
  let s := boxes_state E CosmoParams 3 in
  (forall h, OutputStruct._hashname s = Ok h ->
             exists r, OutputStruct.find_existing E None None true s = Ok r) /\
  (forall e,
      OutputStruct.find_existing E None None true s = Raise e ->
      OutputStruct._hashname s = Raise e) /\
  (forall p,
      OutputStruct.find_existing E None None true s = Ok (Some p) ->
      matched E p) /\
  (fst (OutputStruct.read E None None true s) = Raise OutputStruct.no_boxes <->
   OutputStruct.find_existing E None None true s = Ok None).
Proof.
  intros E s. apply (find_existing_miss_is_None E None None true s).
  intros s0 e s1. unfold E. simpl. unfold init_field0, OutputStruct.bind,
    OutputStruct.hasattr.
  destruct (OutputStruct.lookup "field0" s0); discriminate.
Defined.

(** * Further properties of [StructWithDefaults] *)

Lemma dict_get_In_keys {V} (d : dict V) k v :
  dict_get k d = Some v -> In k (keys d).
Proof.
  intros H. apply dict_in_keys. unfold dict_in. now rewrite H.
Qed.

(** The loop of [__init__] on a well-formed class whose fields are
    distinct: every field ends up in its slot, with the value of the
    keyword argument when there is one and the default otherwise. *)
Lemma init_loop_spec cls items kwargs :
  wf_class cls = true ->
  NoDup (keys items) ->
  incl (keys items) (keys (StructWithDefaults._defaults_ cls)) ->
  forall self,
    StructWithDefaults.__class__ self = cls ->
    exists self',
      StructWithDefaults.init_loop items kwargs self = Ok self' /\
      same_frame self self' /\
      (forall k v,
          In (k, v) items ->
          dict_get (slot cls k) (StructWithDefaults.attrs self')
          = Some (match dict_get k kwargs with Some w => w | None => v end)) /\
      (forall n,
          (forall k, In k (keys items) -> slot cls k <> n) ->
          dict_get n (StructWithDefaults.attrs self')
          = dict_get n (StructWithDefaults.attrs self)).
Proof.
  intros Hwf. induction items as [|[k v] items IH];
    intros Hnd Hincl self Hcls.
  - exists self. simpl. repeat split; auto. intros k v [].
  - simpl in Hnd. apply NoDup_cons_iff in Hnd as [Hnotin Hnd'].
    assert (Hk : In k (keys (StructWithDefaults._defaults_ cls)))
      by (apply Hincl; now left).
    assert (Hincl' : incl (keys items) (keys (StructWithDefaults._defaults_ cls)))
      by (intros x Hx; apply Hincl; now right).
    simpl. rewrite store_slot by (rewrite Hcls; now apply wf_class_hidden_ok).
    rewrite Hcls. simpl.
    set (w := match dict_get k kwargs with Some w => w | None => v end).
    set (self1 := StructWithDefaults.with_attrs self
                    (dict_set (slot cls k) w (StructWithDefaults.attrs self))).
    destruct (IH Hnd' Hincl' self1 Hcls)
      as (self' & Hrun & Hframe & Hset & Hkeep).
    exists self'. split; [exact Hrun|]. split; [|split].
    + destruct Hframe as (A & B & C & D). repeat split; auto.
    + intros k' v' [Heq|Hin].
      * inversion Heq; subst k' v'. rewrite Hkeep.
        -- subst self1. simpl. apply dict_get_set_eq.
        -- intros k2 Hin2. apply slot_distinct; auto using wf_class_hidden_ok.
           intros ->. contradiction.
      * now apply Hset.
    + intros n Hn. rewrite Hkeep.
      * subst self1. simpl. apply dict_get_set_ne.
        intros ->. apply (Hn k); [now left | reflexivity].
      * intros k2 Hin2. apply Hn. now right.
Qed.

(** The name of the C structure a record of class [cls] stands for. *)
Lemma init_name cls kwargs self :
  StructWithDefaults.__init__ cls kwargs = Ok self ->
  StructWithDefaults._name self
  = Some (match StructWithDefaults.cls__name cls with
          | Some n => n
          | None => StructWithDefaults.__name__ cls
          end) /\
  StructWithDefaults._strings self = Some [] /\
  StructWithDefaults.__cstruct self = None /\
  StructWithDefaults.__class__ self = cls.
Proof.
  unfold StructWithDefaults.__init__. intros H.
  destruct (StructWithDefaults.init_loop _ kwargs _) as [self1|] eqn:Hl;
    simpl in H; [|discriminate].
  assert (Hfr : StructWithDefaults.__class__ self1 = cls /\
                StructWithDefaults.inst__name self1 = None /\
                StructWithDefaults.__cstruct self1 = None).
  { clear H. revert Hl.
    generalize (StructWithDefaults._defaults_ cls) as items.
    assert (Hb : StructWithDefaults.__class__ (StructWithDefaults.blank cls) = cls /\
                 StructWithDefaults.inst__name (StructWithDefaults.blank cls) = None /\
                 StructWithDefaults.__cstruct (StructWithDefaults.blank cls) = None)
      by (simpl; auto).
    revert Hb. generalize (StructWithDefaults.blank cls) as s0.
    intros s0 Hb items. revert s0 Hb.
    induction items as [|[k v] items IH]; simpl; intros s0 Hb Hl.
    - inversion Hl; subst. exact Hb.
    - destruct (StructWithDefaults.store k _ s0) as [s1|] eqn:Hs;
        simpl in Hl; [|discriminate].
      apply store_writes in Hs as (n & _ & ->).
      eapply IH; [|exact Hl]. exact Hb. }
  destruct Hfr as (Hc & Hn & Hcs).
  unfold StructWithDefaults._name in *. rewrite Hn, Hc in H.
  inversion H; subst self. clear H.
  destruct (StructWithDefaults.cls__name cls) as [n|] eqn:Hcn; simpl;
    rewrite ?Hn, ?Hc, ?Hcn; auto.
Qed.

(** Construction leaves a fully initialised record: on a well-formed
    class with distinct fields it succeeds, every field reads as the
    keyword argument given for it or else as its default, the record
    carries the name of its C structure, and its identity string can be
    computed. *)
Theorem init_establishes_fields cls kwargs :
  wf_class cls = true ->
  NoDup (keys (StructWithDefaults._defaults_ cls)) ->
  exists self,
    StructWithDefaults.__init__ cls kwargs = Ok self /\
    (forall k v,
        In (k, v) (StructWithDefaults._defaults_ cls) ->
        StructWithDefaults.getattr k self
        = Ok (match dict_get k kwargs with Some w => w | None => v end)) /\
    StructWithDefaults._name self
    = Some (match StructWithDefaults.cls__name cls with
            | Some n => n
            | None => StructWithDefaults.__name__ cls
            end) /\
    (exists r, StructWithDefaults.__repr__ self = Ok r).
Proof.
  intros Hwf Hnd.
  destruct (init_loop_spec cls (StructWithDefaults._defaults_ cls) kwargs
              Hwf Hnd (incl_refl _) (StructWithDefaults.blank cls) eq_refl)
    as (self1 & Hrun & (Hc & _) & Hset & _).
  assert (Hinit : exists self, StructWithDefaults.__init__ cls kwargs = Ok self /\
                               StructWithDefaults.attrs self
                               = StructWithDefaults.attrs self1).
  { unfold StructWithDefaults.__init__. rewrite Hrun. simpl.
    eexists. split; [reflexivity|].
    destruct (StructWithDefaults._name self1); reflexivity. }
  destruct Hinit as (self & Hinit & Hattrs).
  destruct (init_name cls kwargs self Hinit) as (Hname & _ & _ & Hcls).
  assert (Hget : forall k v,
             In (k, v) (StructWithDefaults._defaults_ cls) ->
             StructWithDefaults.getattr k self
             = Ok (match dict_get k kwargs with Some w => w | None => v end)).
  { intros k v Hin. rewrite getattr_slot, Hcls, Hattrs.
    now rewrite (Hset k v Hin). }
  exists self. split; [exact Hinit|]. split; [exact Hget|].
  split; [exact Hname|].
  destruct (defining_items_total
              (keys (StructWithDefaults._defaults_ cls)) self) as [d Hd].
  { intros k Hin _. unfold keys in Hin. apply in_map_iff in Hin.
    destruct Hin as ([k0 v0] & <- & Hin). eexists. apply (Hget k0 v0 Hin). }
  unfold StructWithDefaults.__repr__, StructWithDefaults.__defining_dict.
  rewrite Hcls, Hd. simpl. eauto.
Qed.

Lemma init_establishes_fields_witness :
  exists self,
    StructWithDefaults.__init__ CosmoParams [("RANDOM_SEED", VInt 3)] = Ok self /\
    (forall k v,
        In (k, v) [("RANDOM_SEED", VNone); ("SIGMA_8", VFloat "0.8")] ->
        StructWithDefaults.getattr k self
        = Ok (match dict_get k [("RANDOM_SEED", VInt 3)] with
              | Some w => w
              | None => v
              end)) /\
    StructWithDefaults._name self = Some "CosmoParams" /\
    (exists r, StructWithDefaults.__repr__ self = Ok r).
Proof.
  apply (init_establishes_fields CosmoParams [("RANDOM_SEED", VInt 3)]).
  - reflexivity.
  - simpl. repeat constructor; simpl; intuition discriminate.
Defined.

(** The cached property [_cstruct] of a constructed record. For a class
    that leaves [_ffi] as [None] the access raises [AttributeError]. For
    a class with a library, the first access asks the library for
    [struct <_name>*]: when the library raises, the access raises the
    same; when it returns a structure, the access returns it and
    remembers it, later accesses return that same structure, and no
    field of the record changes. *)
Theorem cstruct_after_init cls kwargs self :
  StructWithDefaults.__init__ cls kwargs = Ok self ->
  match StructWithDefaults.cls__ffi cls with
  | None =>
      StructWithDefaults._cstruct self
      = Raise (AttributeError "'NoneType' object has no attribute 'new'")
  | Some new =>
      match new ("struct "
                 ++ match StructWithDefaults.cls__name cls with
                    | Some n => n
                    | None => StructWithDefaults.__name__ cls
                    end
                 ++ "*") with
      | Raise e => StructWithDefaults._cstruct self = Raise e
      | Ok c =>
          exists self',
            StructWithDefaults._cstruct self = Ok (c, self') /\
            StructWithDefaults.__cstruct self' = Some c /\
            StructWithDefaults._cstruct self' = Ok (c, self') /\
            (forall k, StructWithDefaults.getattr k self'
                       = StructWithDefaults.getattr k self)
      end
  end.
Proof.
  intros Hinit.
  destruct (init_name cls kwargs self Hinit) as (Hname & _ & Hcs & Hcls).
  unfold StructWithDefaults._cstruct, StructWithDefaults._new.
  rewrite Hcs, Hname, Hcls.
  destruct (StructWithDefaults.cls__ffi cls) as [new|]; [|reflexivity].
  destruct (new _) as [c|e]; [|reflexivity].
  simpl. eexists. split; [reflexivity|]. split; [reflexivity|].
  split; reflexivity.
Qed.

Lemma cstruct_after_init_witness :
  StructWithDefaults._cstruct (construct Unwrapped [])
  = Raise (AttributeError "'NoneType' object has no attribute 'new'") /\
  exists self',
    StructWithDefaults._cstruct (construct AB []) = Ok (ffi_new "struct AB*", self') /\
    StructWithDefaults.__cstruct self' = Some (ffi_new "struct AB*") /\
    StructWithDefaults._cstruct self' = Ok (ffi_new "struct AB*", self') /\
    (forall k, StructWithDefaults.getattr k self'
               = StructWithDefaults.getattr k (construct AB [])).
Proof.
  split.
  - exact (cstruct_after_init Unwrapped [] (construct Unwrapped []) eq_refl).
  - exact (cstruct_after_init AB [] (construct AB []) eq_refl).
Defined.

Lemma update_class kwargs self log :
  wf_class (StructWithDefaults.__class__ self) = true ->
  StructWithDefaults.__class__ (snd (fst (StructWithDefaults.update kwargs self log)))
  = StructWithDefaults.__class__ self.
Proof.
  intros Hwf.
  destruct (update_spec kwargs self log Hwf) as (self' & Hrun & Hself & _).
  rewrite Hrun. simpl. rewrite Hself. simpl.
  destruct (update_loop_spec _ _ Hwf (incl_refl _) kwargs self eq_refl)
    as (self1 & Hloop & (Hc & _) & _).
  rewrite Hloop. exact Hc.
Qed.

(** [update] on a record whose structure has been created, of a class
    whose properties have a free hidden attribute: it returns normally,
    issues one warning with the text of the source and the keyword
    arguments that are not fields when there are any and none otherwise,
    and deletes the cached structure, so that an [update] that follows
    at once raises [AttributeError], whatever its arguments; the next
    access to [_cstruct] asks the library for a fresh structure. *)
Theorem update_drops_cstruct kwargs self log c :
  wf_class (StructWithDefaults.__class__ self) = true ->
  StructWithDefaults.__cstruct self = Some c ->
  exists self',
    StructWithDefaults.update kwargs self log
    = (Ok tt, self',
       (log ++ match rejected (StructWithDefaults.__class__ self) kwargs with
               | [] => []
               | _ :: _ =>
                   [{| w_message :=
                         "The following arguments to be updated are not compatible with this class: %s";
                       w_args := rejected (StructWithDefaults.__class__ self)
                                   kwargs |}]
               end)%list) /\
    (forall k v,
        In (k, v) (rejected (StructWithDefaults.__class__ self) kwargs) <->
        In (k, v) kwargs /\
        ~ In k (keys (StructWithDefaults._defaults_
                        (StructWithDefaults.__class__ self)))) /\
    StructWithDefaults.__cstruct self' = None /\
    (forall kwargs2 log2,
        fst (fst (StructWithDefaults.update kwargs2 self' log2))
        = Raise (AttributeError "_StructWithDefaults__cstruct")) /\
    (forall n new,
        StructWithDefaults._name self = Some n ->
        StructWithDefaults.cls__ffi (StructWithDefaults.__class__ self)
        = Some new ->
        StructWithDefaults._cstruct self'
        = match new ("struct " ++ n ++ "*") with
          | Ok c' => Ok (c', StructWithDefaults.with__cstruct self' (Some c'))
          | Raise e => Raise e
          end).
Proof.
  intros Hwf Hc.
  destruct (update_spec kwargs self log Hwf)
    as (self' & Hrun & Hself & _ & _).
  assert (Hcls : StructWithDefaults.__class__ self'
                 = StructWithDefaults.__class__ self).
  { pose proof (update_class kwargs self log Hwf) as H.
    now rewrite Hrun in H. }
  assert (Hnone : StructWithDefaults.__cstruct self' = None)
    by (rewrite Hself; reflexivity).
  exists self'. split; [|split; [|split; [exact Hnone|split]]].
  - rewrite Hrun. unfold delattr_outcome. rewrite Hc.
    unfold warnings_for. destruct (rejected _ kwargs); reflexivity.
  - intros k v. apply rejected_In.
  - intros kwargs2 log2.
    destruct (update_spec kwargs2 self' log2) as (s2 & Hrun2 & _);
      [now rewrite Hcls|].
    rewrite Hrun2. simpl. unfold delattr_outcome. now rewrite Hnone.
  - intros n new Hn Hffi.
    assert (Hn' : StructWithDefaults._name self' = Some n).
    { rewrite Hself. unfold StructWithDefaults._name in *. simpl.
      destruct (update_loop_spec _ _ Hwf (incl_refl _) kwargs self eq_refl)
        as (self1 & Hloop & (Hc1 & Hn1 & _) & _).
      rewrite Hloop. simpl. now rewrite Hn1, Hc1. }
    unfold StructWithDefaults._cstruct, StructWithDefaults._new.
    rewrite Hnone, Hn', Hcls, Hffi.
    destruct (new _); reflexivity.
Qed.

Lemma update_drops_cstruct_witness :
  let self := StructWithDefaults.with__cstruct (construct AB [])
                (Some (ffi_new "struct AB*")) in
  exists self',
    StructWithDefaults.update [("b", VInt 7); ("z", VInt 9)] self []
    = (Ok tt, self',
       [{| w_message :=
             "The following arguments to be updated are not compatible with this class: %s";
           w_args := [("z", VInt 9)] |}]) /\
    StructWithDefaults.getattr "b" self' = Ok (VInt 7) /\
    StructWithDefaults.__cstruct self' = None /\
    (forall kwargs2 log2,
        fst (fst (StructWithDefaults.update kwargs2 self' log2))
        = Raise (AttributeError "_StructWithDefaults__cstruct")) /\
    StructWithDefaults._cstruct self'
    = Ok (ffi_new "struct AB*",
          StructWithDefaults.with__cstruct self' (Some (ffi_new "struct AB*"))).
Proof.
  intros self.
  destruct (update_drops_cstruct [("b", VInt 7); ("z", VInt 9)] self []
              (ffi_new "struct AB*") eq_refl eq_refl)
    as (self' & Hrun & _ & Hnone & Hnext & Hfresh).
  exists self'. split; [exact Hrun|]. split.
  - vm_compute in Hrun. inversion Hrun. reflexivity.
  - split; [exact Hnone|]. split; [exact Hnext|].
    exact (Hfresh "AB" lib_new eq_refl eq_refl).
Defined.

(** Updates compose: after two updates in a row a field holds the value
    of the second call when that call names it, else the value of the
    first call when that one names it, else the value it had; this holds
    whether or not the calls end in the error of [delattr]. *)
Theorem update_twice kw1 kw2 self log :
  wf_class (StructWithDefaults.__class__ self) = true ->
  let s1 := snd (fst (StructWithDefaults.update kw1 self log)) in
  let log1 := snd (StructWithDefaults.update kw1 self log) in
  let s2 := snd (fst (StructWithDefaults.update kw2 s1 log1)) in
  forall k,
    In k (keys (StructWithDefaults._defaults_
                  (StructWithDefaults.__class__ self))) ->
    StructWithDefaults.getattr k s2
    = match dict_get k kw2, dict_get k kw1 with
      | Some v, _ => Ok v
      | None, Some v => Ok v
      | None, None => StructWithDefaults.getattr k self
      end.
Proof.
  intros Hwf s1 log1 s2 k Hin.
  assert (Hcls : StructWithDefaults.__class__ s1
                 = StructWithDefaults.__class__ self)
    by (apply update_class; exact Hwf).
  destruct (update_spec kw1 self log Hwf) as (t1 & Hrun1 & _ & Hset1 & Hkeep1).
  assert (Ht1 : s1 = t1) by (unfold s1; now rewrite Hrun1).
  destruct (update_spec kw2 s1 log1) as (t2 & Hrun2 & _ & Hset2 & Hkeep2);
    [now rewrite Hcls|].
  assert (Ht2 : s2 = t2) by (unfold s2; now rewrite Hrun2).
  rewrite Hcls in Hset2, Hkeep2. rewrite Ht2.
  destruct (dict_get k kw2) as [v2|] eqn:H2.
  - now apply Hset2.
  - rewrite (Hkeep2 k Hin H2), Ht1.
    destruct (dict_get k kw1) as [v1|] eqn:H1.
    + now apply Hset1.
    + now apply Hkeep1.
Qed.

Lemma update_twice_witness :
  let s1 := snd (fst (StructWithDefaults.update [("a", VInt 5); ("b", VInt 6)]
                        (construct AB []) [])) in
  let log1 := snd (StructWithDefaults.update [("a", VInt 5); ("b", VInt 6)]
                     (construct AB []) []) in
  let s2 := snd (fst (StructWithDefaults.update [("b", VInt 7)] s1 log1)) in
  StructWithDefaults.getattr "a" s2 = Ok (VInt 5) /\
  StructWithDefaults.getattr "b" s2 = Ok (VInt 7).
Proof.
  intros s1 log1 s2. split.
  - apply (update_twice [("a", VInt 5); ("b", VInt 6)] [("b", VInt 7)]
             (construct AB []) [] eq_refl "a").
    simpl. auto.
  - apply (update_twice [("a", VInt 5); ("b", VInt 6)] [("b", VInt 7)]
             (construct AB []) [] eq_refl "b").
    simpl. auto.
Defined.

(** An [update] that names seed fields only leaves the identity of the
    record alone: the identity string is the one from before, and the
    record still equals what it equalled. *)
Theorem update_of_seed_keeps_identity kwargs self log :
  wf_class (StructWithDefaults.__class__ self) = true ->
  (forall k, In k (keys kwargs) -> volatile k = true) ->
  let self' := snd (fst (StructWithDefaults.update kwargs self log)) in
  same_identity self self' /\
  StructWithDefaults.__repr__ self' = StructWithDefaults.__repr__ self /\
  (forall other, StructWithDefaults.__eq__ self' other
                 = StructWithDefaults.__eq__ self other).
Proof.
  intros Hwf Hseed self'.
  assert (Hcls : StructWithDefaults.__class__ self'
                 = StructWithDefaults.__class__ self)
    by (apply update_class; exact Hwf).
  destruct (update_spec kwargs self log Hwf) as (t1 & Hrun & _ & _ & Hkeep).
  assert (Ht : self' = t1) by (unfold self'; now rewrite Hrun).
  assert (Hid : same_identity self self').
  { split; [now rewrite Hcls|]. intros k Hin Hv. rewrite Ht. symmetry.
    apply Hkeep; [exact Hin|].
    destruct (dict_get k kwargs) as [v|] eqn:Hg; [|reflexivity].
    apply dict_get_In_keys in Hg. apply Hseed in Hg. congruence. }
  split; [exact Hid|].
  assert (Hrepr : StructWithDefaults.__repr__ self'
                  = StructWithDefaults.__repr__ self)
    by (symmetry; now apply repr_same_identity).
  split; [exact Hrepr|].
  intros other. unfold StructWithDefaults.__eq__. now rewrite Hrepr.
Qed.

Lemma update_of_seed_keeps_identity_witness :
  let self := construct CosmoParams [("RANDOM_SEED", VInt 1)] in
  let self' := snd (fst (StructWithDefaults.update [("RANDOM_SEED", VInt 9)]
                           self [])) in
  StructWithDefaults.getattr "RANDOM_SEED" self' = Ok (VInt 9) /\
  same_identity self self' /\
  StructWithDefaults.__repr__ self' = StructWithDefaults.__repr__ self /\
  (forall other, StructWithDefaults.__eq__ self' other
                 = StructWithDefaults.__eq__ self other).
Proof.
  intros self self'. split; [reflexivity|].
  apply (update_of_seed_keeps_identity [("RANDOM_SEED", VInt 9)] self []).
  - reflexivity.
  - simpl. intros k [<-|[]]. reflexivity.
Defined.

(** * Further properties of the cache file name *)

Lemma string_app_assoc (a b c : string) : (a ++ b) ++ c = a ++ (b ++ c).
Proof. induction a; simpl; congruence. Qed.

Lemma resets_inv c :
  resets c = true ->
  is_digit c = false /\ Ascii.eqb c "r" = false /\ Ascii.eqb c "." = false.
Proof.
  unfold resets. destruct (is_digit c), (Ascii.eqb c "r"), (Ascii.eqb c ".");
    simpl; intros H; try discriminate; auto.
Qed.

Lemma sub_seed_step p c f :
  sub_seed p (String c f)
  = match p with
    | None =>
        if Ascii.eqb c "r" then sub_seed (Some "") f
        else String c (sub_seed None f)
    | Some ds =>
        if is_digit c then sub_seed (Some (ds ++ String c "")) f
        else if Ascii.eqb c "." && negb (String.eqb ds "")
             then "r*." ++ sub_seed None f
             else if Ascii.eqb c "r" then "r" ++ ds ++ sub_seed (Some "") f
                  else "r" ++ ds ++ String c (sub_seed None f)
    end.
Proof. reflexivity. Qed.

(** The substitution works on the two sides of a resetting character
    independently. *)
Lemma sub_seed_split x :
  forall p c y,
    resets c = true ->
    sub_seed p (x ++ String c y)
    = sub_seed p (x ++ String c "") ++ sub_seed None y.
Proof.
  induction x as [|d x IH]; intros p c y Hc.
  - apply resets_inv in Hc as (Hd & Hr & Hdot).
    change ("" ++ String c y) with (String c y).
    change ("" ++ String c "") with (String c "").
    rewrite !sub_seed_step. rewrite Hd, Hr, Hdot.
    destruct p as [ds|]; simpl.
    + f_equal. rewrite string_app_assoc. reflexivity.
    + reflexivity.
  - change (String d x ++ String c y) with (String d (x ++ String c y)).
    change (String d x ++ String c "") with (String d (x ++ String c "")).
    rewrite !sub_seed_step.
    destruct p as [ds|].
    + destruct (is_digit d); [now apply IH|].
      destruct (Ascii.eqb d "." && negb (String.eqb ds "")).
      * rewrite (IH None c y Hc). now rewrite !string_app_assoc.
      * destruct (Ascii.eqb d "r").
        -- rewrite (IH (Some "") c y Hc). now rewrite !string_app_assoc.
        -- rewrite (IH None c y Hc). rewrite !string_app_assoc. reflexivity.
    + destruct (Ascii.eqb d "r"); [now apply IH|].
      rewrite (IH None c y Hc). reflexivity.
Qed.

Lemma sub_seed_digits ds :
  forall ds0 rest,
    all_digits ds = true ->
    sub_seed (Some ds0) (ds ++ rest) = sub_seed (Some (ds0 ++ ds)) rest.
Proof.
  induction ds as [|d ds IH]; intros ds0 rest H.
  - simpl. f_equal. f_equal. clear. induction ds0; simpl; congruence.
  - unfold all_digits in H. simpl in H. apply andb_true_iff in H as [Hd H].
    change (String d ds ++ rest) with (String d (ds ++ rest)).
    rewrite sub_seed_step, Hd. rewrite (IH _ rest H).
    now rewrite string_app_assoc.
Qed.

(** An [r] followed by digits and a dot is replaced. *)
Lemma sub_seed_seed ds rest :
  all_digits ds = true -> ds <> "" ->
  sub_seed None ("r" ++ ds ++ String "." rest) = "r*." ++ sub_seed None rest.
Proof.
  intros Hd Hne.
  change ("r" ++ ds ++ String "." rest) with (String "r" (ds ++ String "." rest)).
  rewrite sub_seed_step. change (Ascii.eqb "r" "r") with true. cbv iota.
  rewrite (sub_seed_digits ds "" _ Hd).
  change ("" ++ ds) with ds.
  rewrite sub_seed_step.
  change (is_digit ".") with false. change (Ascii.eqb "." ".") with true.
  cbv iota.
  apply String.eqb_neq in Hne. rewrite Hne. reflexivity.
Qed.

(** Text without any [r] is copied. *)
Lemma sub_seed_no_r x : no_r x = true -> sub_seed None x = x.
Proof.
  induction x as [|c x IH]; intros H; [reflexivity|].
  unfold no_r in H. simpl in H. apply andb_true_iff in H as [Hc H].
  rewrite sub_seed_step. apply negb_true_iff in Hc. rewrite Hc.
  now rewrite (IH H).
Qed.

(** An [r] followed by something that is not a digit stays. *)
Lemma sub_seed_literal c t :
  is_digit c = false -> no_r (String c t) = true ->
  sub_seed None ("r" ++ String c t) = "r" ++ String c t.
Proof.
  intros Hd Hr.
  change ("r" ++ String c t) with (String "r" (String c t)).
  rewrite sub_seed_step. change (Ascii.eqb "r" "r") with true. cbv iota.
  rewrite sub_seed_step, Hd.
  change (negb (String.eqb "" "")) with false. rewrite andb_false_r.
  unfold no_r in Hr. simpl in Hr. apply andb_true_iff in Hr as [Hc Ht].
  apply negb_true_iff in Hc. rewrite Hc.
  now rewrite (sub_seed_no_r t Ht).
Qed.

Lemma uint_digits d : all_digits (NilEmpty.string_of_uint d) = true.
Proof. induction d; simpl; auto. Qed.

Lemma all_digits_no_r s : all_digits s = true -> no_r s = true.
Proof.
  unfold all_digits, no_r. induction (list_ascii_of_string s) as [|c l IH];
    simpl; auto.
  intros H. apply andb_true_iff in H as [Hc H]. rewrite (IH H), andb_true_r.
  destruct (Ascii.eqb c "r") eqn:He; [|reflexivity].
  apply Ascii.eqb_eq in He. subst c. discriminate Hc.
Qed.

Lemma no_r_app a b : no_r a = true -> no_r b = true -> no_r (a ++ b) = true.
Proof.
  unfold no_r. induction a as [|c a IH]; simpl; auto.
  intros H Hb. apply andb_true_iff in H as [Hc H]. rewrite Hc. simpl. auto.
Qed.

(** A seed that is not negative prints as a non-empty run of digits; a
    negative one as a minus sign and digits. *)
Lemma str_of_Z_digits z :
  0 <= z -> all_digits (str_of_Z z) = true /\ str_of_Z z <> "".
Proof.
  intros Hz. unfold str_of_Z, NilZero.string_of_int.
  destruct z as [|p|p]; [| |lia].
  - split; [reflexivity|discriminate].
  - simpl. unfold NilZero.string_of_uint. split.
    + destruct (Pos.to_uint p); try apply uint_digits. reflexivity.
    + destruct (Pos.to_uint p); discriminate.
Qed.

Lemma str_of_Z_negative z :
  z < 0 -> exists ds, str_of_Z z = String "-" ds /\ all_digits ds = true.
Proof.
  intros Hz. unfold str_of_Z, NilZero.string_of_int.
  destruct z as [|p|p]; try lia. simpl.
  eexists. split; [reflexivity|].
  unfold NilZero.string_of_uint.
  destruct (Pos.to_uint p); try apply uint_digits. reflexivity.
Qed.

Lemma hashname_shape s f :
  OutputStruct._hashname s = Ok f ->
  exists n h v,
    OutputStruct.str_attr "_name" s = Ok n /\
    OutputStruct._md5 s = Ok h /\
    OutputStruct.cosmo_seed s = Ok v /\
    f = n ++ "_" ++ h ++ "_r" ++ str v ++ ".h5".
Proof.
  unfold OutputStruct._hashname. intros H.
  destruct (OutputStruct.str_attr "_name" s) as [n|]; simpl in H;
    [|discriminate].
  destruct (OutputStruct._md5 s) as [h|]; simpl in H; [|discriminate].
  destruct (OutputStruct.cosmo_seed s) as [v|]; simpl in H; [|discriminate].
  inversion H. exists n, h, v. auto.
Qed.

Lemma get_fname_hashname E direc s f :
  OutputStruct._get_fname E direc None s = Ok f ->
  exists hn, OutputStruct._hashname s = Ok hn /\
             f = path_join (directory_of E direc) hn.
Proof.
  unfold OutputStruct._get_fname, directory_of. simpl. intros H.
  assert (Hh : exists hn, OutputStruct._hashname s = Ok hn /\
                          Ok (path_join match OutputStruct.given direc with
                                        | Some d => d
                                        | None => OutputStruct.boxdir E
                                        end hn) = Ok f).
  { destruct (OutputStruct.given direc);
      destruct (OutputStruct._hashname s) as [hn|]; simpl in H;
      try discriminate; eauto. }
  destruct Hh as (hn & Hhn & Heq). exists hn. split; [exact Hhn|].
  now inversion Heq.
Qed.

(** Where [os.path.join] puts the directory depends on the start of the
    file name only. *)
Lemma startswith_slash c x :
  startswith "/" (String c x) = if ascii_dec "/" c then true else false.
Proof.
  unfold startswith.
  change (String.prefix "/" (String c x))
    with (match ascii_dec "/" c with
          | left _ => String.prefix "" x
          | right _ => false
          end).
  destruct (ascii_dec "/" c); [|reflexivity]. now destruct x.
Qed.

Lemma path_join_prefix D n :
  exists Q, forall rest,
    path_join D (n ++ String "_" rest) = Q ++ n ++ String "_" rest.
Proof.
  unfold path_join.
  destruct n as [|c n].
  - assert (Hs : (if ascii_dec "/" "_" then true else false) = false)
      by (destruct (ascii_dec "/" "_"); [discriminate|reflexivity]).
    destruct (String.eqb D "" || endswith "/" D) eqn:HD.
    + exists D. intros rest.
      change ("" ++ String "_" rest) with (String "_" rest).
      now rewrite startswith_slash, Hs.
    + exists (D ++ "/"). intros rest.
      change ("" ++ String "_" rest) with (String "_" rest).
      rewrite startswith_slash, Hs.
      now rewrite string_app_assoc.
  - destruct (ascii_dec "/" c) as [e|ne] eqn:Hc.
    + exists "". intros rest.
      change (String c n ++ String "_" rest)
        with (String c (n ++ String "_" rest)).
      rewrite startswith_slash, Hc. reflexivity.
    + destruct (String.eqb D "" || endswith "/" D) eqn:HD.
      * exists D. intros rest.
        change (String c n ++ String "_" rest)
          with (String c (n ++ String "_" rest)).
        rewrite startswith_slash, Hc. reflexivity.
      * exists (D ++ "/"). intros rest.
        change (String c n ++ String "_" rest)
          with (String c (n ++ String "_" rest)).
        rewrite startswith_slash, Hc. now rewrite string_app_assoc.
Qed.

(** The file name [_get_fname] computes from the hash: a prefix that does
    not depend on the seed, then [_r], the seed and the suffix. *)
Lemma get_fname_shape E direc s f :
  OutputStruct._get_fname E direc None s = Ok f ->
  exists n h v Q,
    OutputStruct.str_attr "_name" s = Ok n /\
    OutputStruct._md5 s = Ok h /\
    OutputStruct.cosmo_seed s = Ok v /\
    f = (Q ++ n ++ "_" ++ h) ++ String "_" ("r" ++ str v ++ ".h5") /\
    forall s' f' v',
      OutputStruct._get_fname E direc None s' = Ok f' ->
      OutputStruct.str_attr "_name" s' = Ok n ->
      OutputStruct._md5 s' = Ok h ->
      OutputStruct.cosmo_seed s' = Ok v' ->
      f' = (Q ++ n ++ "_" ++ h) ++ String "_" ("r" ++ str v' ++ ".h5").
Proof.
  intros H. apply get_fname_hashname in H as (hn & Hhn & ->).
  apply hashname_shape in Hhn as (n & h & v & Hn & Hh & Hv & ->).
  destruct (path_join_prefix (directory_of E direc) n) as [Q HQ].
  exists n, h, v, Q. repeat split; auto.
  - change (n ++ "_" ++ h ++ "_r" ++ str v ++ ".h5")
      with (n ++ String "_" (h ++ "_r" ++ str v ++ ".h5")).
    rewrite HQ. rewrite !string_app_assoc. reflexivity.
  - intros s' f' v' H' Hn' Hh' Hv'.
    apply get_fname_hashname in H' as (hn' & Hhn' & ->).
    apply hashname_shape in Hhn' as (n' & h' & v'' & Hn'' & Hh'' & Hv'' & ->).
    assert (n' = n) by congruence. assert (h' = h) by congruence.
    assert (v'' = v') by congruence. subst.
    change (n ++ "_" ++ h ++ "_r" ++ str v' ++ ".h5")
      with (n ++ String "_" (h ++ "_r" ++ str v' ++ ".h5")).
    rewrite HQ. rewrite !string_app_assoc. reflexivity.
Qed.

(** Two structures with the same name and fingerprint whose seeds are
    integers that are not negative search with one and the same wildcard
    pattern. *)
Lemma wildcard_pattern_shared E direc s1 s2 z1 z2 f1 f2 :
  0 <= z1 -> 0 <= z2 ->
  OutputStruct.cosmo_seed s1 = Ok (VInt z1) ->
  OutputStruct.cosmo_seed s2 = Ok (VInt z2) ->
  OutputStruct.str_attr "_name" s1 = OutputStruct.str_attr "_name" s2 ->
  OutputStruct._md5 s1 = OutputStruct._md5 s2 ->
  OutputStruct._get_fname E direc None s1 = Ok f1 ->
  OutputStruct._get_fname E direc None s2 = Ok f2 ->
  re_sub_seed f1 = re_sub_seed f2.
Proof.
  intros Hz1 Hz2 Hv1 Hv2 Hn Hh H1 H2.
  destruct (get_fname_shape E direc s1 f1 H1)
    as (n & h & v & Q & Hn1 & Hh1 & Hv & -> & Hother).
  assert (v = VInt z1) by congruence. subst v.
  rewrite (Hother s2 f2 (VInt z2) H2) by congruence.
  unfold re_sub_seed.
  rewrite (sub_seed_split (Q ++ n ++ "_" ++ h) None "_"%char
             ("r" ++ str (VInt z1) ++ ".h5")) by reflexivity.
  rewrite (sub_seed_split (Q ++ n ++ "_" ++ h) None "_"%char
             ("r" ++ str (VInt z2) ++ ".h5")) by reflexivity.
  f_equal. simpl str.
  destruct (str_of_Z_digits z1 Hz1) as [Hd1 Hne1].
  destruct (str_of_Z_digits z2 Hz2) as [Hd2 Hne2].
  change (str_of_Z z1 ++ ".h5") with (str_of_Z z1 ++ String "." "h5").
  change (str_of_Z z2 ++ ".h5") with (str_of_Z z2 ++ String "." "h5").
  now rewrite !sub_seed_seed.
Qed.

(** The seed-insensitive search does not depend on the seed asked for:
    for two structures of one name and fingerprint with seeds that are not
    negative, the wildcard patterns agree and so do the files
    [_find_file_without_seed] returns, in the given directory as in the
    default one. *)
Theorem wildcard_ignores_seed E direc s1 s2 z1 z2 f1 f2 :
  0 <= z1 -> 0 <= z2 ->
  OutputStruct.cosmo_seed s1 = Ok (VInt z1) ->
  OutputStruct.cosmo_seed s2 = Ok (VInt z2) ->
  OutputStruct.str_attr "_name" s1 = OutputStruct.str_attr "_name" s2 ->
  OutputStruct._md5 s1 = OutputStruct._md5 s2 ->
  OutputStruct._get_fname E direc None s1 = Ok f1 ->
  OutputStruct._get_fname E direc None s2 = Ok f2 ->
  re_sub_seed f1 = re_sub_seed f2 /\
  OutputStruct._find_file_without_seed E f1
  = OutputStruct._find_file_without_seed E f2.
Proof.
  intros Hz1 Hz2 Hv1 Hv2 Hn Hh H1 H2.
  assert (Hp : re_sub_seed f1 = re_sub_seed f2)
    by exact (wildcard_pattern_shared E direc s1 s2 z1 z2 f1 f2
                Hz1 Hz2 Hv1 Hv2 Hn Hh H1 H2).
  split; [exact Hp|].
  unfold OutputStruct._find_file_without_seed. now rewrite Hp.
Qed.

Lemma wildcard_ignores_seed_witness :
  let E := disk_env "/cache" init_field0 [] in
  re_sub_seed "/cache/Boxes_36777dd3155e0da0fa9e2cd69154d57c_r1.h5"
  = re_sub_seed "/cache/Boxes_36777dd3155e0da0fa9e2cd69154d57c_r27.h5" /\
  OutputStruct._find_file_without_seed E
    "/cache/Boxes_36777dd3155e0da0fa9e2cd69154d57c_r1.h5"
  = OutputStruct._find_file_without_seed E
      "/cache/Boxes_36777dd3155e0da0fa9e2cd69154d57c_r27.h5".
Proof.
  intros E.
  apply (wildcard_ignores_seed E None (boxes_state E CosmoParams 1)
           (boxes_state E CosmoParams 27) 1 27); try reflexivity; lia.
Defined.

(** When the default directory holds the file of neither seed, two such
    structures get the same answer from [find_existing]: a file written
    under one seed serves the request for the other. *)
Theorem miss_is_shared_across_seeds E s1 s2 z1 z2 f1 f2 fname ms1 ms2 :
  0 <= z1 -> 0 <= z2 ->
  OutputStruct.cosmo_seed s1 = Ok (VInt z1) ->
  OutputStruct.cosmo_seed s2 = Ok (VInt z2) ->
  OutputStruct.str_attr "_name" s1 = OutputStruct.str_attr "_name" s2 ->
  OutputStruct._md5 s1 = OutputStruct._md5 s2 ->
  OutputStruct._get_fname E None None s1 = Ok f1 ->
  OutputStruct._get_fname E None None s2 = Ok f2 ->
  OutputStruct.path_exists E f1 = false ->
  OutputStruct.path_exists E f2 = false ->
  OutputStruct.find_existing E None fname ms1 s1
  = OutputStruct.find_existing E None fname ms2 s2.
Proof.
  intros Hz1 Hz2 Hv1 Hv2 Hn Hh H1 H2 He1 He2.
  unfold OutputStruct.find_existing, OutputStruct.find_in_default. simpl.
  rewrite H1, H2. simpl. rewrite He1, He2.
  unfold OutputStruct._find_file_without_seed.
  now rewrite (wildcard_pattern_shared E None s1 s2 z1 z2 f1 f2
                 Hz1 Hz2 Hv1 Hv2 Hn Hh H1 H2).
Qed.

Lemma miss_is_shared_across_seeds_witness :
  let cached := "/cache/Boxes_36777dd3155e0da0fa9e2cd69154d57c_r5.h5" in
  let E := disk_env "/cache" init_field0 [(cached, Some (stored 5))] in
  OutputStruct.find_existing E None None false (boxes_state E CosmoParams 1)
  = OutputStruct.find_existing E None None false (boxes_state E CosmoParams 27).
Proof.
  intros cached E.
  apply (miss_is_shared_across_seeds E (boxes_state E CosmoParams 1)
           (boxes_state E CosmoParams 27) 1 27
           "/cache/Boxes_36777dd3155e0da0fa9e2cd69154d57c_r1.h5"
           "/cache/Boxes_36777dd3155e0da0fa9e2cd69154d57c_r27.h5");
    try reflexivity; lia.
Defined.

(** The wildcard replaces seeds that print as digits only. For a seed
    that is [None] or a negative integer the pattern spells the seed out,
    so the seed-insensitive search looks for that very seed. *)
Theorem wildcard_keeps_other_seeds E direc s f v :
  OutputStruct._get_fname E direc None s = Ok f ->
  OutputStruct.cosmo_seed s = Ok v ->
  v = VNone \/ (exists z, v = VInt z /\ z < 0) ->
  exists Q,
    f = Q ++ "_r" ++ str v ++ ".h5" /\
    re_sub_seed f = re_sub_seed (Q ++ "_") ++ "r" ++ str v ++ ".h5".
Proof.
  intros H Hv Hcase.
  destruct (get_fname_shape E direc s f H)
    as (n & h & v0 & Q & _ & _ & Hv0 & -> & _).
  assert (v0 = v) by congruence. subst v0.
  exists (Q ++ n ++ "_" ++ h). split; [reflexivity|].
  unfold re_sub_seed.
  rewrite (sub_seed_split _ None "_"%char) by reflexivity.
  f_equal.
  destruct Hcase as [->|(z & -> & Hz)].
  - reflexivity.
  - simpl str. destruct (str_of_Z_negative z Hz) as (ds & -> & Hds).
    change ("r" ++ String "-" ds ++ ".h5")
      with ("r" ++ String "-" (ds ++ ".h5")).
    apply sub_seed_literal; [reflexivity|].
    change (String "-" (ds ++ ".h5")) with (("-" ++ ds) ++ ".h5").
    apply no_r_app; [|reflexivity].
    change ("-" ++ ds) with (String "-" ds).
    unfold no_r. simpl. apply all_digits_no_r in Hds. exact Hds.
Qed.

Lemma wildcard_keeps_other_seeds_witness :
  let E := disk_env "/cache" init_field0 [] in
  exists Q,
    "/cache/Boxes_36777dd3155e0da0fa9e2cd69154d57c_r-4.h5"
    = Q ++ "_r" ++ "-4" ++ ".h5" /\
    re_sub_seed "/cache/Boxes_36777dd3155e0da0fa9e2cd69154d57c_r-4.h5"
    = re_sub_seed (Q ++ "_") ++ "r" ++ "-4" ++ ".h5".
Proof.
  intros E.
  apply (wildcard_keeps_other_seeds E None (boxes_state E CosmoParams (-4))
           "/cache/Boxes_36777dd3155e0da0fa9e2cd69154d57c_r-4.h5" (VInt (-4)));
    try reflexivity.
  right. exists (-4). split; [reflexivity | lia].
Defined.

(** * Further properties of the cache lookup *)

Lemma given_nonempty x : x <> "" -> OutputStruct.given (Some x) = Some x.
Proof.
  intros H. unfold OutputStruct.given.
  destruct (String.eqb x "") eqn:He; [|reflexivity].
  apply String.eqb_eq in He. contradiction.
Qed.

(** A file named by a directory and a file name of the caller's own is
    found without the fingerprint: when it exists, [find_existing]
    returns it for every structure, also one whose [_hashname] cannot be
    computed; when it does not exist, the search goes on to the hashed
    name and raises what [_hashname] raises. *)
Theorem explicit_file_wins E d f ms s :
  d <> "" -> f <> "" ->
  (OutputStruct.path_exists E (path_join d f) = true ->
   OutputStruct.find_existing E (Some d) (Some f) ms s
   = Ok (Some (path_join d f))) /\
  (forall e,
      OutputStruct.path_exists E (path_join d f) = false ->
      OutputStruct._hashname s = Raise e ->
      OutputStruct.find_existing E (Some d) (Some f) ms s = Raise e).
Proof.
  intros Hd Hf.
  assert (Hname : OutputStruct._get_fname E (Some d) (Some f) s
                  = Ok (path_join d f)).
  { unfold OutputStruct._get_fname.
    rewrite (given_nonempty d Hd), (given_nonempty f Hf). reflexivity. }
  split.
  - intros Hex. unfold OutputStruct.find_existing, OutputStruct.find_in_direc.
    rewrite Hname. simpl. rewrite Hex. simpl. reflexivity.
  - intros e Hex He.
    unfold OutputStruct.find_existing, OutputStruct.find_in_direc.
    rewrite Hname. simpl. rewrite Hex. simpl.
    unfold OutputStruct._get_fname. rewrite (given_nonempty d Hd).
    simpl. rewrite He. reflexivity.
Qed.

Lemma explicit_file_wins_witness :
  let E := disk_env "/cache" init_field0 [("/data/my.h5", Some (stored 1))] in
  let s := OutputStruct.blank Boxes (heap_of CosmoParams 1) in
  OutputStruct.find_existing E (Some "/data") (Some "my.h5") true s
  = Ok (Some "/data/my.h5") /\
  OutputStruct.find_existing E (Some "/data") (Some "other.h5") true s
  = Raise (TypeError "can only concatenate str to str").
Proof.
  intros E s. split.
  - apply (explicit_file_wins E "/data" "my.h5" true s);
      [discriminate | discriminate | reflexivity].
  - apply (explicit_file_wins E "/data" "other.h5" true s);
      [discriminate | discriminate | reflexivity | reflexivity].
Defined.

Lemma get_fname_empty_direc E fname s :
  OutputStruct._get_fname E (Some "") fname s
  = OutputStruct._get_fname E None None s.
Proof. reflexivity. Qed.

Lemma get_fname_empty_fname E d s :
  OutputStruct._get_fname E (Some d) (Some "") s
  = OutputStruct._get_fname E (Some d) None s.
Proof.
  unfold OutputStruct._get_fname. simpl.
  destruct (OutputStruct.given (Some d)); reflexivity.
Qed.

(** An empty string counts as an argument that was not given. With an
    empty [direc], and with no [direc], [find_existing] searches the
    default directory only and ignores both [fname] and [match_seed];
    with an empty [fname] it searches as with none. *)
Theorem empty_arguments_are_not_given E d fname ms s :
  OutputStruct.find_existing E (Some "") fname ms s
  = OutputStruct.find_existing E None None false s /\
  OutputStruct.find_existing E None fname ms s
  = OutputStruct.find_existing E None None false s /\
  OutputStruct.find_existing E (Some d) (Some "") ms s
  = OutputStruct.find_existing E (Some d) None ms s.
Proof.
  split; [|split].
  - unfold OutputStruct.find_existing, OutputStruct.find_in_direc,
      OutputStruct.find_in_default.
    rewrite !get_fname_empty_direc.
    destruct (OutputStruct._get_fname E None None s) as [f|e] eqn:Hf;
      [|destruct fname; reflexivity].
    destruct (OutputStruct.path_exists E f) eqn:Hex;
      destruct fname as [x|]; simpl; rewrite ?Hex; simpl; try reflexivity;
      destruct (negb ms); simpl; rewrite ?Hex; try reflexivity;
      destruct (OutputStruct.given (OutputStruct._find_file_without_seed E f));
      simpl; rewrite ?Hex; reflexivity.
  - reflexivity.
  - unfold OutputStruct.find_existing, OutputStruct.find_in_direc.
    rewrite get_fname_empty_fname.
    destruct (OutputStruct._get_fname E (Some d) None s) as [f|e] eqn:Hf;
      [|reflexivity].
    simpl. destruct (OutputStruct.path_exists E f) eqn:Hex; simpl;
      rewrite ?Hf; simpl; rewrite ?Hex; reflexivity.
Qed.

(** * Further properties of the construction of an output structure *)

Lemma dict_get_app {V} (a b : dict V) k :
  dict_get k (a ++ b)%list
  = match dict_get k a with Some v => Some v | None => dict_get k b end.
Proof.
  induction a as [|[k0 v0] a IH]; simpl; [reflexivity|].
  destruct (String.eqb k k0); auto.
Qed.

Lemma lookup_set_dict_eq s d k v :
  OutputStruct.lookup k (OutputStruct.set_dict s (dict_set k v d)) = Ok v.
Proof. unfold OutputStruct.lookup. simpl. now rewrite dict_get_set_eq. Qed.

Lemma lookup_setattr_ne s k k' v :
  k' <> k ->
  OutputStruct.lookup k'
    (OutputStruct.set_dict s
       (dict_set k v (OutputStruct.__dict__ (OutputStruct.self s))))
  = OutputStruct.lookup k' s.
Proof.
  intros H. unfold OutputStruct.lookup. simpl.
  now rewrite dict_get_set_ne by exact H.
Qed.

Lemma setattr_writable k v s :
  OutputStruct.read_only k = false ->
  OutputStruct.setattr k v s
  = (Ok tt,
     OutputStruct.set_dict s
       (dict_set k v (OutputStruct.__dict__ (OutputStruct.self s)))).
Proof. unfold OutputStruct.setattr. now intros ->. Qed.

(** A loop of [setattr] stops at the first name that is a property
    without a setter. *)
Lemma for_each_setattr_refused {A} (g : A -> OutputStruct.value)
  (l : list (string * A)) :
  forall s,
    existsb OutputStruct.read_only (keys l) = true ->
    exists s',
      OutputStruct.for_each l
        (fun kv => OutputStruct.setattr (fst kv) (g (snd kv))) s
      = (Raise (AttributeError "can't set attribute"), s').
Proof.
  induction l as [|[k0 v0] l IH]; intros s H; [discriminate H|].
  simpl in H. simpl OutputStruct.for_each.
  unfold OutputStruct.bind at 1, OutputStruct.setattr at 1. simpl fst.
  destruct (OutputStruct.read_only k0); [now exists s|].
  simpl in H. cbv beta iota. apply IH. exact H.
Qed.

Lemma for_each_setattr {A} (g : A -> OutputStruct.value)
  (l : list (string * A)) :
  forall s,
  existsb OutputStruct.read_only (keys l) = false ->
  exists s',
    OutputStruct.for_each l
      (fun kv => OutputStruct.setattr (fst kv) (g (snd kv))) s = (Ok tt, s') /\
    OutputStruct.__class__ (OutputStruct.self s')
    = OutputStruct.__class__ (OutputStruct.self s) /\
    OutputStruct.__cstruct (OutputStruct.self s')
    = OutputStruct.__cstruct (OutputStruct.self s) /\
    OutputStruct.heap s' = OutputStruct.heap s /\
    forall k,
      dict_get k (OutputStruct.__dict__ (OutputStruct.self s'))
      = match dict_get k (rev l) with
        | Some v => Some (g v)
        | None => dict_get k (OutputStruct.__dict__ (OutputStruct.self s))
        end.
Proof.
  induction l as [|[k0 v0] l IH]; intros s Hw.
  - exists s. simpl. auto.
  - simpl in Hw. apply orb_false_iff in Hw as [Hw0 Hw].
    destruct (IH (OutputStruct.set_dict s
                    (dict_set k0 (g v0)
                       (OutputStruct.__dict__ (OutputStruct.self s)))) Hw)
      as (s' & Hrun & Hc & Hcs & Hh & Hd).
    exists s'. split.
    { simpl OutputStruct.for_each. unfold OutputStruct.bind at 1.
      simpl fst. simpl snd. rewrite (setattr_writable _ _ _ Hw0).
      exact Hrun. }
    split; [exact Hc|].
    split; [exact Hcs|]. split; [exact Hh|].
    intros k. rewrite Hd. simpl rev. rewrite dict_get_app.
    destruct (dict_get k (rev l)) as [v|]; [reflexivity|].
    simpl. destruct (String.eqb k k0) eqn:Hk.
    + apply String.eqb_eq in Hk. subst k0. apply dict_get_set_eq.
    + apply String.eqb_neq in Hk. now apply dict_get_set_ne.
Qed.

(** A loop of [setattr] that returns has met no such name. *)
Lemma for_each_setattr_returns {A} (g : A -> OutputStruct.value)
  (l : list (string * A)) s s' :
  OutputStruct.for_each l
    (fun kv => OutputStruct.setattr (fst kv) (g (snd kv))) s = (Ok tt, s') ->
  existsb OutputStruct.read_only (keys l) = false.
Proof.
  intros H. destruct (existsb OutputStruct.read_only (keys l)) eqn:Hw;
    [|reflexivity].
  destruct (for_each_setattr_refused g l s Hw) as [s1 Hr]. congruence.
Qed.

Lemma dict_get_NoDup {V} (d : dict V) k v :
  NoDup (keys d) -> In (k, v) d -> dict_get k d = Some v.
Proof.
  induction d as [|[k0 v0] d IH]; simpl; intros Hnd Hin; [destruct Hin|].
  apply NoDup_cons_iff in Hnd as [Hnot Hnd].
  destruct Hin as [Heq|Hin].
  - inversion Heq; subst. now rewrite String.eqb_refl.
  - destruct (String.eqb k k0) eqn:Hk; [|now apply IH].
    apply String.eqb_eq in Hk. subst k0. exfalso. apply Hnot.
    unfold keys. apply in_map_iff. now exists (k, v).
Qed.

Lemma dict_get_rev_NoDup {V} (d : dict V) k v :
  NoDup (keys d) -> In (k, v) d -> dict_get k (rev d) = Some v.
Proof.
  intros Hnd Hin. apply dict_get_NoDup.
  - unfold keys. rewrite map_rev. apply NoDup_rev. exact Hnd.
  - now apply in_rev in Hin.
Qed.

Lemma dict_get_rev_None {V} (d : dict V) k :
  dict_get k d = None -> dict_get k (rev d) = None.
Proof.
  intros H. destruct (dict_get k (rev d)) as [v|] eqn:Hr; [|reflexivity].
  assert (Hin : In k (keys (rev d))).
  { apply dict_in_keys. unfold dict_in. now rewrite Hr. }
  unfold keys in Hin. rewrite map_rev in Hin. apply in_rev in Hin.
  apply dict_in_keys in Hin. unfold dict_in in Hin. now rewrite H in Hin.
Qed.

Lemma lookup_name s : exists v, OutputStruct.lookup "_name" s = Ok v.
Proof.
  unfold OutputStruct.lookup.
  destruct (dict_get "_name" _); [eauto|].
  rewrite String.eqb_refl. eauto.
Qed.

Lemma lookup_id s : exists v, OutputStruct.lookup "_id" s = Ok v.
Proof.
  unfold OutputStruct.lookup.
  destruct (dict_get "_id" _); [eauto|].
  change (String.eqb "_id" "_name") with false. cbv iota.
  rewrite String.eqb_refl. eauto.
Qed.

(** [if self.<k> is None: self.<k> = <name>] *)
Lemma default_step k v name s :
  OutputStruct.read_only k = false ->
  OutputStruct.lookup k s = Ok v ->
  exists s',
    (if OutputStruct.is_None v
     then OutputStruct.setattr k (OutputStruct.Py (VStr name))
     else OutputStruct.ret tt) s = (Ok tt, s') /\
    OutputStruct.lookup k s'
    = Ok (if OutputStruct.is_None v then OutputStruct.Py (VStr name) else v) /\
    (forall k', k' <> k -> OutputStruct.lookup k' s' = OutputStruct.lookup k' s) /\
    OutputStruct.__class__ (OutputStruct.self s')
    = OutputStruct.__class__ (OutputStruct.self s) /\
    OutputStruct.__cstruct (OutputStruct.self s')
    = OutputStruct.__cstruct (OutputStruct.self s) /\
    OutputStruct.heap s' = OutputStruct.heap s.
Proof.
  intros Hw Hv. destruct (OutputStruct.is_None v).
  - eexists. split; [now apply setattr_writable|].
    split; [apply lookup_set_dict_eq|].
    split; [|repeat split]. intros k' Hne. now apply lookup_setattr_ne.
  - exists s. repeat split; auto.
Qed.

Lemma is_None_of_option o :
  OutputStruct.is_None (OutputStruct.of_option o)
  = match o with Some _ => false | None => true end.
Proof. now destruct o. Qed.

(** The steps of [__init__] up to the loop over the keyword arguments
    and through it. *)
Lemma init_prefix E up cp init kwargs cls h :
  OutputStruct.__init__ E up cp init kwargs (OutputStruct.blank cls h)
  = OutputStruct.bind
      (OutputStruct.for_each kwargs
         (fun kv => OutputStruct.setattr (fst kv) (snd kv)))
      (fun _ =>
         OutputStruct.bind
           (if init then OutputStruct._init_cstruct E else OutputStruct.ret tt)
           (fun _ =>
              OutputStruct.bind
                (OutputStruct.reader
                   (fun s => Ok (OutputStruct.__name__
                                   (OutputStruct.__class__ (OutputStruct.self s)))))
                (fun name =>
                   OutputStruct.bind (OutputStruct.getattr "_name")
                     (fun n =>
                        OutputStruct.bind
                          (if OutputStruct.is_None n
                           then OutputStruct.setattr "_name"
                                  (OutputStruct.Py (VStr name))
                           else OutputStruct.ret tt)
                          (fun _ =>
                             OutputStruct.bind (OutputStruct.getattr "_id")
                               (fun i =>
                                  OutputStruct.bind
                                    (if OutputStruct.is_None i
                                     then OutputStruct.setattr "_id"
                                            (OutputStruct.Py (VStr name))
                                     else OutputStruct.ret tt)
                                    (fun _ =>
                                       OutputStruct.setattr "filled"
                                         (OutputStruct.Py (VBool false)))))))))
      (OutputStruct.set_dict
         (OutputStruct.set_dict (OutputStruct.blank cls h)
            (dict_set "user_params" up []))
         (dict_set "cosmo_params" cp (dict_set "user_params" up []))).
Proof. reflexivity. Qed.

(** Construction without [init]. A keyword argument named like a
    property without a setter makes [__init__] raise [AttributeError],
    with [init] or without. Without such a keyword, construction without
    [init] returns and allocates nothing: the structure is not filled,
    [_name] and [_id] are never left as [None] (unless a keyword argument
    sets them they are the class attribute or else the name of the
    class), the two parameter records and the keyword arguments are
    stored as attributes, and no foreign structure exists yet. *)
Theorem init_without_arrays E cls h up cp kwargs :
  (existsb OutputStruct.read_only (keys kwargs) = true ->
   forall init, exists s',
     OutputStruct.__init__ E up cp init kwargs (OutputStruct.blank cls h)
     = (Raise (AttributeError "can't set attribute"), s')) /\
  (existsb OutputStruct.read_only (keys kwargs) = false ->
   exists s',
    OutputStruct.__init__ E up cp false kwargs (OutputStruct.blank cls h)
    = (Ok tt, s') /\
    OutputStruct.lookup "filled" s' = Ok (OutputStruct.Py (VBool false)) /\
    (exists n, OutputStruct.lookup "_name" s' = Ok n /\
               OutputStruct.is_None n = false) /\
    (exists i, OutputStruct.lookup "_id" s' = Ok i /\
               OutputStruct.is_None i = false) /\
    (dict_get "_name" kwargs = None ->
     OutputStruct.lookup "_name" s'
     = Ok (OutputStruct.Py
             (VStr (default_name (OutputStruct.cls__name cls) cls)))) /\
    (dict_get "_id" kwargs = None ->
     OutputStruct.lookup "_id" s'
     = Ok (OutputStruct.Py
             (VStr (default_name (OutputStruct.cls__id cls) cls)))) /\
    (dict_get "user_params" kwargs = None ->
     OutputStruct.lookup "user_params" s' = Ok up) /\
    (dict_get "cosmo_params" kwargs = None ->
     OutputStruct.lookup "cosmo_params" s' = Ok cp) /\
    (forall k v,
        NoDup (keys kwargs) -> In (k, v) kwargs ->
        k <> "_name" -> k <> "_id" -> k <> "filled" ->
        OutputStruct.lookup k s' = Ok v) /\
    OutputStruct.__cstruct (OutputStruct.self s') = None /\
    OutputStruct.heap s' = h).
Proof.
  set (sa := OutputStruct.set_dict
               (OutputStruct.set_dict (OutputStruct.blank cls h)
                  (dict_set "user_params" up []))
               (dict_set "cosmo_params" cp (dict_set "user_params" up []))).
  split.
  { intros Hro init.
    destruct (for_each_setattr_refused (fun v => v) kwargs sa Hro)
      as [s1 Hrun].
    cbv beta in Hrun. exists s1. rewrite init_prefix.
    unfold OutputStruct.bind at 1. fold sa. now rewrite Hrun. }
  intros Hw.
  destruct (for_each_setattr (fun v => v) kwargs sa Hw)
    as (s1 & Hrun & Hc & Hcs & Hh & Hd).
  cbv beta in Hrun.
  destruct (lookup_name s1) as [vn Hn].
  destruct (default_step "_name" vn (OutputStruct.__name__ cls) s1 eq_refl Hn)
    as (s2 & Hrun2 & Hn2 & Hk2 & Hc2 & Hcs2 & Hh2).
  destruct (lookup_id s2) as [vi Hi].
  destruct (default_step "_id" vi (OutputStruct.__name__ cls) s2 eq_refl Hi)
    as (s3 & Hrun3 & Hi3 & Hk3 & Hc3 & Hcs3 & Hh3).
  exists (OutputStruct.set_dict s3
            (dict_set "filled" (OutputStruct.Py (VBool false))
               (OutputStruct.__dict__ (OutputStruct.self s3)))).
  assert (Hother : forall k,
             k <> "_name" -> k <> "_id" -> k <> "filled" ->
             OutputStruct.lookup k
               (OutputStruct.set_dict s3
                  (dict_set "filled" (OutputStruct.Py (VBool false))
                     (OutputStruct.__dict__ (OutputStruct.self s3))))
             = OutputStruct.lookup k s1).
  { intros k H1 H2 H3. rewrite lookup_setattr_ne by exact H3.
    rewrite Hk3 by exact H2. now apply Hk2. }
  assert (Hs1 : forall k,
             dict_get k kwargs = None ->
             dict_get k (OutputStruct.__dict__ (OutputStruct.self s1))
             = dict_get k (OutputStruct.__dict__ (OutputStruct.self sa))).
  { intros k Hk. rewrite Hd. now rewrite (dict_get_rev_None kwargs k Hk). }
  split; [|split; [|split; [|split; [|split; [|split; [|split; [|split;
    [|split; [|split]]]]]]]]].
  - rewrite init_prefix. fold sa.
    unfold OutputStruct.bind at 1. rewrite Hrun.
    unfold OutputStruct.bind at 1, OutputStruct.ret at 1.
    unfold OutputStruct.bind at 1, OutputStruct.reader at 1.
    unfold OutputStruct.bind at 1, OutputStruct.getattr at 1,
      OutputStruct.reader at 1.
    rewrite Hn. unfold OutputStruct.bind at 1.
    rewrite Hc. change (OutputStruct.__class__ (OutputStruct.self sa)) with cls.
    rewrite Hrun2.
    unfold OutputStruct.bind at 1, OutputStruct.getattr at 1,
      OutputStruct.reader at 1.
    rewrite Hi. unfold OutputStruct.bind at 1. rewrite Hrun3.
    now apply setattr_writable.
  - apply lookup_set_dict_eq.
  - rewrite lookup_setattr_ne by discriminate.
    rewrite Hk3 by discriminate. rewrite Hn2. eexists. split; [reflexivity|].
    destruct (OutputStruct.is_None vn) eqn:Hv; [reflexivity|exact Hv].
  - rewrite lookup_setattr_ne by discriminate. rewrite Hi3.
    eexists. split; [reflexivity|].
    destruct (OutputStruct.is_None vi) eqn:Hv; [reflexivity|exact Hv].
  - intros Hk. rewrite lookup_setattr_ne by discriminate.
    rewrite Hk3 by discriminate. rewrite Hn2.
    assert (Hvn : vn = OutputStruct.of_option (OutputStruct.cls__name cls)).
    { unfold OutputStruct.lookup in Hn. rewrite (Hs1 _ Hk) in Hn.
      change (dict_get "_name" (OutputStruct.__dict__ (OutputStruct.self sa)))
        with (@None OutputStruct.value) in Hn.
      rewrite String.eqb_refl, Hc in Hn. now inversion Hn. }
    rewrite Hvn, is_None_of_option.
    destruct (OutputStruct.cls__name cls); reflexivity.
  - intros Hk. rewrite lookup_setattr_ne by discriminate. rewrite Hi3.
    assert (Hvi : vi = OutputStruct.of_option (OutputStruct.cls__id cls)).
    { rewrite Hk2 in Hi by discriminate.
      unfold OutputStruct.lookup in Hi. rewrite (Hs1 _ Hk) in Hi.
      change (dict_get "_id" (OutputStruct.__dict__ (OutputStruct.self sa)))
        with (@None OutputStruct.value) in Hi.
      change (String.eqb "_id" "_name") with false in Hi. cbv iota in Hi.
      rewrite String.eqb_refl, Hc in Hi. now inversion Hi. }
    rewrite Hvi, is_None_of_option.
    destruct (OutputStruct.cls__id cls); reflexivity.
  - intros Hk. rewrite Hother by discriminate.
    unfold OutputStruct.lookup. rewrite (Hs1 _ Hk). reflexivity.
  - intros Hk. rewrite Hother by discriminate.
    unfold OutputStruct.lookup. rewrite (Hs1 _ Hk). reflexivity.
  - intros k v Hnd Hin H1 H2 H3. rewrite Hother by assumption.
    unfold OutputStruct.lookup. rewrite Hd.
    now rewrite (dict_get_rev_NoDup kwargs k v Hnd Hin).
  - simpl. now rewrite Hcs3, Hcs2, Hcs.
  - simpl. now rewrite Hh3, Hh2, Hh.
Qed.

Lemma init_without_arrays_witness :
  let E := disk_env "/cache" init_field0 [] in
  let h := heap_of CosmoParams 1 in
  (exists s',
      OutputStruct.__init__ E (OutputStruct.Params 4096)
        (OutputStruct.Params 8192) false
        [("fields", OutputStruct.Py (VInt 3))] (OutputStruct.blank Boxes h)
      = (Raise (AttributeError "can't set attribute"), s')) /\
  exists s',
    OutputStruct.__init__ E (OutputStruct.Params 4096)
      (OutputStruct.Params 8192) false
      [("amplitude", OutputStruct.Py (VFloat "0.8"))] (OutputStruct.blank Boxes h)
    = (Ok tt, s') /\
    OutputStruct.lookup "filled" s' = Ok (OutputStruct.Py (VBool false)) /\
    OutputStruct.lookup "_name" s' = Ok (OutputStruct.Py (VStr "Boxes")) /\
    OutputStruct.lookup "amplitude" s' = Ok (OutputStruct.Py (VFloat "0.8")) /\
    OutputStruct.__cstruct (OutputStruct.self s') = None.
Proof.
  intros E h. split.
  - exact (proj1 (init_without_arrays E Boxes h (OutputStruct.Params 4096)
                    (OutputStruct.Params 8192)
                    [("fields", OutputStruct.Py (VInt 3))]) eq_refl false).
  - destruct (proj2 (init_without_arrays E Boxes h (OutputStruct.Params 4096)
                       (OutputStruct.Params 8192)
                       [("amplitude", OutputStruct.Py (VFloat "0.8"))]) eq_refl)
      as (s' & Hrun & Hfilled & _ & _ & Hname & _ & _ & _ & Hkw & Hcs & _).
    exists s'. split; [exact Hrun|]. split; [exact Hfilled|].
    split; [exact (Hname eq_refl)|]. split; [|exact Hcs].
    apply Hkw; try discriminate.
    + repeat constructor. simpl. tauto.
    + now left.
Defined.



(** * Further properties of the foreign structure *)

Lemma init_cstruct_Ok E s s' :
  OutputStruct._init_cstruct E s = (Ok tt, s') ->
  OutputStruct.arrays_initialized s' = (Ok true, s') /\
  exists c, OutputStruct.__cstruct (OutputStruct.self s') = Some c.
Proof.
  intros H. unfold OutputStruct._init_cstruct in H.
  apply bind_Ok in H as (? & s1 & _ & H).
  apply bind_Ok in H as (? & s2 & _ & H).
  apply bind_Ok in H as (? & s3 & _ & H).
  apply bind_Ok in H as (? & s4 & _ & H).
  apply bind_Ok in H as (? & s5 & _ & H).
  apply bind_Ok in H as (ok & s6 & Hok & H).
  destruct ok; simpl in H.
  - unfold OutputStruct.ret in H. inversion H; subst s6.
    destruct (arrays_initialized_stable _ _ _ Hok) as (c & Hc & Hst).
    split; [exact Hst|]. now exists c.
  - unfold OutputStruct.bind, OutputStruct.reader, OutputStruct.raise in H.
    discriminate.
Qed.

(** Calling the instance settles it: after a call that returns, the
    structure it returned is the cached one, all arrays are initialised,
    and a further call returns the same structure and changes nothing. *)
Theorem call_is_stable E s c s' :
  OutputStruct.__call__ E s = (Ok c, s') ->
  OutputStruct.__cstruct (OutputStruct.self s') = Some c /\
  OutputStruct.arrays_initialized s' = (Ok true, s') /\
  OutputStruct.__call__ E s' = (Ok c, s').
Proof.
  intros H. unfold OutputStruct.__call__ in H.
  apply bind_Ok in H as (ok & s1 & Hok & H).
  apply bind_Ok in H as (u & s2 & Hinit & H).
  assert (Hs2 : OutputStruct.arrays_initialized s2 = (Ok true, s2) /\
                exists c2, OutputStruct.__cstruct (OutputStruct.self s2)
                           = Some c2).
  { destruct ok; simpl in Hinit.
    - unfold OutputStruct.ret in Hinit. inversion Hinit; subst s2.
      destruct (arrays_initialized_stable _ _ _ Hok) as (c1 & Hc1 & Hst).
      split; [exact Hst|]. now exists c1.
    - destruct u. now apply init_cstruct_Ok in Hinit. }
  destruct Hs2 as (Hst & c2 & Hc2).
  rewrite (cstruct_cached s2 c2 Hc2) in H. inversion H; subst c2 s'.
  split; [exact Hc2|]. split; [exact Hst|].
  unfold OutputStruct.__call__, OutputStruct.bind. rewrite Hst. simpl.
  unfold OutputStruct.ret. apply (cstruct_cached s2 c Hc2).
Qed.

Lemma call_is_stable_witness :
  let E := disk_env "/cache" init_field0 [] in
  let s := boxes_state E CosmoParams 7 in
  let c := {| c_type := "struct Boxes*";
              c_values := [("field0", CPtr 94000)] |} in
  let s' := snd (OutputStruct.__call__ E s) in
  OutputStruct.__cstruct (OutputStruct.self s') = Some c /\
  OutputStruct.arrays_initialized s' = (Ok true, s') /\
  OutputStruct.__call__ E s' = (Ok c, s').
Proof.
  intros E s c s'.
  apply (call_is_stable E s c s'). vm_compute. reflexivity.
Defined.

Lemma set_cstruct_same s c :
  OutputStruct.__cstruct (OutputStruct.self s) = Some c ->
  OutputStruct.set_cstruct s (Some c) = s.
Proof.
  destruct s as [[cl d cs] hp]. simpl. intros ->. reflexivity.
Qed.

Lemma c_setattr_cached s c k v :
  OutputStruct.__cstruct (OutputStruct.self s) = Some c ->
  OutputStruct.c_setattr k v s
  = (Ok tt, OutputStruct.set_cstruct s (Some (c_put c k v))).
Proof.
  intros Hc. unfold OutputStruct.c_setattr, OutputStruct.bind.
  now rewrite (cstruct_cached s c Hc).
Qed.

Lemma primitive_fields_cached s c :
  OutputStruct.__cstruct (OutputStruct.self s) = Some c ->
  OutputStruct._primitive_fields s = (Ok (primitive_fields s), s).
Proof.
  intros Hc. unfold OutputStruct._primitive_fields, OutputStruct.fields,
    OutputStruct.bind. now rewrite (cstruct_cached s c Hc).
Qed.

Lemma bind_array_Ok s c f s' :
  OutputStruct.__cstruct (OutputStruct.self s) = Some c ->
  OutputStruct.bind_array f s = (Ok tt, s') ->
  exists a,
    OutputStruct.lookup (OutputStruct.f_name f) s = Ok (OutputStruct.Array a) /\
    acceptable f (OutputStruct.Array a) = true /\
    s' = OutputStruct.set_cstruct s
           (Some (c_put c (OutputStruct.f_name f) (CPtr (buffer a)))).
Proof.
  intros Hc. unfold OutputStruct.bind_array, OutputStruct.bind.
  rewrite (cstruct_cached s c Hc).
  unfold OutputStruct.getattr, OutputStruct.reader.
  destruct (OutputStruct.lookup (OutputStruct.f_name f) s) as [v|e];
    cbv beta iota; [|intros H; discriminate H].
  unfold OutputStruct.lift, acceptable.
  destruct v as [p|a|pv]; unfold OutputStruct._ary2buf; cbv beta iota;
    try (intros H; discriminate H).
  destruct (dict_get (dtype_name a) OutputStruct._TYPEMAP) as [ctype|] eqn:Ht;
    cbv beta iota; [|intros H; discriminate H].
  unfold OutputStruct.store_pointer.
  destruct (String.eqb (OutputStruct.f_ctype f) (fst (ctype, buffer a))
            || String.eqb (OutputStruct.f_ctype f) "void *") eqn:Hok.
  - rewrite (c_setattr_cached s c _ _ Hc). intros H. inversion H.
    exists a. split; [reflexivity|]. rewrite Ht.
    split; [exact Hok|reflexivity].
  - unfold OutputStruct.raise. intros H. discriminate H.
Qed.

Lemma pointer_loop_Ok ks :
  forall s c s',
    OutputStruct.__cstruct (OutputStruct.self s) = Some c ->
    OutputStruct.for_each ks OutputStruct.bind_array s = (Ok tt, s') ->
    exists c',
      s' = OutputStruct.set_cstruct s (Some c') /\
      (NoDup (map OutputStruct.f_name ks) ->
       (forall f, In f ks ->
          exists a,
            OutputStruct.lookup (OutputStruct.f_name f) s
            = Ok (OutputStruct.Array a) /\
            acceptable f (OutputStruct.Array a) = true /\
            dict_get (OutputStruct.f_name f) (c_values c')
            = Some (CPtr (buffer a))) /\
       (forall k, ~ In k (map OutputStruct.f_name ks) ->
                  dict_get k (c_values c') = dict_get k (c_values c))).
Proof.
  induction ks as [|f ks IH]; intros s c s' Hc H.
  - simpl in H. unfold OutputStruct.ret in H. inversion H; subst s'.
    exists c. split; [symmetry; now apply set_cstruct_same|].
    intros _. split; [intros f []|auto].
  - simpl in H. apply bind_Ok in H as (u & s1 & Hf & H).
    destruct u. apply (bind_array_Ok s c f s1 Hc) in Hf as (a & Hl & Hacc & ->).
    apply (IH _ (c_put c (OutputStruct.f_name f) (CPtr (buffer a))))
      in H as (c' & -> & Hrest); [|reflexivity].
    exists c'. split; [reflexivity|]. intros Hnd.
    simpl in Hnd. apply NoDup_cons_iff in Hnd as [Hnot Hnd].
    destruct (Hrest Hnd) as [Hset Hkeep]. split.
    + intros g [<-|Hg].
      * exists a. split; [exact Hl|]. split; [exact Hacc|].
        rewrite (Hkeep _ Hnot). simpl. apply dict_get_set_eq.
      * apply Hset in Hg as (b & Hb & Hab & Hd). exists b. auto.
    + intros k Hk. simpl in Hk. rewrite Hkeep by tauto. simpl.
      apply dict_get_set_ne. intros ->. apply Hk. now left.
Qed.

Section Primitives.
Variable E : OutputStruct.env.

Lemma bind_primitive_Ok s c f s' :
  OutputStruct.__cstruct (OutputStruct.self s) = Some c ->
  OutputStruct.bind_primitive E f s = (Ok tt, s') ->
  exists c',
    s' = OutputStruct.set_cstruct s (Some c') /\
    (forall k, k <> OutputStruct.f_name f ->
               dict_get k (c_values c') = dict_get k (c_values c)) /\
    (forall v,
        OutputStruct.lookup (OutputStruct.f_name f) s = Ok v ->
        exists pv w,
          v = OutputStruct.Py pv /\
          OutputStruct.c_convert E (OutputStruct.f_ctype f) pv = Some w /\
          dict_get (OutputStruct.f_name f) (c_values c') = Some (CPrim w)).
Proof.
  intros Hc. unfold OutputStruct.bind_primitive, OutputStruct.pass_AttributeError,
    OutputStruct.bind.
  rewrite (cstruct_cached s c Hc).
  unfold OutputStruct.getattr, OutputStruct.reader.
  destruct (OutputStruct.lookup (OutputStruct.f_name f) s) as [v|e] eqn:Hl.
  - unfold OutputStruct.store_primitive.
    destruct v as [p|a|pv];
      try (unfold OutputStruct.raise; intros H; discriminate H).
    destruct (OutputStruct.c_convert E (OutputStruct.f_ctype f) pv) as [w|] eqn:Hw;
      [|unfold OutputStruct.raise; intros H; discriminate H].
    rewrite (c_setattr_cached s c _ _ Hc). intros H. inversion H.
    eexists. split; [reflexivity|]. split.
    + intros k Hk. simpl. now apply dict_get_set_ne.
    + intros v Hv. inversion Hv; subst v. exists pv, w.
      split; [reflexivity|]. split; [exact Hw|]. simpl. apply dict_get_set_eq.
  - rewrite (lookup_Raise _ _ _ Hl). intros H. inversion H; subst s'.
    exists c. split; [symmetry; now apply set_cstruct_same|].
    split; [auto|]. intros v Hv. discriminate.
Qed.

Lemma primitive_loop_Ok ks :
  forall s c s',
    OutputStruct.__cstruct (OutputStruct.self s) = Some c ->
    OutputStruct.for_each ks (OutputStruct.bind_primitive E) s = (Ok tt, s') ->
    exists c',
      s' = OutputStruct.set_cstruct s (Some c') /\
      (NoDup (map OutputStruct.f_name ks) ->
       (forall f v, In f ks ->
          OutputStruct.lookup (OutputStruct.f_name f) s = Ok v ->
          exists pv w,
            v = OutputStruct.Py pv /\
            OutputStruct.c_convert E (OutputStruct.f_ctype f) pv = Some w /\
            dict_get (OutputStruct.f_name f) (c_values c') = Some (CPrim w)) /\
       (forall k, ~ In k (map OutputStruct.f_name ks) ->
                  dict_get k (c_values c') = dict_get k (c_values c))).
Proof.
  induction ks as [|f ks IH]; intros s c s' Hc H.
  - simpl in H. unfold OutputStruct.ret in H. inversion H; subst s'.
    exists c. split; [symmetry; now apply set_cstruct_same|].
    intros _. split; [intros f v []|auto].
  - simpl in H. apply bind_Ok in H as (u & s1 & Hf & H).
    destruct u. apply (bind_primitive_Ok s c f s1 Hc) in Hf
      as (c1 & -> & Hkeep1 & Hset1).
    apply (IH _ c1) in H as (c' & -> & Hrest); [|reflexivity].
    exists c'. split; [reflexivity|]. intros Hnd.
    simpl in Hnd. apply NoDup_cons_iff in Hnd as [Hnot Hnd].
    destruct (Hrest Hnd) as [Hset Hkeep]. split.
    + intros g v [<-|Hg] Hv.
      * destruct (Hset1 v Hv) as (pv & w & Hpv & Hw & Hd).
        exists pv, w. split; [exact Hpv|]. split; [exact Hw|].
        now rewrite (Hkeep _ Hnot).
      * now apply (Hset g v Hg).
    + intros k Hk. simpl in Hk. rewrite Hkeep by tauto.
      apply Hkeep1. intros ->. apply Hk. now left.
Qed.

End Primitives.

Lemma NoDup_map_filter {A B} (g : A -> B) (P : A -> bool) l :
  NoDup (map g l) -> NoDup (map g (filter P l)).
Proof.
  induction l as [|x l IH]; simpl; intros H; [constructor|].
  apply NoDup_cons_iff in H as [Hnot Hnd].
  destruct (P x); simpl; [|now apply IH].
  constructor; [|now apply IH].
  intros Hin. apply Hnot. apply in_map_iff in Hin as (y & Hy & Hin).
  apply filter_In in Hin as [Hin _]. apply in_map_iff. now exists y.
Qed.

Lemma NoDup_map_inj {A B} (g : A -> B) l x y :
  NoDup (map g l) -> In x l -> In y l -> g x = g y -> x = y.
Proof.
  induction l as [|z l IH]; simpl; intros Hnd Hx Hy Heq; [destruct Hx|].
  apply NoDup_cons_iff in Hnd as [Hnot Hnd].
  destruct Hx as [->|Hx], Hy as [->|Hy]; auto.
  - exfalso. apply Hnot. rewrite Heq. now apply in_map.
  - exfalso. apply Hnot. rewrite <- Heq. now apply in_map.
Qed.

(** When [_init_cstruct] returns on a class whose C fields have distinct
    names, every pointer field of the foreign structure holds the address
    of the buffer of the array attribute of the same name, which is not
    [NULL] and has a [dtype] the field accepts, and every primitive field
    that is an attribute of the instance holds the converted value of
    that attribute. *)
Theorem init_cstruct_binds_buffers E s s' :
  OutputStruct._init_cstruct E s = (Ok tt, s') ->
  NoDup (map OutputStruct.f_name
           (OutputStruct.cfields (OutputStruct.__class__ (OutputStruct.self s')))) ->
  exists c,
    OutputStruct.__cstruct (OutputStruct.self s') = Some c /\
    (forall f, In f (pointer_fields s') ->
       exists a,
         OutputStruct.lookup (OutputStruct.f_name f) s'
         = Ok (OutputStruct.Array a) /\
         acceptable f (OutputStruct.Array a) = true /\
         dict_get (OutputStruct.f_name f) (c_values c) = Some (CPtr (buffer a)) /\
         buffer a <> NULL) /\
    (forall f v, In f (primitive_fields s') ->
       OutputStruct.lookup (OutputStruct.f_name f) s' = Ok v ->
       exists pv w,
         v = OutputStruct.Py pv /\
         OutputStruct.c_convert E (OutputStruct.f_ctype f) pv = Some w /\
         dict_get (OutputStruct.f_name f) (c_values c) = Some (CPrim w)).
Proof.
  intros H Hnd. unfold OutputStruct._init_cstruct in H.
  apply bind_Ok in H as (u1 & s1 & _ & H).
  apply bind_Ok in H as (ks & s2 & Hks & H).
  apply bind_Ok in H as (u2 & s3 & Hptr & H).
  apply bind_Ok in H as (ps & s4 & Hps & H).
  apply bind_Ok in H as (u3 & s5 & Hprim & H).
  apply bind_Ok in H as (ok & s6 & Hok & H).
  (* the pointer fields *)
  unfold OutputStruct._pointer_fields in Hks.
  apply bind_Ok in Hks as (fs & t1 & Hfs & Hret).
  unfold OutputStruct.ret in Hret. inversion Hret; subst ks t1. clear Hret.
  unfold OutputStruct.fields in Hfs.
  apply bind_Ok in Hfs as (c2 & t2 & Hc2 & Hrd).
  apply reader_Ok in Hrd as [Hrd Heq]. subst t2.
  inversion Hrd; subst fs. clear Hrd.
  apply cstruct_result in Hc2 as (Hc2 & _).
  destruct u2, u3.
  apply (pointer_loop_Ok _ s2 c2 s3 Hc2) in Hptr as (c3 & -> & Hptr).
  rewrite (primitive_fields_cached (OutputStruct.set_cstruct s2 (Some c3)) c3
             eq_refl) in Hps.
  inversion Hps; subst ps s4. clear Hps.
  apply (primitive_loop_Ok E _ (OutputStruct.set_cstruct s2 (Some c3)) c3 s5
           eq_refl) in Hprim as (c5 & -> & Hprim).
  rewrite (arrays_initialized_cached
             (OutputStruct.set_cstruct
                (OutputStruct.set_cstruct s2 (Some c3)) (Some c5)) c5 eq_refl)
    in Hok.
  inversion Hok as [[Hb Hs6]]. subst s6. clear Hok.
  destruct ok; simpl in H;
    [|unfold OutputStruct.bind, OutputStruct.reader, OutputStruct.raise in H;
      discriminate H].
  unfold OutputStruct.ret in H. inversion H; subst s'. clear H.
  simpl in Hnd.
  destruct (Hptr (NoDup_map_filter _ _ _ Hnd)) as [Hpset Hpkeep].
  destruct (Hprim (NoDup_map_filter _ _ _ Hnd)) as [Hqset Hqkeep].
  exists c5. split; [reflexivity|]. split.
  - intros f Hf.
    destruct (Hpset f Hf) as (a & Hl & Hacc & Hd).
    assert (Hd5 : dict_get (OutputStruct.f_name f) (c_values c5)
                  = Some (CPtr (buffer a))).
    { rewrite Hqkeep; [exact Hd|].
      intros Hin. apply in_map_iff in Hin as (g & Hg & Hin).
      assert (g = f).
      { apply (NoDup_map_inj OutputStruct.f_name _ g f Hnd); auto.
        - now apply filter_In in Hin as [Hin _].
        - now apply filter_In in Hf as [Hf _]. }
      subst g. apply filter_In in Hin as [_ Hk1].
      apply filter_In in Hf as [_ Hk2].
      destruct (OutputStruct.f_kind f); discriminate. }
    exists a. split; [exact Hl|]. split; [exact Hacc|]. split; [exact Hd5|].
    rewrite forallb_forall in Hb. specialize (Hb f Hf).
    unfold bound in Hb.
    change (OutputStruct.lookup (OutputStruct.f_name f) _)
      with (OutputStruct.lookup (OutputStruct.f_name f) s2) in Hb.
    rewrite Hl in Hb. unfold OutputStruct.c_is_NULL in Hb. rewrite Hd5 in Hb.
    apply negb_true_iff in Hb. now apply Z.eqb_neq in Hb.
  - intros f v Hf Hv. apply (Hqset f v Hf Hv).
Qed.

Lemma init_cstruct_binds_buffers_witness :
  let E := disk_env "/cache" init_field0 [] in
  let s := boxes_state E CosmoParams 7 in
  let s' := snd (OutputStruct._init_cstruct E s) in
  exists c,
    OutputStruct.__cstruct (OutputStruct.self s') = Some c /\
    (forall f, In f (pointer_fields s') ->
       exists a,
         OutputStruct.lookup (OutputStruct.f_name f) s'
         = Ok (OutputStruct.Array a) /\
         acceptable f (OutputStruct.Array a) = true /\
         dict_get (OutputStruct.f_name f) (c_values c) = Some (CPtr (buffer a)) /\
         buffer a <> NULL) /\
    (forall f v, In f (primitive_fields s') ->
       OutputStruct.lookup (OutputStruct.f_name f) s' = Ok v ->
       exists pv w,
         v = OutputStruct.Py pv /\
         OutputStruct.c_convert E (OutputStruct.f_ctype f) pv = Some w /\
         dict_get (OutputStruct.f_name f) (c_values c) = Some (CPrim w)).
Proof.
  intros E s s'.
  apply (init_cstruct_binds_buffers E s s').
  - vm_compute. reflexivity.
  - change (NoDup ["field0"; "amplitude"]).
    repeat constructor; simpl; intuition discriminate.
Defined.

(** * Further properties of [read] *)

Lemma fill_Ok E kv s s' :
  OutputStruct.fill E kv s = (Ok tt, s') ->
  exists a a',
    OutputStruct.lookup (fst kv) s = Ok (OutputStruct.Array a) /\
    OutputStruct.np_assign E a (snd kv) = Some a' /\
    s' = OutputStruct.set_dict s
           (dict_set (fst kv) (OutputStruct.Array a')
              (OutputStruct.__dict__ (OutputStruct.self s))).
Proof.
  unfold OutputStruct.fill, OutputStruct.bind, OutputStruct.getattr,
    OutputStruct.reader.
  destruct (OutputStruct.lookup (fst kv) s) as [v|e]; cbv beta iota;
    [|intros H; discriminate H].
  destruct v as [p|a|pv];
    try (unfold OutputStruct.raise; intros H; discriminate H).
  destruct (OutputStruct.np_assign E a (snd kv)) as [a'|] eqn:Ha;
    [|unfold OutputStruct.raise; intros H; discriminate H].
  unfold OutputStruct.setattr. intros H. inversion H.
  exists a, a'. auto.
Qed.

Lemma fill_loop_Ok E l :
  forall s s',
    OutputStruct.for_each l (OutputStruct.fill E) s = (Ok tt, s') ->
    OutputStruct.__class__ (OutputStruct.self s')
    = OutputStruct.__class__ (OutputStruct.self s) /\
    OutputStruct.__cstruct (OutputStruct.self s')
    = OutputStruct.__cstruct (OutputStruct.self s) /\
    OutputStruct.heap s' = OutputStruct.heap s /\
    (forall k, ~ In k (keys l) ->
               OutputStruct.lookup k s' = OutputStruct.lookup k s) /\
    (forall k, In k (keys l) ->
               exists a, OutputStruct.lookup k s = Ok (OutputStruct.Array a)) /\
    (NoDup (keys l) ->
     forall k src, In (k, src) l ->
       exists a a',
         OutputStruct.lookup k s = Ok (OutputStruct.Array a) /\
         OutputStruct.np_assign E a src = Some a' /\
         OutputStruct.lookup k s' = Ok (OutputStruct.Array a')).
Proof.
  induction l as [|[k0 src0] l IH]; intros s s' H.
  - simpl in H. unfold OutputStruct.ret in H. inversion H; subst s'.
    split; [reflexivity|]. split; [reflexivity|]. split; [reflexivity|].
    split; [auto|]. split; [intros k []|intros _ k src []].
  - simpl in H. apply bind_Ok in H as (u & s1 & Hf & H).
    destruct u.
    apply fill_Ok in Hf as (a0 & a0' & Hl0 & Ha0 & ->). simpl fst in *.
    simpl snd in *.
    apply IH in H as (Hc & Hcs & Hh & Hkeep & Harr & Hset).
    split; [exact Hc|]. split; [exact Hcs|]. split; [exact Hh|].
    split; [|split].
    + intros k Hk. simpl in Hk. rewrite Hkeep by tauto.
      apply lookup_setattr_ne. intros ->. apply Hk. now left.
    + intros k Hk. simpl in Hk.
      destruct (string_dec k k0) as [->|Hne]; [now exists a0|].
      destruct Hk as [Hk|Hk]; [congruence|].
      destruct (Harr k Hk) as [a Ha]. exists a.
      now rewrite lookup_setattr_ne in Ha by exact Hne.
    + intros Hnd k src Hin. simpl in Hnd.
      apply NoDup_cons_iff in Hnd as [Hnot Hnd].
      destruct Hin as [Heq|Hin].
      * inversion Heq; subst k0 src0. exists a0, a0'.
        split; [exact Hl0|]. split; [exact Ha0|].
        rewrite (Hkeep k Hnot). apply lookup_set_dict_eq.
      * destruct (Hset Hnd k src Hin) as (a & a' & Hl & Ha & Hl').
        exists a, a'. split; [|split; [exact Ha|exact Hl']].
        rewrite lookup_setattr_ne in Hl; [exact Hl|].
        intros ->. apply Hnot. unfold keys. apply in_map_iff.
        now exists (k0, src).
Qed.

Lemma set_cosmo_seed_Ok seed s s' :
  OutputStruct.set_cosmo_seed seed s = (Ok tt, s') ->
  OutputStruct.self s' = OutputStruct.self s.
Proof.
  unfold OutputStruct.set_cosmo_seed, OutputStruct.bind, OutputStruct.getattr,
    OutputStruct.reader.
  destruct (OutputStruct.lookup "cosmo_params" s) as [v|e]; cbv beta iota;
    [|intros H; discriminate H].
  destruct v as [a|a|pv];
    try (unfold OutputStruct.raise; intros H; discriminate H).
  destruct (StructWithDefaults.setattr "_RANDOM_SEED" seed _);
    intros H; inversion H. reflexivity.
Qed.

Lemma lookup_self k s s' :
  OutputStruct.self s' = OutputStruct.self s ->
  OutputStruct.lookup k s' = OutputStruct.lookup k s.
Proof. unfold OutputStruct.lookup. now intros ->. Qed.

Lemma arrays_initialized_frame s b s' :
  OutputStruct.arrays_initialized s = (Ok b, s') ->
  forall k, OutputStruct.lookup k s' = OutputStruct.lookup k s.
Proof.
  unfold OutputStruct.arrays_initialized. intros H k.
  apply bind_Ok in H as (ks & s1 & Hks & Hloop).
  unfold OutputStruct._pointer_fields in Hks.
  apply bind_Ok in Hks as (fs & s2 & Hfs & Hret).
  unfold OutputStruct.fields in Hfs.
  apply bind_Ok in Hfs as (c & s3 & Hc & Hrd).
  apply reader_Ok in Hrd as [_ Heq]. subst s3.
  unfold OutputStruct.ret in Hret. inversion Hret; subst. clear Hret.
  apply cstruct_result in Hc as (Hc & Hd & Hcl & Hh).
  rewrite (arrays_initialized_loop_cached s1 c _ Hc) in Hloop.
  inversion Hloop; subst.
  unfold OutputStruct.lookup. now rewrite Hd, Hcl.
Qed.

Lemma open_boxes_Ok f s boxes :
  OutputStruct.open_boxes f s = Ok boxes ->
  exists n,
    OutputStruct.lookup "_name" s = Ok (OutputStruct.Py (VStr n)) /\
    dict_get n f = Some boxes.
Proof.
  unfold OutputStruct.open_boxes.
  destruct (OutputStruct.lookup "_name" s) as [v|e]; simpl;
    [|intros H; discriminate H].
  destruct v as [a|a|[| | | |n]]; try (intros H; discriminate H).
  destruct (dict_get n f) as [g|] eqn:Hg; intros H; inversion H; subst.
  now exists n.
Qed.

Lemma lookup_after_setattrs {A} (g : A -> OutputStruct.value) l s s' :
  OutputStruct.for_each l
    (fun kv => OutputStruct.setattr (fst kv) (g (snd kv))) s = (Ok tt, s') ->
  forall k,
    OutputStruct.lookup k s'
    = match dict_get k (rev l) with
      | Some v => Ok (g v)
      | None => OutputStruct.lookup k s
      end.
Proof.
  intros H k.
  destruct (for_each_setattr g l s (for_each_setattr_returns g l s s' H))
    as (s1 & Hrun & Hc & _ & _ & Hd).
  rewrite H in Hrun. inversion Hrun; subst s1.
  unfold OutputStruct.lookup. rewrite Hd, Hc.
  destruct (dict_get k (rev l)); reflexivity.
Qed.

(** What a successful [read] brings back from the file: the group it
    reads is the one named by [_name]; every attribute of that group is
    an attribute of the instance afterwards, and every dataset has been
    assigned into the array attribute of its name, the array the instance
    held before when its arrays were initialised already. *)
Theorem read_restores_file_contents E direc fname match_seed s s' :
  OutputStruct.read E direc fname match_seed s = (Ok tt, s') ->
  exists pth f n boxes,
    OutputStruct.find_existing E direc fname match_seed s = Ok (Some pth) /\
    OutputStruct.h5py_File E pth = Some f /\
    dict_get n f = Some boxes /\
    (dict_get "_name" (group_attrs boxes) = None ->
     OutputStruct.lookup "_name" s' = Ok (OutputStruct.Py (VStr n))) /\
    (NoDup (keys (group_attrs boxes)) ->
     forall k v,
       In (k, v) (group_attrs boxes) -> k <> "filled" ->
       OutputStruct.lookup k s' = Ok (OutputStruct.Py v)) /\
    (NoDup (keys (datasets boxes)) ->
     forall k src,
       In (k, src) (datasets boxes) ->
       dict_get k (group_attrs boxes) = None -> k <> "filled" ->
       exists a a',
         OutputStruct.np_assign E a src = Some a' /\
         OutputStruct.lookup k s' = Ok (OutputStruct.Array a') /\
         (fst (OutputStruct.arrays_initialized s) = Ok true ->
          OutputStruct.lookup k s = Ok (OutputStruct.Array a))).
Proof.
  intros H. unfold OutputStruct.read in H.
  apply bind_Ok in H as (pth & s0 & Hfind & H).
  apply reader_Ok in Hfind as [Hfind ->].
  destruct pth as [pth|]; [|discriminate H].
  apply bind_Ok in H as (ok & s1 & Hok & H).
  apply bind_Ok in H as (u2 & s2 & Hinit & H).
  apply bind_Ok in H as (f & s3 & Hf & H).
  apply lift_Ok in Hf as [Hf ->].
  apply bind_Ok in H as (boxes & s4 & Hbox & H).
  apply reader_Ok in Hbox as [Hbox ->].
  apply bind_Ok in H as (u5 & s5 & Hfill & H).
  apply bind_Ok in H as (u6 & s6 & Hattrs & H).
  apply bind_Ok in H as (seed & s7 & Hseed & H).
  apply lift_Ok in Hseed as [Hseed ->].
  apply bind_Ok in H as (u8 & s8 & Hset & H).
  destruct u5, u6, u8.
  unfold OutputStruct.setattr in H. inversion H; subst s'. clear H.
  apply open_boxes_Ok in Hbox as (n & Hname & Hgrp).
  apply fill_loop_Ok in Hfill as (_ & _ & _ & Hkeep & Harr & Hfilled).
  pose proof (lookup_after_setattrs OutputStruct.Py _ _ _ Hattrs) as Hl6.
  apply set_cosmo_seed_Ok in Hset.
  assert (Hend : forall k,
             k <> "filled" ->
             OutputStruct.lookup k
               (OutputStruct.set_dict s8
                  (dict_set "filled" (OutputStruct.Py (VBool true))
                     (OutputStruct.__dict__ (OutputStruct.self s8))))
             = match dict_get k (rev (group_attrs boxes)) with
               | Some v => Ok (OutputStruct.Py v)
               | None => OutputStruct.lookup k s5
               end).
  { intros k Hk. rewrite lookup_setattr_ne by exact Hk.
    rewrite (lookup_self k _ _ Hset). apply Hl6. }
  exists pth, f, n, boxes.
  split; [exact Hfind|].
  split; [destruct (OutputStruct.h5py_File E pth); now inversion Hf|].
  split; [exact Hgrp|]. split; [|split].
  - intros Hno. rewrite Hend by discriminate.
    rewrite (dict_get_rev_None _ _ Hno). rewrite Hkeep; [exact Hname|].
    intros Hin. destruct (Harr _ Hin) as [a Ha]. congruence.
  - intros Hnd k v Hin Hk. rewrite Hend by exact Hk.
    now rewrite (dict_get_rev_NoDup _ k v Hnd Hin).
  - intros Hnd k src Hin Hno Hk.
    destruct (Hfilled Hnd k src Hin) as (a & a' & Hl & Ha & Hl').
    exists a, a'. split; [exact Ha|]. split.
    + rewrite Hend by exact Hk. now rewrite (dict_get_rev_None _ _ Hno).
    + intros Htrue. rewrite Hok in Htrue. simpl in Htrue.
      inversion Htrue; subst ok. simpl in Hinit.
      unfold OutputStruct.ret in Hinit. inversion Hinit; subst s2.
      now rewrite (arrays_initialized_frame _ _ _ Hok) in Hl.
Qed.

Lemma read_restores_file_contents_witness :
  let cached := "/cache/Boxes_36777dd3155e0da0fa9e2cd69154d57c_r1.h5" in
  let E := disk_env "/cache" init_field0 [(cached, Some (stored 1))] in
  let s := boxes_state E CosmoParams 7 in
  let s' := snd (OutputStruct.read E None None false s) in
  OutputStruct.lookup "amplitude" s' = Ok (OutputStruct.Py (VFloat "0.8")) /\
  OutputStruct.lookup "field0" s'
  = Ok (OutputStruct.Array
          {| dtype_name := "float32"; buffer := 94000;
             contents := [VFloat "1.5"; VFloat "2.5"] |}) /\
  exists pth f n boxes,
    OutputStruct.find_existing E None None false s = Ok (Some pth) /\
    OutputStruct.h5py_File E pth = Some f /\
    dict_get n f = Some boxes /\
    (dict_get "_name" (group_attrs boxes) = None ->
     OutputStruct.lookup "_name" s' = Ok (OutputStruct.Py (VStr n))) /\
    (NoDup (keys (group_attrs boxes)) ->
     forall k v,
       In (k, v) (group_attrs boxes) -> k <> "filled" ->
       OutputStruct.lookup k s' = Ok (OutputStruct.Py v)) /\
    (NoDup (keys (datasets boxes)) ->
     forall k src,
       In (k, src) (datasets boxes) ->
       dict_get k (group_attrs boxes) = None -> k <> "filled" ->
       exists a a',
         OutputStruct.np_assign E a src = Some a' /\
         OutputStruct.lookup k s' = Ok (OutputStruct.Array a') /\
         (fst (OutputStruct.arrays_initialized s) = Ok true ->
          OutputStruct.lookup k s = Ok (OutputStruct.Array a))).
Proof.
  intros cached E s s'.
  split; [vm_compute; reflexivity|]. split; [vm_compute; reflexivity|].
  apply (read_restores_file_contents E None None false s s').
  vm_compute. reflexivity.
Defined.

(** * Further properties of the identity string *)

Lemma ascii_compare_lt_trans a b c :
  Ascii.compare a b = Lt -> Ascii.compare b c = Lt -> Ascii.compare a c = Lt.
Proof.
  unfold Ascii.compare. rewrite !N.compare_lt_iff. lia.
Qed.

Lemma string_compare_lt_trans a :
  forall b c,
    String.compare a b = Lt -> String.compare b c = Lt ->
    String.compare a c = Lt.
Proof.
  induction a as [|x a IH]; intros [|y b] [|z c]; simpl; try discriminate; auto.
  destruct (Ascii.compare x y) eqn:Hxy; try discriminate.
  - apply Ascii.compare_eq_iff in Hxy. subst y.
    destruct (Ascii.compare x z); try discriminate; auto. apply IH.
  - intros _. destruct (Ascii.compare y z) eqn:Hyz; try discriminate.
    + apply Ascii.compare_eq_iff in Hyz. subst z. now rewrite Hxy.
    + intros _. now rewrite (ascii_compare_lt_trans x y z Hxy Hyz).
Qed.

Lemma string_leb_trans a b c :
  String.leb a b = true -> String.leb b c = true -> String.leb a c = true.
Proof.
  unfold String.leb.
  destruct (String.compare a b) eqn:Hab; try discriminate; intros _.
  - apply String.compare_eq_iff in Hab. now subst b.
  - destruct (String.compare b c) eqn:Hbc; try discriminate; intros _.
    + apply String.compare_eq_iff in Hbc. subst c. now rewrite Hab.
    + now rewrite (string_compare_lt_trans a b c Hab Hbc).
Qed.

Lemma sorted_unique l1 :
  forall l2,
    StronglySorted (fun x y => is_true (String.leb x y)) l1 ->
    StronglySorted (fun x y => is_true (String.leb x y)) l2 ->
    Permutation l1 l2 -> l1 = l2.
Proof.
  induction l1 as [|x l1 IH]; intros l2 H1 H2 Hp.
  - now apply Permutation_nil in Hp.
  - destruct l2 as [|y l2].
    + apply Permutation_sym, Permutation_nil in Hp. discriminate.
    + apply StronglySorted_inv in H1 as [H1 Hx].
      apply StronglySorted_inv in H2 as [H2 Hy].
      assert (Hxy : x = y).
      { assert (Hin1 : In x (y :: l2))
          by (apply (Permutation_in _ Hp); now left).
        assert (Hin2 : In y (x :: l1))
          by (apply (Permutation_in _ (Permutation_sym Hp)); now left).
        destruct Hin1 as [->|Hin1]; [reflexivity|].
        destruct Hin2 as [->|Hin2]; [reflexivity|].
        rewrite Forall_forall in Hx, Hy.
        apply String.leb_antisym; [now apply Hx|now apply Hy]. }
      subst y. f_equal. apply IH; auto.
      now apply Permutation_cons_inv in Hp.
Qed.

Lemma sorted_Permutation l1 l2 :
  Permutation l1 l2 -> sorted l1 = sorted l2.
Proof.
  intros Hp. unfold sorted. apply sorted_unique.
  - apply StringSort.StronglySorted_sort. intros a b c. apply string_leb_trans.
  - apply StringSort.StronglySorted_sort. intros a b c. apply string_leb_trans.
  - eapply Permutation_trans;
      [apply Permutation_sym, StringSort.Permuted_sort|].
    eapply Permutation_trans; [exact Hp|apply StringSort.Permuted_sort].
Qed.

Lemma defining_items_Permutation ks ks' self :
  Permutation ks ks' ->
  forall d,
    StructWithDefaults.defining_items ks self = Ok d ->
    exists d',
      StructWithDefaults.defining_items ks' self = Ok d' /\ Permutation d d'.
Proof.
  induction 1 as [|x l l' Hp IH|x y l|l l' l'' Hp1 IH1 Hp2 IH2]; intros d H.
  - exists d. auto.
  - simpl in *. destruct (startswith "RANDOM_SEED" x); [now apply IH|].
    destruct (StructWithDefaults.getattr x self) as [v|]; simpl in *;
      [|discriminate].
    destruct (StructWithDefaults.defining_items l self) as [d0|]; simpl in *;
      [|discriminate].
    inversion H; subst d. destruct (IH d0 eq_refl) as (d' & -> & Hd).
    simpl. eexists. split; [reflexivity|]. now constructor.
  - simpl in *.
    destruct (startswith "RANDOM_SEED" x), (startswith "RANDOM_SEED" y);
      try (exists d; split; [exact H|apply Permutation_refl]).
    destruct (StructWithDefaults.getattr y self) as [vy|]; simpl in *;
      [|discriminate].
    destruct (StructWithDefaults.getattr x self) as [vx|]; simpl in *;
      [|discriminate].
    destruct (StructWithDefaults.defining_items l self) as [d0|]; simpl in *;
      [|discriminate].
    inversion H; subst d. eexists. split; [reflexivity|]. apply perm_swap.
  - destruct (IH1 d H) as (d1 & H1 & Hd1).
    destruct (IH2 d1 H1) as (d2 & H2 & Hd2).
    exists d2. split; [exact H2|]. eapply Permutation_trans; eauto.
Qed.

(** The identity string does not depend on the order in which the
    fields are declared: two records whose classes have the same name and
    the same fields in any order, and that agree on every field that is
    not a seed, have the same identity string. *)
Theorem repr_ignores_field_order p q r :
  StructWithDefaults.__name__ (StructWithDefaults.__class__ p)
  = StructWithDefaults.__name__ (StructWithDefaults.__class__ q) ->
  Permutation
    (keys (StructWithDefaults._defaults_ (StructWithDefaults.__class__ p)))
    (keys (StructWithDefaults._defaults_ (StructWithDefaults.__class__ q))) ->
  (forall k,
      In k (keys (StructWithDefaults._defaults_ (StructWithDefaults.__class__ p))) ->
      volatile k = false ->
      StructWithDefaults.getattr k p = StructWithDefaults.getattr k q) ->
  StructWithDefaults.__repr__ p = Ok r ->
  StructWithDefaults.__repr__ q = Ok r.
Proof.
  intros Hname Hperm Hsame.
  unfold StructWithDefaults.__repr__, StructWithDefaults.__defining_dict.
  rewrite (defining_items_ext _ p q Hsame).
  destruct (StructWithDefaults.defining_items
              (keys (StructWithDefaults._defaults_
                       (StructWithDefaults.__class__ p))) q)
    as [d|] eqn:Hd; simpl; [|intros H; discriminate H].
  destruct (defining_items_Permutation _ _ q Hperm d Hd) as (d' & -> & Hdd).
  simpl. intros H. inversion H. rewrite Hname.
  now rewrite (sorted_Permutation _ _
                 (Permutation_map StructWithDefaults.render Hdd)).
Qed.

Lemma repr_ignores_field_order_witness :
  StructWithDefaults.__repr__ (construct BA [("a", VInt 5)]) = Ok "AB(a:5, b:2)".
Proof.
  apply (repr_ignores_field_order (construct AB [("a", VInt 5)])
           (construct BA [("a", VInt 5)]) "AB(a:5, b:2)").
  - reflexivity.
  - apply perm_swap.
  - intros k [<-|[<-|[]]] _; reflexivity.
  - reflexivity.
Defined.

Lemma init_loop_cases items kwargs :
  forall self,
    (existsb (blocked (StructWithDefaults.__class__ self)) (keys items) = true /\
     StructWithDefaults.init_loop items kwargs self
     = Raise (AttributeError "can't set attribute")) \/
    (existsb (blocked (StructWithDefaults.__class__ self)) (keys items) = false /\
     exists self', StructWithDefaults.init_loop items kwargs self = Ok self').
Proof.
  induction items as [|[k v] items IH]; intros self.
  - right. split; [reflexivity|]. now exists self.
  - simpl. rewrite store_cases.
    destruct (blocked (StructWithDefaults.__class__ self) k) eqn:Hb; simpl.
    + left. auto.
    + apply (IH (StructWithDefaults.with_attrs self _)).
Qed.

(** Construction fails in one way only. When some field is a read-only
    property whose hidden attribute is a read-only property too,
    [__init__] raises the [AttributeError] of the second [setattr],
    whatever the keyword arguments; for every other class it returns a
    record. *)
Theorem init_fails_on_blocked_property cls kwargs :
  (existsb (blocked cls) (keys (StructWithDefaults._defaults_ cls)) = true ->
   StructWithDefaults.__init__ cls kwargs
   = Raise (AttributeError "can't set attribute")) /\
  (existsb (blocked cls) (keys (StructWithDefaults._defaults_ cls)) = false ->
   exists self, StructWithDefaults.__init__ cls kwargs = Ok self).
Proof.
  unfold StructWithDefaults.__init__.
  destruct (init_loop_cases (StructWithDefaults._defaults_ cls) kwargs
              (StructWithDefaults.blank cls)) as [[Hb Hr]|[Hb [self Hr]]];
    simpl in Hb; rewrite Hb, Hr; simpl.
  - split; [reflexivity|discriminate].
  - split; [discriminate|]. intros _. eexists. reflexivity.
Qed.

Lemma init_fails_on_blocked_property_witness :
  StructWithDefaults.__init__ Blocked [("X", VInt 2)]
  = Raise (AttributeError "can't set attribute") /\
  exists self, StructWithDefaults.__init__ AB [("a", VInt 5)] = Ok self.
Proof.
  split.
  - apply (proj1 (init_fails_on_blocked_property Blocked [("X", VInt 2)])).
    reflexivity.
  - apply (proj2 (init_fails_on_blocked_property AB [("a", VInt 5)])).
    reflexivity.
Defined.

(** * Further properties of [exists] and of a fresh structure *)

Lemma exists_false_iff E direc fname ms s :
  OutputStruct.exists_ E direc fname ms s = Ok false <->
  OutputStruct.find_existing E direc fname ms s = Ok None.
Proof.
  unfold OutputStruct.exists_.
  destruct (OutputStruct.find_existing E direc fname ms s) as [[p|]|e]; simpl;
    split; intros H; try discriminate H; reflexivity.
Qed.

Lemma read_miss_iff E direc fname ms s :
  quiet (OutputStruct._init_arrays E) ->
  fst (OutputStruct.read E direc fname ms s) = Raise OutputStruct.no_boxes <->
  OutputStruct.find_existing E direc fname ms s = Ok None.
Proof.
  intros Hhook.
  unfold OutputStruct.read, OutputStruct.bind at 1, OutputStruct.reader.
  destruct (OutputStruct.find_existing E direc fname ms s)
    as [[pth|]|e] eqn:Hfind.
  - split; [|discriminate]. intros H. exfalso.
    destruct (OutputStruct.bind OutputStruct.arrays_initialized _ s)
      as [[u|e] s'] eqn:Hrest; simpl in H; [discriminate|].
    inversion H; subst e.
    now apply (quiet_read_found E pth Hhook _ _ _ Hrest).
  - split; reflexivity.
  - split; [|discriminate]. simpl. intros H. exfalso.
    inversion H; subst e.
    destruct (find_existing_cases E direc fname ms s)
      as [[r Hr]|(e' & He' & Hn)]; [congruence|].
    rewrite Hfind in He'. inversion He'; subst e'.
    now apply (rquiet_hashname s _ Hn).
Qed.

(** [exists] tells what [read] will do: it answers [False] exactly when
    [read] raises its error for a miss, it answers [True] only for a path
    that is on disk or that [glob] reported, and it raises only what
    computing the file name raises. *)
Theorem exists_agrees_with_read E direc fname ms s :
  quiet (OutputStruct._init_arrays E) ->
  (OutputStruct.exists_ E direc fname ms s = Ok false <->
   fst (OutputStruct.read E direc fname ms s) = Raise OutputStruct.no_boxes) /\
  (OutputStruct.exists_ E direc fname ms s = Ok true ->
   exists p,
     OutputStruct.find_existing E direc fname ms s = Ok (Some p) /\
     matched E p) /\
  (forall e,
      OutputStruct.exists_ E direc fname ms s = Raise e ->
      OutputStruct._hashname s = Raise e).
Proof.
  intros Hhook. split; [|split].
  - rewrite exists_false_iff. symmetry. now apply read_miss_iff.
  - unfold OutputStruct.exists_.
    destruct (OutputStruct.find_existing E direc fname ms s)
      as [[p|]|e] eqn:Hfind; simpl; intros H; try discriminate H.
    exists p. split; [reflexivity|].
    now apply (find_existing_matched E direc fname ms s).
  - intros e. unfold OutputStruct.exists_.
    destruct (find_existing_cases E direc fname ms s)
      as [[r ->]|(e' & -> & Hn)]; simpl; intros H; [discriminate H|].
    now inversion H; subst.
Qed.

Lemma exists_agrees_with_read_witness :
  let cached := "/cache/Boxes_36777dd3155e0da0fa9e2cd69154d57c_r1.h5" in
  let E := disk_env "/cache" init_field0 [(cached, Some (stored 1))] in
  let s := boxes_state E CosmoParams 7 in
  OutputStruct.exists_ E None None false s = Ok true /\
  OutputStruct.exists_ E (Some "/data") None true
    (boxes_state_with E [("HII_DIM", VInt 32)] CosmoParams 7) = Ok false /\
  (OutputStruct.exists_ E None None false s = Ok false <->
   fst (OutputStruct.read E None None false s) = Raise OutputStruct.no_boxes) /\
  (OutputStruct.exists_ E None None false s = Ok true ->
   exists p,
     OutputStruct.find_existing E None None false s = Ok (Some p) /\
     matched E p) /\
  (forall e,
      OutputStruct.exists_ E None None false s = Raise e ->
      OutputStruct._hashname s = Raise e).
Proof.
  intros cached E s.
  split; [vm_compute; reflexivity|]. split; [vm_compute; reflexivity|].
  apply (exists_agrees_with_read E None None false s).
  intros s0 e s1. unfold E. simpl. unfold init_field0, OutputStruct.bind,
    OutputStruct.hasattr.
  destruct (OutputStruct.lookup "field0" s0); discriminate.
Defined.



(** * The format of the cache file name *)

Lemma le_bytes_length n x : List.length (MD5.le_bytes n x) = n.
Proof. unfold MD5.le_bytes. now rewrite length_map, length_seq. Qed.

Lemma le_bytes_range n x :
  Forall (fun b => 0 <= b < 256) (MD5.le_bytes n x).
Proof.
  unfold MD5.le_bytes. apply Forall_forall. intros b Hb.
  apply in_map_iff in Hb as (i & <- & _). apply Z.mod_pos_bound. lia.
Qed.

Lemma digest_bytes s :
  List.length (MD5.digest s) = 16%nat /\
  Forall (fun b => 0 <= b < 256) (MD5.digest s).
Proof.
  unfold MD5.digest.
  destruct (fold_left MD5.compress _ MD5.init) as [[[a b] c] d].
  split.
  - rewrite !length_app, !le_bytes_length. reflexivity.
  - repeat (apply Forall_app; split); apply le_bytes_range.
Qed.

Lemma hex_digit_lower x :
  0 <= x < 16 -> is_lower_hex (MD5.hex_digit x) = true.
Proof.
  intros Hx. unfold MD5.hex_digit.
  assert (Hn : (Z.to_nat x < 16)%nat) by lia.
  destruct (Z.to_nat x) as [|n]; [reflexivity|].
  do 15 (destruct n as [|n]; [reflexivity|]). lia.
Qed.

Lemma length_string_of_list_ascii l :
  String.length (string_of_list_ascii l) = List.length l.
Proof. induction l; simpl; congruence. Qed.

Lemma hex_of_bytes_shape bs :
  Forall (fun b => 0 <= b < 256) bs ->
  String.length (MD5.hex_of_bytes bs) = (2 * List.length bs)%nat /\
  forallb is_lower_hex (list_ascii_of_string (MD5.hex_of_bytes bs)) = true.
Proof.
  unfold MD5.hex_of_bytes. rewrite length_string_of_list_ascii.
  rewrite list_ascii_of_string_of_list_ascii.
  induction 1 as [|b bs Hb Hbs [IHl IHh]]; [split; reflexivity|].
  cbn [flat_map List.length app forallb]. split.
  - rewrite IHl. lia.
  - rewrite IHh, !hex_digit_lower; [reflexivity| |].
    + apply Z.mod_pos_bound. lia.
    + split; [apply Z.div_pos; lia|apply Z.div_lt_upper_bound; lia].
Qed.

(** The name of the cache file: [_name], an underscore, the fingerprint
    [_md5] of the structure, which is the MD5 digest of its
    representation in 32 lowercase hexadecimal digits, then [_r], the
    seed as [str] prints it, and the suffix [.h5]. *)
Theorem hashname_format s f :
  OutputStruct._hashname s = Ok f ->
  exists n h v,
    OutputStruct.str_attr "_name" s = Ok n /\
    OutputStruct._md5 s = Ok h /\
    (exists r, OutputStruct.__repr__ s = Ok r /\ h = md5_hexdigest r) /\
    OutputStruct.cosmo_seed s = Ok v /\
    f = n ++ "_" ++ h ++ "_r" ++ str v ++ ".h5" /\
    String.length h = 32%nat /\
    forallb is_lower_hex (list_ascii_of_string h) = true.
Proof.
  intros H. apply hashname_shape in H as (n & h & v & Hn & Hh & Hv & ->).
  exists n, h, v. split; [exact Hn|]. split; [exact Hh|].
  unfold OutputStruct._md5 in Hh.
  destruct (OutputStruct.__repr__ s) as [r|]; simpl in Hh; [|discriminate].
  split; [exists r; split; [reflexivity|now inversion Hh]|].
  split; [exact Hv|]. split; [reflexivity|].
  inversion Hh. unfold md5_hexdigest, MD5.hexdigest.
  destruct (digest_bytes r) as [Hlen Hrange].
  destruct (hex_of_bytes_shape _ Hrange) as [Hl Hx].
  split; [rewrite Hl, Hlen; reflexivity|exact Hx].
Qed.

Lemma hashname_format_witness :
  let E := disk_env "/cache" init_field0 [] in
  exists n h v,
    OutputStruct.str_attr "_name" (boxes_state E CosmoParams 7) = Ok n /\
    OutputStruct._md5 (boxes_state E CosmoParams 7) = Ok h /\
    (exists r, OutputStruct.__repr__ (boxes_state E CosmoParams 7) = Ok r /\
               h = md5_hexdigest r) /\
    OutputStruct.cosmo_seed (boxes_state E CosmoParams 7) = Ok v /\
    "Boxes_36777dd3155e0da0fa9e2cd69154d57c_r7.h5"
    = n ++ "_" ++ h ++ "_r" ++ str v ++ ".h5" /\
    String.length h = 32%nat /\
    forallb is_lower_hex (list_ascii_of_string h) = true.
Proof.
  intros E.
  apply (hashname_format (boxes_state E CosmoParams 7)). vm_compute. reflexivity.
Defined.

(** * The fingerprint across [read] *)

Lemma same_parameters_refl s : same_parameters s s.
Proof. repeat split; auto. Qed.

Lemma same_parameters_trans s1 s2 s3 :
  same_parameters s1 s2 -> same_parameters s2 s3 -> same_parameters s1 s3.
Proof.
  intros (Ha & Hb & Hc) (Ha' & Hb' & Hc'). split; [congruence|].
  split; [congruence|]. intros k a H. now apply Hc, Hc'.
Qed.

Lemma repr_params_set h d k v :
  (forall a, v <> OutputStruct.Params a) ->
  (forall a, dict_get k d <> Some (OutputStruct.Params a)) ->
  OutputStruct.repr_params h (dict_set k v d) = OutputStruct.repr_params h d.
Proof.
  intros Hv. induction d as [|[k0 v0] d IH]; intros Hd.
  - simpl. destruct v as [a| |]; [now contradiction (Hv a)|reflexivity..].
  - simpl in Hd. simpl dict_set.
    destruct (String.eqb k k0) eqn:Hk.
    + destruct v as [a| |]; [now contradiction (Hv a)| |];
        (destruct v0 as [a0| |]; [now contradiction (Hd a0)|reflexivity..]).
    + simpl. rewrite (IH Hd). reflexivity.
Qed.

Lemma repr_params_ext h h' d :
  (forall a, StructWithDefaults.__repr__ (h' a) = StructWithDefaults.__repr__ (h a)) ->
  OutputStruct.repr_params h' d = OutputStruct.repr_params h d.
Proof.
  intros H. induction d as [|[k v] d IH]; [reflexivity|].
  simpl. destruct v; rewrite ?H, IH; reflexivity.
Qed.

Lemma lookup_Params_dict k s a :
  OutputStruct.lookup k s = Ok (OutputStruct.Params a) ->
  dict_get k (OutputStruct.__dict__ (OutputStruct.self s))
  = Some (OutputStruct.Params a).
Proof.
  unfold OutputStruct.lookup.
  destruct (dict_get k _) as [v|]; [intros H; now inversion H|].
  destruct (String.eqb k "_name");
    [destruct (OutputStruct.cls__name _); discriminate|].
  destruct (String.eqb k "_id");
    [destruct (OutputStruct.cls__id _); discriminate|discriminate].
Qed.

(** Storing something that is not a parameter record where no parameter
    record is. *)
Lemma plain_step s k v :
  (forall a, v <> OutputStruct.Params a) ->
  plain_attribute s k -> k <> "_name" ->
  same_parameters s
    (OutputStruct.set_dict s
       (dict_set k v (OutputStruct.__dict__ (OutputStruct.self s)))).
Proof.
  intros Hv Hplain Hk. split; [|split].
  - simpl. apply repr_params_set; [exact Hv|].
    intros a Hd. apply (Hplain a). unfold OutputStruct.lookup. now rewrite Hd.
  - apply lookup_setattr_ne. auto.
  - intros k' a H. destruct (string_dec k' k) as [->|Hne].
    + rewrite lookup_set_dict_eq in H. inversion H. now contradiction (Hv a).
    + now rewrite lookup_setattr_ne in H by exact Hne.
Qed.

Lemma fill_loop_same_parameters E n l :
  forall s s',
    OutputStruct.lookup "_name" s = Ok (OutputStruct.Py (VStr n)) ->
    OutputStruct.for_each l (OutputStruct.fill E) s = (Ok tt, s') ->
    same_parameters s s' /\ OutputStruct.heap s' = OutputStruct.heap s.
Proof.
  induction l as [|kv l IH]; intros s s' Hn H.
  - simpl in H. unfold OutputStruct.ret in H. inversion H; subst s'.
    split; [apply same_parameters_refl|reflexivity].
  - simpl in H. apply bind_Ok in H as (u & s1 & Hf & H). destruct u.
    apply fill_Ok in Hf as (a & a' & Hl & _ & ->).
    assert (Hstep : same_parameters s
                      (OutputStruct.set_dict s
                         (dict_set (fst kv) (OutputStruct.Array a')
                            (OutputStruct.__dict__ (OutputStruct.self s))))).
    { apply plain_step.
      - discriminate.
      - intros b Hb. congruence.
      - intros Heq. rewrite Heq in Hl. congruence. }
    destruct (IH _ s' (eq_trans (proj1 (proj2 Hstep)) Hn) H) as [Hrest Hh].
    split; [eapply same_parameters_trans; eauto|exact Hh].
Qed.

Lemma attrs_loop_same_parameters l :
  forall s s',
    (forall k, In k (keys l) -> k <> "_name" /\ plain_attribute s k) ->
    OutputStruct.for_each l
      (fun kv : string * PyVal =>
         OutputStruct.setattr (fst kv) (OutputStruct.Py (snd kv))) s
    = (Ok tt, s') ->
    same_parameters s s' /\ OutputStruct.heap s' = OutputStruct.heap s.
Proof.
  induction l as [|[k v] l IH]; intros s s' Hl H.
  - simpl in H. unfold OutputStruct.ret in H. inversion H; subst s'.
    split; [apply same_parameters_refl|reflexivity].
  - simpl in H. unfold OutputStruct.bind at 1, OutputStruct.setattr at 1 in H.
    simpl fst in H. simpl snd in H.
    destruct (Hl k (or_introl eq_refl)) as [Hk Hplain].
    assert (Hstep : same_parameters s
                      (OutputStruct.set_dict s
                         (dict_set k (OutputStruct.Py v)
                            (OutputStruct.__dict__ (OutputStruct.self s)))))
      by (apply plain_step; [discriminate|exact Hplain|exact Hk]).
    destruct (OutputStruct.read_only k); [discriminate H|].
    apply IH in H as [Hrest Hh].
    + split; [eapply same_parameters_trans; eauto|exact Hh].
    + intros k' Hin. destruct (Hl k' (or_intror Hin)) as [Hk' Hp'].
      split; [exact Hk'|]. intros a Ha.
      apply (Hp' a). now apply (proj2 (proj2 Hstep)).
Qed.

Lemma arrays_initialized_same s b s' :
  OutputStruct.arrays_initialized s = (Ok b, s') ->
  OutputStruct.__dict__ (OutputStruct.self s')
  = OutputStruct.__dict__ (OutputStruct.self s) /\
  OutputStruct.__class__ (OutputStruct.self s')
  = OutputStruct.__class__ (OutputStruct.self s) /\
  OutputStruct.heap s' = OutputStruct.heap s.
Proof.
  unfold OutputStruct.arrays_initialized. intros H.
  apply bind_Ok in H as (ks & s1 & Hks & Hloop).
  unfold OutputStruct._pointer_fields in Hks.
  apply bind_Ok in Hks as (fs & s2 & Hfs & Hret).
  unfold OutputStruct.fields in Hfs.
  apply bind_Ok in Hfs as (c & s3 & Hc & Hrd).
  apply reader_Ok in Hrd as [_ Heq]. subst s3.
  unfold OutputStruct.ret in Hret. inversion Hret; subst. clear Hret.
  apply cstruct_result in Hc as (Hc & Hd & Hcl & Hh).
  rewrite (arrays_initialized_loop_cached s1 c _ Hc) in Hloop.
  inversion Hloop; subst. auto.
Qed.

Lemma set_cosmo_seed_heap seed s s' :
  OutputStruct.set_cosmo_seed seed s = (Ok tt, s') ->
  exists a,
    OutputStruct.lookup "cosmo_params" s = Ok (OutputStruct.Params a) /\
    s' = OutputStruct.set_heap s a
           (StructWithDefaults.with_attrs (OutputStruct.heap s a)
              (dict_set "_RANDOM_SEED" seed
                 (StructWithDefaults.attrs (OutputStruct.heap s a)))).
Proof.
  unfold OutputStruct.set_cosmo_seed, OutputStruct.bind, OutputStruct.getattr,
    OutputStruct.reader.
  destruct (OutputStruct.lookup "cosmo_params" s) as [v|e]; cbv beta iota;
    [|intros H; discriminate H].
  destruct v as [a|a|pv];
    try (unfold OutputStruct.raise; intros H; discriminate H).
  unfold StructWithDefaults.setattr.
  destruct (StructWithDefaults.is_property "_RANDOM_SEED" _);
    intros H; inversion H. now exists a.
Qed.

Lemma hidden_seed_keeps_repr p seed :
  (forall k,
      In k (keys (StructWithDefaults._defaults_ (StructWithDefaults.__class__ p))) ->
      volatile k = false ->
      slot (StructWithDefaults.__class__ p) k <> "_RANDOM_SEED") ->
  StructWithDefaults.__repr__
    (StructWithDefaults.with_attrs p
       (dict_set "_RANDOM_SEED" seed (StructWithDefaults.attrs p)))
  = StructWithDefaults.__repr__ p.
Proof.
  intros H. symmetry. apply repr_same_identity. split; [reflexivity|].
  intros k Hin Hv. rewrite !getattr_slot. simpl.
  now rewrite dict_get_set_ne by (apply H; assumption).
Qed.

(** Reading does not change the identity of the structure. When the
    arrays are initialised, [filled] and the attributes stored in the
    file are not parameter records nor [_name], and the hidden seed is
    not a slot of an identity field of [cosmo_params], a successful
    [read] leaves [__repr__] and the fingerprint as they were, although
    it may change the seed. *)
Theorem read_keeps_fingerprint E direc fname match_seed s s' :
  OutputStruct.read E direc fname match_seed s = (Ok tt, s') ->
  fst (OutputStruct.arrays_initialized s) = Ok true ->
  plain_attribute s "filled" ->
  (forall pth f n g k,
      OutputStruct.find_existing E direc fname match_seed s = Ok (Some pth) ->
      OutputStruct.h5py_File E pth = Some f ->
      OutputStruct.str_attr "_name" s = Ok n ->
      dict_get n f = Some g ->
      In k (keys (group_attrs g)) ->
      k <> "_name" /\ plain_attribute s k) ->
  (forall a k,
      OutputStruct.lookup "cosmo_params" s = Ok (OutputStruct.Params a) ->
      In k (keys (StructWithDefaults._defaults_
                    (StructWithDefaults.__class__ (OutputStruct.heap s a)))) ->
      volatile k = false ->
      slot (StructWithDefaults.__class__ (OutputStruct.heap s a)) k
      <> "_RANDOM_SEED") ->
  OutputStruct.__repr__ s' = OutputStruct.__repr__ s /\
  OutputStruct._md5 s' = OutputStruct._md5 s.
Proof.
  intros H Hinit Hfilled Hfile Hseedslot.
  assert (Hrepr : OutputStruct.__repr__ s' = OutputStruct.__repr__ s);
    [|split; [exact Hrepr|unfold OutputStruct._md5; now rewrite Hrepr]].
  unfold OutputStruct.read in H.
  apply bind_Ok in H as (pth & s0 & Hfind & H).
  apply reader_Ok in Hfind as [Hfind ->].
  destruct pth as [pth|]; [|discriminate H].
  apply bind_Ok in H as (ok & s1 & Hok & H).
  rewrite Hok in Hinit. simpl in Hinit. inversion Hinit; subst ok. clear Hinit.
  apply bind_Ok in H as (u2 & s2 & Hnoinit & H).
  simpl in Hnoinit. unfold OutputStruct.ret in Hnoinit.
  inversion Hnoinit; subst s2. clear Hnoinit.
  apply bind_Ok in H as (f & s3 & Hf & H).
  apply lift_Ok in Hf as [Hf ->].
  apply bind_Ok in H as (boxes & s4 & Hbox & H).
  apply reader_Ok in Hbox as [Hbox ->].
  apply bind_Ok in H as (u5 & s5 & Hfill & H).
  apply bind_Ok in H as (u6 & s6 & Hattrs & H).
  apply bind_Ok in H as (seed & s7 & Hseed & H).
  apply lift_Ok in Hseed as [Hseed ->].
  apply bind_Ok in H as (u8 & s8 & Hset & H).
  destruct u5, u6, u8.
  unfold OutputStruct.setattr in H. inversion H; subst s'. clear H.
  apply arrays_initialized_same in Hok as (Hd1 & Hc1 & Hh1).
  assert (Hl1 : forall k, OutputStruct.lookup k s1 = OutputStruct.lookup k s)
    by (intros k; unfold OutputStruct.lookup; now rewrite Hd1, Hc1).
  assert (H01 : same_parameters s s1).
  { split; [now rewrite Hd1, Hh1|]. split; [apply Hl1|].
    intros k a. now rewrite Hl1. }
  apply open_boxes_Ok in Hbox as (n & Hname & Hgrp).
  assert (Hf' : OutputStruct.h5py_File E pth = Some f)
    by (destruct (OutputStruct.h5py_File E pth); now inversion Hf).
  assert (Hn : OutputStruct.str_attr "_name" s = Ok n).
  { unfold OutputStruct.str_attr. rewrite <- Hl1, Hname. reflexivity. }
  apply (fill_loop_same_parameters E n) in Hfill as [H15 Hh5];
    [|exact Hname].
  assert (H05 : same_parameters s s5)
    by (eapply same_parameters_trans; eauto).
  apply attrs_loop_same_parameters in Hattrs as [H56 Hh6].
  2:{ intros k Hin.
      destruct (Hfile pth f n boxes k Hfind Hf' Hn Hgrp Hin) as [Hk Hp].
      split; [exact Hk|]. intros a Ha. apply (Hp a).
      now apply (proj2 (proj2 H05)). }
  assert (H06 : same_parameters s s6)
    by (eapply same_parameters_trans; eauto).
  apply set_cosmo_seed_heap in Hset as (a & Hcp & ->).
  assert (Hcp0 : OutputStruct.lookup "cosmo_params" s
                 = Ok (OutputStruct.Params a))
    by (now apply (proj2 (proj2 H06))).
  assert (Hheap6 : OutputStruct.heap s6 = OutputStruct.heap s)
    by (rewrite Hh6, Hh5; exact Hh1).
  set (s8 := OutputStruct.set_heap s6 a _).
  assert (H68 : same_parameters s6 s8).
  { split; [|split; [reflexivity|auto]].
    apply repr_params_ext. intros b. unfold s8. simpl.
    destruct (b =? a) eqn:Hb; [|reflexivity].
    apply Z.eqb_eq in Hb. subst b. apply hidden_seed_keeps_repr.
    rewrite Hheap6. intros k. now apply Hseedslot. }
  assert (H08 : same_parameters s s8)
    by (eapply same_parameters_trans; eauto).
  assert (Hlast : same_parameters s8
                    (OutputStruct.set_dict s8
                       (dict_set "filled" (OutputStruct.Py (VBool true))
                          (OutputStruct.__dict__ (OutputStruct.self s8))))).
  { apply plain_step; [discriminate| |discriminate].
    intros b Hb. apply (Hfilled b). now apply (proj2 (proj2 H08)). }
  destruct (same_parameters_trans _ _ _ H08 Hlast) as (Ha & Hb & _).
  unfold OutputStruct.__repr__, OutputStruct.str_attr. now rewrite Ha, Hb.
Qed.

Lemma read_keeps_fingerprint_witness :
  let cached := "/cache/Boxes_36777dd3155e0da0fa9e2cd69154d57c_r1.h5" in
  let E := disk_env "/cache" init_field0 [(cached, Some (stored 1))] in
  let s := snd (OutputStruct.__call__ E (boxes_state E CosmoParams 7)) in
  let s' := snd (OutputStruct.read E None None false s) in
  OutputStruct.cosmo_seed s = Ok (VInt 7) /\
  OutputStruct.cosmo_seed s' = Ok (VInt 1) /\
  OutputStruct.__repr__ s' = OutputStruct.__repr__ s /\
  OutputStruct._md5 s' = OutputStruct._md5 s.
Proof.
  intros cached E s s'.
  split; [vm_compute; reflexivity|]. split; [vm_compute; reflexivity|].
  apply (read_keeps_fingerprint E None None false s s').
  - vm_compute. reflexivity.
  - vm_compute. reflexivity.
  - intros a. vm_compute. discriminate.
  - intros pth f n g k Hfind Hf Hn Hg Hin.
    vm_compute in Hfind. inversion Hfind; subst pth. clear Hfind.
    vm_compute in Hf. inversion Hf; subst f. clear Hf.
    vm_compute in Hn. inversion Hn; subst n. clear Hn.
    vm_compute in Hg. inversion Hg; subst g. clear Hg.
    simpl in Hin. destruct Hin as [<-|[]].
    split; [discriminate|]. intros a. vm_compute. discriminate.
  - intros a k Hcp Hin Hv. vm_compute in Hcp. inversion Hcp; subst a. clear Hcp.
    vm_compute in Hin. destruct Hin as [<-|[<-|[]]].
    + vm_compute in Hv. discriminate Hv.
    + vm_compute. discriminate.
Defined.

(** * Strict and relaxed search *)

Lemma find_in_direc_relax E d fname s :
  match OutputStruct.find_in_direc E d fname true s with
  | Ok (Some p) => OutputStruct.find_in_direc E d fname false s = Ok (Some p)
  | Ok None =>
      (exists r, OutputStruct.find_in_direc E d fname false s = Ok r) /\
      exists hn, OutputStruct._hashname s = Ok hn
  | Raise e => OutputStruct.find_in_direc E d fname false s = Raise e
  end.
Proof.
  unfold OutputStruct.find_in_direc.
  destruct (match fname with
            | Some _ =>
                p <- OutputStruct._get_fname E (Some d) fname s ;;
                (if OutputStruct.path_exists E p
                 then q <- OutputStruct._get_fname E (Some d) fname s ;;
                      Ok (Some q)
                 else Ok None)
            | None => Ok None
            end) as [[p|]|e]; simpl; try reflexivity.
  destruct (OutputStruct._get_fname E (Some d) None s) as [f|e] eqn:Hf; simpl;
    [|reflexivity].
  destruct (OutputStruct.path_exists E f); [reflexivity|].
  split; [eauto|].
  apply get_fname_hashname in Hf as (hn & Hhn & _). eauto.
Qed.

(** Relaxing [match_seed] never loses a file: whenever the search that
    insists on the seed finds a file, the search that does not finds one
    too; a miss of the relaxed search is a miss of the strict one; and
    the two searches raise under the same conditions. *)
Theorem relaxing_match_seed_keeps_hits E direc fname s :
  (forall p,
      OutputStruct.find_existing E direc fname true s = Ok (Some p) ->
      exists p',
        OutputStruct.find_existing E direc fname false s = Ok (Some p')) /\
  (OutputStruct.find_existing E direc fname false s = Ok None ->
   OutputStruct.find_existing E direc fname true s = Ok None) /\
  (forall e,
      OutputStruct.find_existing E direc fname true s = Raise e <->
      OutputStruct.find_existing E direc fname false s = Raise e).
Proof.
  unfold OutputStruct.find_existing.
  destruct direc as [d|]; simpl.
  - pose proof (find_in_direc_relax E d fname s) as H.
    destruct (OutputStruct.find_in_direc E d fname true s) as [[p|]|e] eqn:Ht.
    + rewrite H. simpl. split; [eauto|]. split; [discriminate|].
      intros e. split; discriminate.
    + destruct H as [[r ->] [hn Hhn]]. simpl.
      destruct r as [q|]; simpl.
      * split; [eauto|]. split; [discriminate|].
        intros e. split; [|discriminate]. intros He.
        destruct (find_in_default_cases E s) as [[r Hr]|(e' & He' & Hn)];
          congruence.
      * split; [eauto|]. split; [auto|]. intros e. tauto.
    + rewrite H. simpl. split; [discriminate|]. split; [discriminate|].
      intros e'. tauto.
  - split; [eauto|]. split; [auto|]. intros e. tauto.
Qed.

Lemma relaxing_match_seed_keeps_hits_witness :
  let cached := "/cache/Boxes_36777dd3155e0da0fa9e2cd69154d57c_r3.h5" in
  let E := disk_env "/cache" init_field0 [(cached, Some (stored 3))] in
  let s := boxes_state E CosmoParams 3 in
  OutputStruct.find_existing E (Some "/data") None true s = Ok (Some cached) /\
  exists p', OutputStruct.find_existing E (Some "/data") None false s
             = Ok (Some p').
Proof.
  intros cached E s.
  assert (H : OutputStruct.find_existing E (Some "/data") None true s
              = Ok (Some cached)) by (vm_compute; reflexivity).
  split; [exact H|].
  exact (proj1 (relaxing_match_seed_keeps_hits E (Some "/data") None s)
           cached H).
Defined.

(** * The representation of an output structure *)

Lemma dict_set_fresh {V} (d : dict V) k v :
  dict_get k d = None -> dict_set k v d = (d ++ [(k, v)])%list.
Proof.
  induction d as [|[k0 v0] d IH]; simpl; [reflexivity|].
  destruct (String.eqb k k0); [discriminate|]. intros H. now rewrite IH.
Qed.

Lemma for_each_setattr_append (l : dict OutputStruct.value) :
  forall s,
    existsb OutputStruct.read_only (keys l) = false ->
    NoDup (keys l) ->
    (forall k, In k (keys l) ->
               dict_get k (OutputStruct.__dict__ (OutputStruct.self s)) = None) ->
    OutputStruct.for_each l
      (fun kv => OutputStruct.setattr (fst kv) (snd kv)) s
    = (Ok tt,
       OutputStruct.set_dict s
         (OutputStruct.__dict__ (OutputStruct.self s) ++ l)%list).
Proof.
  induction l as [|[k v] l IH]; intros s Hw Hnd Hfresh.
  - simpl. unfold OutputStruct.ret. rewrite app_nil_r.
    destruct s as [[c d cs] hp]. reflexivity.
  - simpl in Hnd. apply NoDup_cons_iff in Hnd as [Hnot Hnd].
    simpl in Hw. apply orb_false_iff in Hw as [Hw0 Hw].
    simpl OutputStruct.for_each. unfold OutputStruct.bind at 1.
    simpl fst. simpl snd. rewrite (setattr_writable _ _ _ Hw0).
    rewrite (dict_set_fresh _ k v (Hfresh k (or_introl eq_refl))).
    rewrite IH; [| exact Hw | exact Hnd |].
    + simpl. unfold OutputStruct.set_dict. simpl.
      now rewrite <- app_assoc.
    + intros k' Hin. simpl. rewrite dict_get_app.
      rewrite (Hfresh k' (or_intror Hin)). simpl.
      destruct (String.eqb k' k) eqn:Hk; [|reflexivity].
      apply String.eqb_eq in Hk. subst k'. contradiction.
Qed.

Lemma params_in_app h d1 d2 :
  params_in h (d1 ++ d2)%list = (params_in h d1 ++ params_in h d2)%list.
Proof.
  induction d1 as [|[k v] d1 IH]; simpl; [reflexivity|].
  destruct v; simpl; now rewrite IH.
Qed.

Lemma plain_dict s k :
  plain_attribute s k ->
  forall a, dict_get k (OutputStruct.__dict__ (OutputStruct.self s))
            <> Some (OutputStruct.Params a).
Proof.
  intros H a Hd. apply (H a). unfold OutputStruct.lookup. now rewrite Hd.
Qed.

Lemma plain_missing s k :
  dict_get k (OutputStruct.__dict__ (OutputStruct.self s)) = None ->
  plain_attribute s k.
Proof.
  intros H a Hl. apply lookup_Params_dict in Hl. congruence.
Qed.

(** The default for [_name] and [_id] does not touch the parameter
    records. *)
Lemma default_step_params k v name s :
  OutputStruct.read_only k = false ->
  OutputStruct.lookup k s = Ok v ->
  plain_attribute s k ->
  exists s',
    (if OutputStruct.is_None v
     then OutputStruct.setattr k (OutputStruct.Py (VStr name))
     else OutputStruct.ret tt) s = (Ok tt, s') /\
    OutputStruct.heap s' = OutputStruct.heap s /\
    OutputStruct.repr_params (OutputStruct.heap s)
      (OutputStruct.__dict__ (OutputStruct.self s'))
    = OutputStruct.repr_params (OutputStruct.heap s)
        (OutputStruct.__dict__ (OutputStruct.self s)) /\
    OutputStruct.lookup k s'
    = Ok (if OutputStruct.is_None v then OutputStruct.Py (VStr name) else v) /\
    (forall k', k' <> k -> OutputStruct.lookup k' s' = OutputStruct.lookup k' s).
Proof.
  intros Hw Hv Hplain. destruct (OutputStruct.is_None v).
  - eexists. split; [now apply setattr_writable|].
    split; [reflexivity|]. split; [|split].
    + simpl. apply repr_params_set; [discriminate|now apply plain_dict].
    + apply lookup_set_dict_eq.
    + intros k' Hne. now apply lookup_setattr_ne.
  - exists s. repeat split; auto.
Qed.

(** The representation of a new output structure lists its parameter
    records in the order of the call: [user_params], [cosmo_params], then
    the keyword arguments that are parameter records, in the order
    given, after the name of the structure. Unlike the fields of a
    parameter record, they are not sorted. *)
Theorem repr_lists_parameters_in_call_order E cls h up cp kwargs s' :
  NoDup (keys kwargs) ->
  (forall k, In k (keys kwargs) ->
             ~ In k ["user_params"; "cosmo_params"; "_name"; "_id"; "filled"]) ->
  OutputStruct.__init__ E (OutputStruct.Params up) (OutputStruct.Params cp)
    false kwargs (OutputStruct.blank cls h) = (Ok tt, s') ->
  OutputStruct.__repr__ s'
  = (rs <- reprs (h up :: h cp :: params_in h kwargs) ;;
     Ok (default_name (OutputStruct.cls__name cls) cls
         ++ "(" ++ join "; " rs ++ ")")).
Proof.
  intros Hnd Hkeys Hinit.
  set (sa := OutputStruct.set_dict
               (OutputStruct.set_dict (OutputStruct.blank cls h)
                  (dict_set "user_params" (OutputStruct.Params up) []))
               (dict_set "cosmo_params" (OutputStruct.Params cp)
                  (dict_set "user_params" (OutputStruct.Params up) []))).
  assert (Hmiss : forall k,
             In k ["_name"; "_id"; "filled"] ->
             dict_get k (OutputStruct.__dict__ (OutputStruct.self sa) ++ kwargs)%list
             = None).
  { intros k Hk. rewrite dict_get_app.
    assert (Hkw : dict_get k kwargs = None).
    { destruct (dict_get k kwargs) as [v|] eqn:Hg; [|reflexivity].
      apply dict_get_In_keys in Hg. exfalso. apply (Hkeys k Hg).
      simpl in *. tauto. }
    rewrite Hkw.
    destruct Hk as [<-|[<-|[<-|[]]]]; reflexivity. }
  rewrite init_prefix in Hinit. fold sa in Hinit.
  assert (Hw : existsb OutputStruct.read_only (keys kwargs) = false).
  { destruct (existsb OutputStruct.read_only (keys kwargs)) eqn:Hw;
      [|reflexivity].
    destruct (for_each_setattr_refused (fun v => v) kwargs sa Hw) as [sr Hr].
    cbv beta in Hr. unfold OutputStruct.bind at 1 in Hinit.
    rewrite Hr in Hinit. discriminate Hinit. }
  assert (Hrun : OutputStruct.for_each kwargs
                   (fun kv => OutputStruct.setattr (fst kv) (snd kv)) sa
                 = (Ok tt,
                    OutputStruct.set_dict sa
                      (OutputStruct.__dict__ (OutputStruct.self sa) ++ kwargs)%list)).
  { apply for_each_setattr_append; [exact Hw|exact Hnd|].
    intros k Hin. specialize (Hkeys k Hin).
    change (OutputStruct.__dict__ (OutputStruct.self sa))
      with [("user_params", OutputStruct.Params up);
            ("cosmo_params", OutputStruct.Params cp)].
    cbn [dict_get].
    destruct (String.eqb k "user_params") eqn:H1.
    { apply String.eqb_eq in H1. subst k. exfalso. apply Hkeys. now left. }
    destruct (String.eqb k "cosmo_params") eqn:H2; [|reflexivity].
    apply String.eqb_eq in H2. subst k. exfalso. apply Hkeys.
    right. now left. }
  set (s1 := OutputStruct.set_dict sa
               (OutputStruct.__dict__ (OutputStruct.self sa) ++ kwargs)%list)
    in *.
  assert (Hn : OutputStruct.lookup "_name" s1
               = Ok (OutputStruct.of_option (OutputStruct.cls__name cls))).
  { unfold OutputStruct.lookup.
    change (OutputStruct.__dict__ (OutputStruct.self s1))
      with (OutputStruct.__dict__ (OutputStruct.self sa) ++ kwargs)%list.
    rewrite (Hmiss "_name") by (simpl; tauto).
    now rewrite String.eqb_refl. }
  destruct (default_step_params "_name" _ (OutputStruct.__name__ cls) s1
              eq_refl Hn)
    as (s2 & Hrun2 & Hh2 & Hr2 & Hn2 & Hk2).
  { apply plain_missing. apply Hmiss. simpl. tauto. }
  destruct (lookup_id s2) as [vi Hi].
  destruct (default_step_params "_id" vi (OutputStruct.__name__ cls) s2
              eq_refl Hi)
    as (s3 & Hrun3 & Hh3 & Hr3 & Hi3 & Hk3).
  { intros a Ha. rewrite Hk2 in Ha by discriminate.
    revert Ha. apply plain_missing. apply Hmiss. simpl. tauto. }
  assert (Hs' : s' = OutputStruct.set_dict s3
                       (dict_set "filled" (OutputStruct.Py (VBool false))
                          (OutputStruct.__dict__ (OutputStruct.self s3)))).
  { unfold OutputStruct.bind at 1 in Hinit.
    rewrite Hrun in Hinit.
    unfold OutputStruct.bind at 1, OutputStruct.ret at 1 in Hinit.
    unfold OutputStruct.bind at 1, OutputStruct.reader at 1 in Hinit.
    unfold OutputStruct.bind at 1, OutputStruct.getattr at 1,
      OutputStruct.reader at 1 in Hinit.
    rewrite Hn in Hinit. unfold OutputStruct.bind at 1 in Hinit.
    change (OutputStruct.__class__ (OutputStruct.self s1)) with cls in Hinit.
    rewrite Hrun2 in Hinit.
    unfold OutputStruct.bind at 1, OutputStruct.getattr at 1,
      OutputStruct.reader at 1 in Hinit.
    rewrite Hi in Hinit. unfold OutputStruct.bind at 1 in Hinit.
    rewrite Hrun3 in Hinit.
    rewrite setattr_writable in Hinit by reflexivity.
    now inversion Hinit. }
  assert (Hfilled : plain_attribute s3 "filled").
  { intros a Ha. rewrite Hk3, Hk2 in Ha by discriminate.
    revert Ha. apply plain_missing. apply Hmiss. simpl. tauto. }
  unfold OutputStruct.__repr__, OutputStruct.str_attr.
  rewrite Hs'. rewrite lookup_setattr_ne by discriminate.
  rewrite Hk3 by discriminate. rewrite Hn2.
  cbn [OutputStruct.set_dict OutputStruct.heap OutputStruct.self
       OutputStruct.__dict__].
  rewrite repr_params_set; [|discriminate|now apply plain_dict].
  rewrite Hh3, Hh2, <- Hh2, Hr3, Hh2, Hr2.
  change (OutputStruct.heap s1) with h.
  change (OutputStruct.__dict__ (OutputStruct.self s1))
    with ([("user_params", OutputStruct.Params up);
           ("cosmo_params", OutputStruct.Params cp)] ++ kwargs)%list.
  rewrite repr_params_reprs, params_in_app.
  change (params_in h [("user_params", OutputStruct.Params up);
                       ("cosmo_params", OutputStruct.Params cp)])
    with [h up; h cp].
  change ([h up; h cp] ++ params_in h kwargs)%list
    with (h up :: h cp :: params_in h kwargs).
  rewrite is_None_of_option.
  destruct (OutputStruct.cls__name cls); reflexivity.
Qed.

Lemma repr_lists_parameters_in_call_order_witness :
  let E := disk_env "/cache" init_field0 [] in
  let h := heap_of CosmoParams 1 in
  let build kw :=
    snd (OutputStruct.__init__ E (OutputStruct.Params 4096)
           (OutputStruct.Params 8192) false kw (OutputStruct.blank Boxes h)) in
  OutputStruct.__repr__
    (build [("first", OutputStruct.Params 8192);
            ("second", OutputStruct.Params 4096)])
  = Ok "Boxes(UserParams(HII_DIM:64); CosmoParams(SIGMA_8:0.8); CosmoParams(SIGMA_8:0.8); UserParams(HII_DIM:64))" /\
  OutputStruct.__repr__
    (build [("second", OutputStruct.Params 4096);
            ("first", OutputStruct.Params 8192)])
  = Ok "Boxes(UserParams(HII_DIM:64); CosmoParams(SIGMA_8:0.8); UserParams(HII_DIM:64); CosmoParams(SIGMA_8:0.8))".
Proof.
  intros E h build. split.
  - apply (repr_lists_parameters_in_call_order E Boxes h 4096 8192
             [("first", OutputStruct.Params 8192);
              ("second", OutputStruct.Params 4096)]).
    + repeat constructor; simpl; intuition discriminate.
    + intros k [<-|[<-|[]]]; simpl; intuition discriminate.
    + vm_compute. reflexivity.
  - apply (repr_lists_parameters_in_call_order E Boxes h 4096 8192
             [("second", OutputStruct.Params 4096);
              ("first", OutputStruct.Params 8192)]).
    + repeat constructor; simpl; intuition discriminate.
    + intros k [<-|[<-|[]]]; simpl; intuition discriminate.
    + vm_compute. reflexivity.
Defined.
